(** * CMORPH daily ingest: a shallow embedding of
      [src/backend/ingest/ingest_cmorph_day.py] and the properties of its
      descriptor parser, grid decoder, spatial subsetter and archive writer.

    Python values are modelled as the interpreter has them: [float] is
    IEEE-754 binary64 and numpy's ['f'] is binary32, both through the
    Standard Library's executable specification [SpecFloat]; [int] is [Z];
    [str] is [string]; a raised exception is the [Raise] branch of [result];
    the file system and the open NetCDF dataset are an explicit state. *)

From Stdlib Require Import ZArith List String Ascii Bool Lia.
From Stdlib Require Import Floats.SpecFloat DecimalString Strings.Byte.
From stdpp Require Import gmap strings list fin_maps.

Import ListNotations.
Local Open Scope string_scope.
Local Open Scope Z_scope.

(* ===================================================================== *)
(** ** Exceptions and fallible computations                               *)
(* ===================================================================== *)

(** The Python exceptions the ingest can raise.  [OutOfFuel] is not a Python
    exception: it marks a loop of the model that ran out of fuel, that is a
    run of the source that had not finished within the given bound. *)
Inductive exn : Type :=
| KeyError (key : string)
| IndexError
| ValueError
| TypeError
| AttributeError
| OverflowError
| FileNotFoundError (path : string)
| URLError (url : string)
| OSError
| OutOfFuel.

Inductive result (A : Type) : Type :=
| Ok (a : A)
| Raise (e : exn).
Arguments Ok {A} a.
Arguments Raise {A} e.

Definition rbind {A B} (r : result A) (k : A -> result B) : result B :=
  match r with
  | Ok a => k a
  | Raise e => Raise e
  end.

Definition of_option {A} (e : exn) (o : option A) : result A :=
  match o with
  | Some a => Ok a
  | None => Raise e
  end.

Definition is_ok {A} (r : result A) : bool :=
  match r with Ok _ => true | Raise _ => false end.

Notation "'do' x <- r ; k" := (rbind r (fun x => k))
  (at level 10, x name, r at level 100, k at level 200,
   format "'[v' 'do'  x  <-  r ; '/' k ']'").

(* ===================================================================== *)
(** ** Floating point: Python [float] (binary64) and numpy ['f'] (binary32) *)
(* ===================================================================== *)

Module F64.
Definition prec : Z := 53.
Definition emax : Z := 1024.
Definition t := spec_float.
Definition add : t -> t -> t := SFadd prec emax.
Definition mul : t -> t -> t := SFmul prec emax.
Definition div : t -> t -> t := SFdiv prec emax.
Definition ltb : t -> t -> bool := SFltb.
Definition leb : t -> t -> bool := SFleb.
Definition eqb : t -> t -> bool := SFeqb.
Definition nan : t := S754_nan.
(** The binary64 number nearest to [m * 2^e] (ties to even). *)
Definition of_scaled (m e : Z) : t := binary_normalize prec emax m e false.
Definition of_Z (n : Z) : t := of_scaled n 0.
Definition is_nan (x : t) : bool := match x with S754_nan => true | _ => false end.
Definition is_finite (x : t) : bool :=
  match x with S754_zero _ | S754_finite _ _ _ => true | _ => false end.
End F64.

Module F32.
Definition prec : Z := 24.
Definition emax : Z := 128.
Definition t := spec_float.
Definition eqb : t -> t -> bool := SFeqb.
Definition nan : t := S754_nan.
Definition is_nan (x : t) : bool := match x with S754_nan => true | _ => false end.
Definition is_finite (x : t) : bool :=
  match x with S754_zero _ | S754_finite _ _ _ => true | _ => false end.
(** Rounding a binary64 value to binary32, as [np.array(values, 'f4')]
    and numpy's scalar casts do. *)
Definition of_f64 (x : F64.t) : t :=
  match x with
  | S754_finite s m e => binary_round prec emax s m e
  | _ => x
  end.
(** The (exact) widening of a binary32 value to binary64. *)
Definition to_f64 (x : t) : F64.t :=
  match x with
  | S754_finite s m e => binary_round F64.prec F64.emax s m e
  | _ => x
  end.
(** The value of a 32-bit pattern: sign bit 31, exponent bits 30..23,
    fraction bits 22..0. *)
Definition of_bits (w : Z) : t :=
  let s := Z.testbit w 31 in
  let e := Z.land (Z.shiftr w 23) 255 in
  let m := Z.land w (Z.ones 23) in
  if e =? 0 then
    match m with
    | Zpos p => S754_finite s p (-149)
    | _ => S754_zero s
    end
  else if e =? 255 then
    (if m =? 0 then S754_infinity s else S754_nan)
  else
    match m + 2 ^ 23 with
    | Zpos p => S754_finite s p (e - 150)
    | _ => S754_nan
    end.
End F32.

(** [float(n)] for a Python int, as in [int * float]: the nearest binary64
    value; an int beyond the binary64 range raises [OverflowError]. *)
Definition float_of_int (n : Z) : result F64.t :=
  match F64.of_Z n with
  | S754_infinity _ => Raise OverflowError
  | x => Ok x
  end.

(* ===================================================================== *)
(** ** Python text: [str.split], iteration over the lines of a text file,
       [float(str)], [int(str)], [str(int)], [datetime.strptime]          *)
(* ===================================================================== *)

Definition code (c : ascii) : Z := Z.of_N (N_of_ascii c).

(** The ASCII characters [str.split()] treats as white space. *)
Definition is_space (c : ascii) : bool :=
  let n := code c in
  ((9 <=? n) && (n <=? 13)) || ((28 <=? n) && (n <=? 32)).

Definition snoc (s : string) (c : ascii) : string := s +:+ String c "".

Definition flush (cur : string) (rest : list string) : list string :=
  match cur with
  | EmptyString => rest
  | _ => cur :: rest
  end.

(** [split_go s cur]: [cur] is the word being read. *)
Fixpoint split_go (s cur : string) : list string :=
  match s with
  | EmptyString => flush cur []
  | String c s' =>
      if is_space c then flush cur (split_go s' "")
      else split_go s' (snoc cur c)
  end.

(** [line.split()] *)
Definition split (line : string) : list string := split_go line "".

(** [for line in fp] on a file opened in text mode: the text is cut at
    ["\n"], ["\r\n"] and ["\r"] (universal newlines); a last line without
    terminator is a line, an empty remainder is not.  The terminator is left
    out: [split] would discard it. *)
Fixpoint lines_go (s cur : string) (started : bool) : list string :=
  match s with
  | EmptyString => if started then [cur] else []
  | String c s' =>
      if (code c =? 10) then cur :: lines_go s' "" false
      else if (code c =? 13) then
        match s' with
        | String c' s'' =>
            if (code c' =? 10) then cur :: lines_go s'' "" false
            else cur :: lines_go s' "" false
        | EmptyString => [cur]
        end
      else lines_go s' (snoc cur c) true
  end.

Definition readlines (text : string) : list string := lines_go text "" false.

Definition digit_of (c : ascii) : option Z :=
  let n := code c in
  if (48 <=? n) && (n <=? 57) then Some (n - 48) else None.

(** The rest of a digit part [digit (["_"] digit)*]: accumulated value,
    number of digits, unread remainder. *)
Fixpoint digits_go (s : list ascii) (acc : Z) (n : Z) : Z * Z * list ascii :=
  match s with
  | [] => (acc, n, [])
  | c :: s' =>
      match digit_of c with
      | Some d => digits_go s' (10 * acc + d) (n + 1)
      | None =>
          if (code c =? 95) then
            match s' with
            | c2 :: s'' =>
                match digit_of c2 with
                | Some d => digits_go s'' (10 * acc + d) (n + 1)
                | None => (acc, n, s)
                end
            | [] => (acc, n, s)
            end
          else (acc, n, s)
      end
  end.

Definition digitpart (s : list ascii) : option (Z * Z * list ascii) :=
  match s with
  | c :: s' =>
      match digit_of c with
      | Some d => Some (digits_go s' d 1)
      | None => None
      end
  | [] => None
  end.

(** An optional sign: [true] for ["-"]. *)
Definition sign_of (s : list ascii) : bool * list ascii :=
  match s with
  | c :: s' =>
      if (code c =? 45) then (true, s')
      else if (code c =? 43) then (false, s')
      else (false, s)
  | [] => (false, [])
  end.

(** [int(token)] in base ten. *)
Definition py_int (tok : string) : option Z :=
  let '(neg, s) := sign_of (list_ascii_of_string tok) in
  match digitpart s with
  | Some (v, _, []) => Some (if neg then - v else v)
  | _ => None
  end.

(** The optional exponent of a decimal literal, which must end the token:
    the result is the decimal exponent added to [e10]. *)
Definition exponent_of (s : list ascii) (e10 : Z) : option Z :=
  match s with
  | [] => Some e10
  | c :: s' =>
      if (code c =? 101) || (code c =? 69) then
        let '(neg, s1) := sign_of s' in
        match digitpart s1 with
        | Some (v, _, []) => Some (e10 + (if neg then - v else v))
        | _ => None
        end
      else None
  end.

(** An unsigned decimal literal [digits ["." [digits]] [exp]] or
    ["." digits [exp]] as mantissa and decimal exponent. *)
Definition decimal_of (s : list ascii) : option (Z * Z) :=
  match digitpart s with
  | Some (ip, _, rest) =>
      match rest with
      | c :: r1 =>
          if (code c =? 46) then
            match digitpart r1 with
            | Some (fp, nf, r2) =>
                option_map (pair (ip * 10 ^ nf + fp)) (exponent_of r2 (- nf))
            | None => option_map (pair ip) (exponent_of r1 0)
            end
          else option_map (pair ip) (exponent_of rest 0)
      | [] => Some (ip, 0)
      end
  | None =>
      match s with
      | c :: r1 =>
          if (code c =? 46) then
            match digitpart r1 with
            | Some (fp, nf, r2) => option_map (pair fp) (exponent_of r2 (- nf))
            | None => None
            end
          else None
      | [] => None
      end
  end.

(** The binary64 number nearest to [m * 10^e10], with sign [neg]. *)
Definition f64_of_decimal (neg : bool) (m e10 : Z) : F64.t :=
  match m with
  | Zpos p =>
      if (0 <=? e10) then
        match 10 ^ e10 with
        | Zpos q => binary_round F64.prec F64.emax neg (p * q) 0
        | _ => S754_nan
        end
      else
        match 10 ^ (- e10) with
        | Zpos q => F64.div (S754_finite neg p 0) (S754_finite false q 0)
        | _ => S754_nan
        end
  | _ => S754_zero neg
  end.

Definition lower (c : ascii) : ascii :=
  let n := code c in
  if (65 <=? n) && (n <=? 90) then ascii_of_N (Z.to_N (n + 32)) else c.

Definition lower_string (s : list ascii) : string :=
  string_of_list_ascii (map lower s).

(** [float(token)]: a decimal literal, or [inf], [infinity], [nan] in any
    letter case, with an optional sign. *)
Definition py_float (tok : string) : option F64.t :=
  let '(neg, s) := sign_of (list_ascii_of_string tok) in
  let w := lower_string s in
  if (w =? "inf")%string || (w =? "infinity")%string then Some (S754_infinity neg)
  else if (w =? "nan")%string then Some S754_nan
  else
    match decimal_of s with
    | Some (m, e10) => Some (f64_of_decimal neg m e10)
    | None => None
    end.

(** [str(n)] and [str(n).zfill(2)] for an int. *)
Definition str_of_int (n : Z) : string := NilZero.string_of_int (Z.to_int n).

Definition zfill2 (s : string) : string :=
  match s with
  | EmptyString => "00"
  | String c EmptyString => String "0" s
  | _ => s
  end.


Fixpoint join (sep : string) (ws : list string) : string :=
  match ws with
  | [] => ""
  | [w] => w
  | w :: ws' => w +:+ sep +:+ join sep ws'
  end.

(** [s[n:]] *)
Fixpoint string_drop (n : nat) (s : string) : string :=
  match n, s with
  | S n', String _ s' => string_drop n' s'
  | _, _ => s
  end.

(** [s.startswith(p)] *)
Fixpoint starts_with (p s : string) : bool :=
  match p, s with
  | EmptyString, _ => true
  | String a p', String b s' => (code a =? code b) && starts_with p' s'
  | _, _ => false
  end.

(** [xs[i]] on a list: [IndexError] out of range. *)
Definition item {A} (xs : list A) (i : nat) : result A :=
  of_option IndexError (nth_error xs i).

(* --------------------------------------------------------------------- *)
(** *** Calendar dates and [datetime.strptime]                            *)
(* --------------------------------------------------------------------- *)

Record date : Type := mk_date { year : Z; month : Z; day : Z }.

Definition is_leap (y : Z) : bool :=
  (y mod 4 =? 0) && (negb (y mod 100 =? 0) || (y mod 400 =? 0)).

Definition days_in_month (y m : Z) : Z :=
  if (m =? 2) then (if is_leap y then 29 else 28)
  else if (m =? 4) || (m =? 6) || (m =? 9) || (m =? 11) then 30
  else 31.

(** The Python ints that fit a C [int]. *)
Definition c_int (v : Z) : bool := (- 2 ^ 31 <=? v) && (v <? 2 ^ 31).

(** [datetime(y, m, d)]: the arguments are first converted to C ints
    ([OverflowError] for one that does not fit), then checked:
    [ValueError] unless the date exists. *)
Definition make_date (y m d : Z) : result date :=
  if negb (c_int y && c_int m && c_int d) then Raise OverflowError
  else if (1 <=? y) && (y <=? 9999) && (1 <=? m) && (m <=? 12)
          && (1 <=? d) && (d <=? days_in_month y m)
  then Ok (mk_date y m d) else Raise ValueError.

Definition days_before_year (y : Z) : Z :=
  let y1 := y - 1 in y1 * 365 + y1 / 4 - y1 / 100 + y1 / 400.

Fixpoint days_before_month_go (y : Z) (n : nat) : Z :=
  match n with
  | O => 0
  | S n' => days_before_month_go y n' + days_in_month y (Z.of_nat n)
  end.

(** Days of the year before the first day of month [m]. *)
Definition days_before_month (y m : Z) : Z :=
  days_before_month_go y (Z.to_nat (m - 1)).

(** [date.toordinal()]: 0001-01-01 is day 1. *)
Definition toordinal (d : date) : Z :=
  days_before_year (year d) + days_before_month (year d) (month d) + day d.

(** [(a - b).days] for two datetimes at midnight. *)
Definition days_between (a b : date) : Z := toordinal a - toordinal b.

(** [strptime] turns its format into a regular expression and takes the
    first match found by backtracking: a matcher lists, in that order, the
    ways to read a value off the front of the text. *)
Definition matcher : Type := list ascii -> list (Z * list ascii).

Definition re_digits2 (ok : Z -> Z -> bool) : matcher := fun s =>
  match s with
  | c1 :: c2 :: r =>
      match digit_of c1, digit_of c2 with
      | Some a, Some b => if ok a b then [(10 * a + b, r)] else []
      | _, _ => []
      end
  | _ => []
  end.

Definition re_digit1 (ok : Z -> bool) : matcher := fun s =>
  match s with
  | c1 :: r =>
      match digit_of c1 with
      | Some a => if ok a then [(a, r)] else []
      | None => []
      end
  | _ => []
  end.

Definition re_char (n : Z) : matcher := fun s =>
  match s with
  | c :: r => if (code c =? n) then [(0, r)] else []
  | [] => []
  end.

Definition re_alt (ms : list matcher) : matcher := fun s =>
  flat_map (fun m : matcher => m s) ms.

Definition re_then {A} (m : matcher) (k : Z -> list ascii -> list A) (s : list ascii) : list A :=
  flat_map (fun vr : Z * list ascii => k (fst vr) (snd vr)) (m s).

(** [%d]: [3[0-1]|[1-2]\d|0[1-9]|[1-9]| [1-9]] *)
Definition re_d : matcher :=
  re_alt [ re_digits2 (fun a b => (a =? 3) && (b <=? 1));
           re_digits2 (fun a _ => (1 <=? a) && (a <=? 2));
           re_digits2 (fun a b => (a =? 0) && (1 <=? b));
           re_digit1 (fun a => 1 <=? a);
           (fun s => re_then (re_char 32) (fun _ r => re_digit1 (fun a => 1 <=? a) r) s) ].

(** [%m]: [1[0-2]|0[1-9]|[1-9]] *)
Definition re_m : matcher :=
  re_alt [ re_digits2 (fun a b => (a =? 1) && (b <=? 2));
           re_digits2 (fun a b => (a =? 0) && (1 <=? b));
           re_digit1 (fun a => 1 <=? a) ].

(** [%Y]: [\d\d\d\d] *)
Definition re_Y : matcher := fun s =>
  re_then (re_digits2 (fun _ _ => true))
    (fun hi r => re_then (re_digits2 (fun _ _ => true)) (fun lo r' => [(100 * hi + lo, r')]) r) s.

Definition month_abbr : list string :=
  ["jan"; "feb"; "mar"; "apr"; "may"; "jun"; "jul"; "aug"; "sep"; "oct"; "nov"; "dec"].

Fixpoint index_of (w : string) (ws : list string) (i : Z) : option Z :=
  match ws with
  | [] => None
  | x :: ws' => if String.eqb w x then Some i else index_of w ws' (i + 1)
  end.

(** [%b]: an abbreviated month name of the C locale, in any letter case. *)
Definition re_b : matcher := fun s =>
  match s with
  | c1 :: c2 :: c3 :: r =>
      match index_of (lower_string [c1; c2; c3]) month_abbr 1 with
      | Some m => [(m, r)]
      | None => []
      end
  | _ => []
  end.

(** The first match must use up the text ("unconverted data remains"
    otherwise), and the date must exist. *)
Definition strptime_finish (ms : list (Z * Z * Z * list ascii)) : result date :=
  match ms with
  | (y, m, d, []) :: _ => make_date y m d
  | _ => Raise ValueError
  end.

(** [datetime.strptime(s, '%Y-%m-%d')] *)
Definition strptime_Ymd (s : string) : result date :=
  strptime_finish
    (re_then re_Y (fun y r1 =>
     re_then (re_char 45) (fun _ r2 =>
     re_then re_m (fun m r3 =>
     re_then (re_char 45) (fun _ r4 =>
     re_then re_d (fun d r5 => [(y, m, d, r5)]) r4) r3) r2) r1)
     (list_ascii_of_string s)).

(** [datetime.strptime(s, '%d%b%Y')] *)
Definition strptime_dbY (s : string) : result date :=
  strptime_finish
    (re_then re_d (fun d r1 =>
     re_then re_b (fun m r2 =>
     re_then re_Y (fun y r3 => [(y, m, d, r3)]) r2) r1)
     (list_ascii_of_string s)).

(* ===================================================================== *)
(** ** [_read_description]: the descriptor parser                         *)
(* ===================================================================== *)

(** The dictionary [data_dict]: a key that was never assigned is [None],
    and reading it raises [KeyError]. *)
Record data_dict : Type := mk_dict {
  undef : option F64.t;
  xdef_count : option Z;
  xdef_start : option F64.t;
  xdef_increment : option F64.t;
  ydef_count : option Z;
  ydef_start : option F64.t;
  ydef_increment : option F64.t;
  start_date : option date;
  little_endian : option bool;
  variable_description : option string;
  title : option string
}.

Definition empty_dict : data_dict :=
  mk_dict None None None None None None None None None None None.

(** [data_dict[key]] *)
Definition getitem {A} (key : string) (field : option A) : result A :=
  of_option (KeyError key) field.

Definition to_float (tok : string) : result F64.t := of_option ValueError (py_float tok).
Definition to_int (tok : string) : result Z := of_option ValueError (py_int tok).

(** One turn of the loop [for line in fp] (lines 363-387). *)
Definition read_line (obs_type : string) (d : data_dict) (line : string) : result data_dict :=
  let words := split line in
  do w0 <- item words 0;
  if String.eqb w0 "UNDEF" then
    do w1 <- item words 1;
    do v <- to_float w1;
    Ok (mk_dict (Some v) (xdef_count d) (xdef_start d) (xdef_increment d)
          (ydef_count d) (ydef_start d) (ydef_increment d)
          (start_date d) (little_endian d) (variable_description d) (title d))
  else if String.eqb w0 "XDEF" then
    do w1 <- item words 1;
    do n <- to_int w1;
    do w3 <- item words 3;
    do s <- to_float w3;
    do w4 <- item words 4;
    do i <- to_float w4;
    Ok (mk_dict (undef d) (Some n) (Some s) (Some i)
          (ydef_count d) (ydef_start d) (ydef_increment d)
          (start_date d) (little_endian d) (variable_description d) (title d))
  else if String.eqb w0 "YDEF" then
    do w1 <- item words 1;
    do n <- to_int w1;
    do w3 <- item words 3;
    do s <- to_float w3;
    do w4 <- item words 4;
    do i <- to_float w4;
    Ok (mk_dict (undef d) (xdef_count d) (xdef_start d) (xdef_increment d)
          (Some n) (Some s) (Some i)
          (start_date d) (little_endian d) (variable_description d) (title d))
  else if String.eqb w0 "TDEF" then
    do w3 <- item words 3;
    do t <- (if String.eqb obs_type "adjusted" || String.eqb obs_type "icdr"
             then strptime_dbY (string_drop 3 w3)
             else strptime_dbY w3);
    Ok (mk_dict (undef d) (xdef_count d) (xdef_start d) (xdef_increment d)
          (ydef_count d) (ydef_start d) (ydef_increment d)
          (Some t) (little_endian d) (variable_description d) (title d))
  else if String.eqb w0 "OPTIONS" then
    do w2 <- item words 2;
    Ok (mk_dict (undef d) (xdef_count d) (xdef_start d) (xdef_increment d)
          (ydef_count d) (ydef_start d) (ydef_increment d)
          (start_date d) (Some (negb (String.eqb w2 "big_endian")))
          (variable_description d) (title d))
  else if String.eqb w0 "cmorph" then
    Ok (mk_dict (undef d) (xdef_count d) (xdef_start d) (xdef_increment d)
          (ydef_count d) (ydef_start d) (ydef_increment d)
          (start_date d) (little_endian d) (Some (join " " (skipn 4 words))) (title d))
  else if String.eqb w0 "TITLE" then
    Ok (mk_dict (undef d) (xdef_count d) (xdef_start d) (xdef_increment d)
          (ydef_count d) (ydef_start d) (ydef_increment d)
          (start_date d) (little_endian d) (variable_description d)
          (Some (join " " (skipn 1 words))))
  else Ok d.

(** The whole loop: the first line that raises ends the parse. *)
Fixpoint read_lines (obs_type : string) (d : data_dict) (lines : list string) : result data_dict :=
  match lines with
  | [] => Ok d
  | line :: rest =>
      do d' <- read_line obs_type d line;
      read_lines obs_type d' rest
  end.

(** The parse of a descriptor text (lines 360-387). *)
Definition parse_descriptor (obs_type : string) (text : string) : result data_dict :=
  read_lines obs_type empty_dict (readlines text).

(* ===================================================================== *)
(** ** [_frange] and [_find_closest]                                      *)
(* ===================================================================== *)

(** The generator [_frange(start, stop, step)] collected by [list(...)].
    The [while] loop need not end (a step that is absorbed by rounding
    never reaches [stop]), so the model counts the tests of its condition:
    [None] when [fuel] tests were not enough. *)
Fixpoint _frange (fuel : nat) (i stop step : F64.t) : option (list F64.t) :=
  match fuel with
  | O => None
  | S fuel' =>
      if F64.ltb i stop
      then option_map (cons i) (_frange fuel' (F64.add i step) stop step)
      else Some []
  end.

(** [bisect.bisect_right(a, x)]: [n] bounds the number of turns, and
    [hi - lo] turns are always enough. *)
Fixpoint bisect_right_loop (n : nat) (a : list F64.t) (x : F64.t) (lo hi : nat) : nat :=
  match n with
  | O => lo
  | S n' =>
      if (lo <? hi)%nat then
        let mid := ((lo + hi) / 2)%nat in
        if F64.ltb x (nth mid a F64.nan)
        then bisect_right_loop n' a x lo mid
        else bisect_right_loop n' a x (S mid) hi
      else lo
  end.

Definition bisect_right (a : list F64.t) (x : F64.t) : nat :=
  bisect_right_loop (length a) a x 0 (length a).

(** [bisect.bisect_left(a, x)] *)
Fixpoint bisect_left_loop (n : nat) (a : list F64.t) (x : F64.t) (lo hi : nat) : nat :=
  match n with
  | O => lo
  | S n' =>
      if (lo <? hi)%nat then
        let mid := ((lo + hi) / 2)%nat in
        if F64.ltb (nth mid a F64.nan) x
        then bisect_left_loop n' a x (S mid) hi
        else bisect_left_loop n' a x lo mid
      else lo
  end.

Definition bisect_left (a : list F64.t) (x : F64.t) : nat :=
  bisect_left_loop (length a) a x 0 (length a).

Definition _find_closest (sorted_values : list F64.t) (value : F64.t) (before : bool) : result nat :=
  let index := if before then bisect_left sorted_values value
               else bisect_right sorted_values value in
  if (index =? length sorted_values)%nat then Raise ValueError else Ok index.


(* ===================================================================== *)
(** ** numpy: reading, masking, reshaping and slicing the grid            *)
(* ===================================================================== *)

(** The items [np.fromfile(path, 'f')] cuts a file into: four bytes each,
    a shorter tail is dropped. *)
Fixpoint words32 (buf : list byte) : list (byte * byte * byte * byte) :=
  match buf with
  | b0 :: b1 :: b2 :: b3 :: rest => (b0, b1, b2, b3) :: words32 rest
  | _ => []
  end.

Definition byte_val (b : byte) : Z := Z.of_N (Byte.to_N b).

(** The 32-bit pattern of an item on the (little-endian) host. *)
Definition native_bits (w : byte * byte * byte * byte) : Z :=
  let '(b0, b1, b2, b3) := w in
  byte_val b0 + 2 ^ 8 * byte_val b1 + 2 ^ 16 * byte_val b2 + 2 ^ 24 * byte_val b3.

(** [ndarray.byteswap()] on one item. *)
Definition byteswap (w : byte * byte * byte * byte) : byte * byte * byte * byte :=
  let '(b0, b1, b2, b3) := w in (b3, b2, b1, b0).

(** Lines 288-290: the float32 items of the file, byte-swapped when the
    descriptor does not say little-endian. *)
Definition elements (is_little_endian : bool) (buf : list byte) : list F32.t :=
  map (fun w => F32.of_bits (native_bits (if is_little_endian then w else byteswap w)))
      (words32 buf).

(** numpy 1.x decides the type of [array == scalar] from the scalar's
    value: a Python float of magnitude below 3.4e38 (or not finite) is
    compared as float32, a larger one promotes the array to float64. *)
Definition fits_float32 (u : F64.t) : bool :=
  match u with
  | S754_finite _ _ _ => F64.ltb (SFabs u) (f64_of_decimal false 34 37)
  | _ => true
  end.

(** One entry of the mask [data == float(data_desc['undef'])]. *)
Definition np_equal (x : F32.t) (u : F64.t) : bool :=
  if fits_float32 u then F32.eqb x (F32.of_f64 u)
  else F64.eqb (F32.to_f64 x) u.

(** [data[data == undef] = np.NaN] *)
Definition mask_undef (u : F64.t) (data : list F32.t) : list F32.t :=
  map (fun x => if np_equal x u then F32.nan else x) data.

(** A two-dimensional array in row-major order (the leading axis of
    length one that the source carries along is left out). *)
Record Grid : Type := mk_grid { rows : nat; cols : nat; cells : list F32.t }.

(** [g[r, c]] *)
Definition cell (g : Grid) (r c : nat) : option F32.t :=
  if (r <? rows g)%nat && (c <? cols g)%nat
  then nth_error (cells g) (r * cols g + c) else None.

(** [np.reshape(data, (1, y, x))]: a dimension given as -1 is inferred
    from the size, any other negative one is refused, and the sizes must
    agree. *)
Definition np_reshape (data : list F32.t) (y x : Z) : result Grid :=
  let n := Z.of_nat (length data) in
  if (0 <=? y) && (0 <=? x) then
    if (n =? y * x) then Ok (mk_grid (Z.to_nat y) (Z.to_nat x) data)
    else Raise ValueError
  else if (y =? -1) && (0 <? x) then
    if (n mod x =? 0) then Ok (mk_grid (Z.to_nat (n / x)) (Z.to_nat x) data)
    else Raise ValueError
  else if (x =? -1) && (0 <? y) then
    if (n mod y =? 0) then Ok (mk_grid (Z.to_nat y) (Z.to_nat (n / y)) data)
    else Raise ValueError
  else Raise ValueError.

(** [data[:, : lat_len, : lon_len]] *)
Definition crop (g : Grid) (lat_len lon_len : nat) : Grid :=
  let r := Nat.min (rows g) lat_len in
  let c := Nat.min (cols g) lon_len in
  mk_grid r c (flat_map (fun i => firstn c (skipn (i * cols g) (cells g))) (seq 0 r)).

(** Lines 289-294: from the bytes of a raw or adjusted daily file to the
    masked grid. *)
Definition decode_binary (data_desc : data_dict) (buf : list byte) : result Grid :=
  do le <- getitem "little_endian" (little_endian data_desc);
  let data := elements le buf in
  do u <- getitem "undef" (undef data_desc);
  let data := mask_undef u data in
  do y <- getitem "ydef_count" (ydef_count data_desc);
  do x <- getitem "xdef_count" (xdef_count data_desc);
  np_reshape data y x.

(** Lines 300-304: the same for the values of the variable [cmorph] of an
    ICDR file. *)
Definition decode_icdr (data_desc : data_dict) (data : list F32.t) : result Grid :=
  do u <- getitem "undef" (undef data_desc);
  let data := mask_undef u data in
  do y <- getitem "ydef_count" (ydef_count data_desc);
  do x <- getitem "xdef_count" (xdef_count data_desc);
  np_reshape data y x.

(* ===================================================================== *)
(** ** The NetCDF dataset, the file system and the effects of a run       *)
(* ===================================================================== *)

(** What the run writes into a NetCDF dataset (and, for an ICDR input
    file, the values of its variable [cmorph]).  A variable is [None]
    until it is created. *)
Record Dataset : Type := mk_ds {
  dim_lat : nat;
  dim_lon : nat;
  ds_title : option string;
  var_time : option (list Z);
  var_lat : option (list F32.t);
  var_lon : option (list F32.t);
  var_prcp : option (list Grid);
  attributes : list (string * string);
  var_cmorph : option (list F32.t)
}.

Definition empty_dataset : Dataset :=
  mk_ds 0 0 None None None None None [] None.

Inductive file : Type :=
| RawFile (content : list byte)
| NcFile (d : Dataset).

(** The collaborators outside the program: what the server holds at a URL
    and the two decompressors. *)
Record World : Type := mk_world {
  remote : string -> option file;
  gunzip : list byte -> option (list byte);
  bunzip2 : list byte -> option (list byte)
}.

(** The state of a run: the files by path, and the dataset object behind
    [output_dataset] while the [with] block is open. *)
Record State : Type := mk_state {
  files : gmap string file;
  output_dataset : Dataset
}.

Definition M (A : Type) : Type := State -> result A * State.

Definition ret {A} (a : A) : M A := fun s => (Ok a, s).
Definition raise {A} (e : exn) : M A := fun s => (Raise e, s).
Definition lift {A} (r : result A) : M A := fun s => (r, s).
Definition bind {A B} (m : M A) (k : A -> M B) : M B := fun s =>
  match m s with
  | (Ok a, s') => k a s'
  | (Raise e, s') => (Raise e, s')
  end.

Notation "x <- m ;; k" := (bind m (fun x => k))
  (at level 100, m at next level, right associativity).
Notation "m ;; k" := (bind m (fun _ => k))
  (at level 100, right associativity).

Definition when (b : bool) (m : M unit) : M unit := if b then m else ret tt.

Definition set_file (path : string) (f : file) : M unit := fun s =>
  (Ok tt, mk_state (<[path := f]> (files s)) (output_dataset s)).

Definition get_file (path : string) : M file := fun s =>
  (of_option (FileNotFoundError path) (files s !! path), s).

(** [urllib.request.urlretrieve(url, path)] *)
Definition urlretrieve (w : World) (url path : string) : M unit :=
  match remote w url with
  | Some f => set_file path f
  | None => raise (URLError url)
  end.

(** [os.remove(path)] *)
Definition os_remove (path : string) : M unit := fun s =>
  match files s !! path with
  | Some _ => (Ok tt, mk_state (delete path (files s)) (output_dataset s))
  | None => (Raise (FileNotFoundError path), s)
  end.

Definition string_of_bytes (bs : list byte) : string := string_of_list_byte bs.

(** [with open(path, 'r') as fp]: the text of the file. *)
Definition read_text (path : string) : M string :=
  f <- get_file path ;;
  match f with
  | RawFile bs => ret (string_of_bytes bs)
  | NcFile _ => raise ValueError
  end.

(** [with gzip.open(src, 'r') as f_in, open(dst, 'wb') as f_out:
    shutil.copyfileobj(f_in, f_out)] and the same with [bz2]: [dst] is
    created before the first byte is read. *)
Definition decompress_to (unzip : list byte -> option (list byte)) (src dst : string) : M unit :=
  f <- get_file src ;;
  set_file dst (RawFile []) ;;
  match f with
  | RawFile bs =>
      match unzip bs with
      | Some out => set_file dst (RawFile out)
      | None => raise OSError
      end
  | NcFile _ => raise OSError
  end.

(** [glob(prefix + '*')]: the paths that continue [prefix] within its
    directory ([prefix] is taken literally). *)
Definition no_slash (s : string) : bool :=
  forallb (fun c => negb (code c =? 47)) (list_ascii_of_string s).

Definition glob_prefix (prefix : string) (fs : gmap string file) : list string :=
  List.filter (fun p => starts_with prefix p && no_slash (string_drop (String.length prefix) p))
              (map fst (map_to_list fs)).

Definition glob (prefix : string) : M (list string) := fun s =>
  (Ok (glob_prefix prefix (files s)), s).

(** What the name [daily_files] is bound to: a path in download mode, the
    list returned by [glob] otherwise. *)
Inductive pyval : Type :=
| PyStr (path : string)
| PyList (paths : list string).

(** [repr(s)] for a string of code points below 256: in single quotes,
    or in double quotes when [s] has a single and no double quote; the
    quote, the backslash and what is not printable are escaped. *)
Definition hex_digit (n : Z) : ascii :=
  nth (Z.to_nat n) (list_ascii_of_string "0123456789abcdef") "0"%char.

Definition py_repr_char (quote c : ascii) : string :=
  let n := code c in
  if (n =? code quote) || (n =? 92) then String "\" (String c "")
  else if n =? 9 then "\t"
  else if n =? 10 then "\n"
  else if n =? 13 then "\r"
  else if (n <? 32) || (n =? 127) || ((128 <=? n) && (n <=? 160)) || (n =? 173)
  then String "\" (String "x" (String (hex_digit (n / 16)) (String (hex_digit (n mod 16)) "")))
  else String c "".

Definition py_repr (s : string) : string :=
  let cs := list_ascii_of_string s in
  let has q := existsb (fun c => code c =? q) cs in
  let quote := if has 39 && negb (has 34) then ascii_of_N 34 else ascii_of_N 39 in
  String quote (join "" (map (py_repr_char quote) cs)) +:+ String quote "".

(** [str(v)]: a string is itself, a list is its items' [repr]s in
    brackets. *)
Definition py_str (v : pyval) : string :=
  match v with
  | PyStr s => s
  | PyList ps => "[" +:+ join ", " (map py_repr ps) +:+ "]"
  end.

(** [np.fromfile(daily_files, 'f')], before the items are cut.  What is
    not a path is taken for an open file and its [flush] is called: a
    list has none. *)
Definition np_fromfile (daily_files : pyval) : M (list byte) :=
  match daily_files with
  | PyStr path =>
      f <- get_file path ;;
      match f with
      | RawFile bs => ret bs
      | NcFile _ => raise OSError
      end
  | PyList _ => raise AttributeError
  end.

(** [np.array(netCDF4.Dataset(daily_files, mode='r').variables['cmorph'])]:
    the file name is [str] of the argument, whatever that is. *)
Definition read_cmorph_variable (daily_files : pyval) : M (list F32.t) :=
  f <- get_file (py_str daily_files) ;;
  match f with
  | NcFile d => lift (getitem "cmorph" (var_cmorph d))
  | RawFile _ => raise OSError
  end.

(** [os.remove(daily_files)]: a list is refused. *)
Definition remove_daily (daily_files : pyval) : M unit :=
  match daily_files with
  | PyStr path => os_remove path
  | PyList _ => raise TypeError
  end.

(** An update of the open dataset. *)
Definition nc (f : Dataset -> Dataset) : M unit := fun s =>
  (Ok tt, mk_state (files s) (f (output_dataset s))).

(** [with netCDF4.Dataset(path, 'w') as output_dataset: body]: mode ['w']
    creates the file anew, whatever was at [path]; leaving the block, by
    its end or by an exception, closes the dataset, which leaves at [path]
    what had been written by then. *)
Definition with_dataset_w {A} (path : string) (body : M A) : M A := fun s =>
  let s0 := mk_state (<[path := NcFile empty_dataset]> (files s)) empty_dataset in
  let '(r, s1) := body s0 in
  (r, mk_state (<[path := NcFile (output_dataset s1)]> (files s1)) (output_dataset s1)).

(** netCDF4 fits the right-hand side of [variable[0, :, :] = data] to the
    slice: a dimension created with length 0 is unlimited and takes the
    length of the data; data of another shape is reshaped when the sizes
    agree, else broadcast when each of its lengths is the slice's or one,
    else refused. *)
Definition nc_conform (lat_dim lon_dim : nat) (g : Grid) : result Grid :=
  let L := if (lat_dim =? 0)%nat then rows g else lat_dim in
  let K := if (lon_dim =? 0)%nat then cols g else lon_dim in
  if (rows g =? L)%nat && (cols g =? K)%nat then Ok g
  else if (rows g * cols g =? L * K)%nat then Ok (mk_grid L K (cells g))
  else if ((rows g =? 1) || (rows g =? L))%nat && ((cols g =? 1) || (cols g =? K))%nat then
    Ok (mk_grid L K
          (flat_map (fun r => flat_map (fun c =>
              match nth_error (cells g)
                      ((if (rows g =? 1)%nat then 0 else r) * cols g
                       + (if (cols g =? 1)%nat then 0 else c)) with
              | Some v => [v]
              | None => []
              end) (seq 0 K)) (seq 0 L)))
  else Raise ValueError.

(** [data_variable[0, :, :] = g] *)
Definition assign_prcp_slice (g : Grid) : M unit := fun s =>
  let d := output_dataset s in
  match nc_conform (dim_lat d) (dim_lon d) g with
  | Ok g' =>
      (Ok tt, mk_state (files s)
         (mk_ds (dim_lat d) (dim_lon d) (ds_title d) (var_time d) (var_lat d) (var_lon d)
            (Some (g' :: tl (default [] (var_prcp d)))) (attributes d) (var_cmorph d)))
  | Raise e => (Raise e, s)
  end.

Definition set_dims (n_lat n_lon : nat) (d : Dataset) : Dataset :=
  mk_ds n_lat n_lon (ds_title d) (var_time d) (var_lat d) (var_lon d)
        (var_prcp d) (attributes d) (var_cmorph d).

Definition set_title (t : string) (d : Dataset) : Dataset :=
  mk_ds (dim_lat d) (dim_lon d) (Some t) (var_time d) (var_lat d) (var_lon d)
        (var_prcp d) (attributes d) (var_cmorph d).

Definition set_coordinates (time : list Z) (lat lon : list F32.t) (d : Dataset) : Dataset :=
  mk_ds (dim_lat d) (dim_lon d) (ds_title d) (Some time) (Some lat) (Some lon)
        (var_prcp d) (attributes d) (var_cmorph d).

Definition create_prcp (d : Dataset) : Dataset :=
  mk_ds (dim_lat d) (dim_lon d) (ds_title d) (var_time d) (var_lat d) (var_lon d)
        (Some []) (attributes d) (var_cmorph d).

Definition set_attrs (kvs : list (string * string)) (d : Dataset) : Dataset :=
  mk_ds (dim_lat d) (dim_lon d) (ds_title d) (var_time d) (var_lat d) (var_lon d)
        (var_prcp d) (attributes d ++ kvs) (var_cmorph d).

(* ===================================================================== *)
(** ** [_read_description], [_download_daily_files]                       *)
(* ===================================================================== *)

Definition descriptor_path (work_dir : string) : string :=
  work_dir +:+ "/" +:+ "cmorph_data_descriptor.txt".

Definition descriptor_url (obs_type : string) : string :=
  if String.eqb obs_type "raw"
  then "https://ftp.cpc.ncep.noaa.gov/precip/CMORPH_V1.0/CTL/CMORPH_V1.0_RAW_0.25deg-DLY_00Z.ctl"
  else "https://ftp.cpc.ncep.noaa.gov/precip/CMORPH_V1.0/CTL/CMORPH_V1.0_CRT_0.25deg-3HLY.ctl".

Definition _read_description (w : World) (work_dir : string)
    (download_file remove_file : bool) (obs_type : string) : M data_dict :=
  let descriptor_file := descriptor_path work_dir in
  when download_file (urlretrieve w (descriptor_url obs_type) descriptor_file) ;;
  text <- read_text descriptor_file ;;
  data_dict <- lift (parse_descriptor obs_type text) ;;
  when remove_file (os_remove descriptor_file) ;;
  ret data_dict.

(** The name of a daily file without its directory and extension. *)
Definition daily_name (obs_type : string) : string :=
  if String.eqb obs_type "raw" then "CMORPH_V0.x_RAW_0.25deg-DLY_00Z_"
  else if String.eqb obs_type "adjusted" then "CMORPH_V1.0_ADJ_0.25deg-DLY_00Z_"
  else "CMORPH_V0.x_ADJ_0.25deg-DLY_00Z_".

Definition _download_daily_files (w : World) (destination_dir : string)
    (year month day : Z) (obs_type : string) : M string :=
  let year_month := str_of_int year +:+ zfill2 (str_of_int month) in
  let url_base :=
    "https://ftp.cpc.ncep.noaa.gov/precip/" +:+
    (if String.eqb obs_type "raw"
     then "CMORPH_V0.x/RAW/0.25deg-DLY_00Z/" +:+ str_of_int year +:+ "/" +:+ year_month
     else if String.eqb obs_type "adjusted"
     then "CMORPH_V1.0/CRT/0.25deg-DLY_00Z/" +:+ str_of_int year +:+ "/" +:+ year_month
     else "CMORPH_RT/ICDR/0.25deg-DLY_00Z") in
  let year_month_day := year_month +:+ zfill2 (str_of_int day) in
  let filename_unzipped := daily_name obs_type +:+ year_month_day in
  let zip_extension :=
    if String.eqb obs_type "raw" then ".gz"
    else if String.eqb obs_type "adjusted" then ".bz2"
    else ".nc" in
  let filename_zipped := filename_unzipped +:+ zip_extension in
  let file_url := url_base +:+ "/" +:+ filename_zipped in
  let local_filename_zipped := destination_dir +:+ "/" +:+ filename_zipped in
  let local_filename_unzipped := destination_dir +:+ "/" +:+ filename_unzipped in
  urlretrieve w file_url local_filename_zipped ;;
  if String.eqb obs_type "adjusted" then
    decompress_to (bunzip2 w) local_filename_zipped local_filename_unzipped ;;
    ret local_filename_unzipped
  else if String.eqb obs_type "raw" then
    decompress_to (gunzip w) local_filename_zipped local_filename_unzipped ;;
    ret local_filename_unzipped
  else ret local_filename_zipped.

(* ===================================================================== *)
(** ** [ingest_cmorph_to_netcdf]                                          *)
(* ===================================================================== *)

(** [start + (count * increment)] with an int [count]. *)
Definition axis_stop (start : F64.t) (count : Z) (increment : F64.t) : result F64.t :=
  do c <- float_of_int count;
  Ok (F64.add start (F64.mul c increment)).

(** [l[a : b]] *)
Definition py_slice {A} (l : list A) (a b : nat) : list A := firstn (b - a) (skipn a l).

(** What lines 194-218 leave behind: the lengths of the full axes and the
    axis values the archive gets. *)
Record Axes : Type := mk_axes {
  lat_len : nat;
  lon_len : nat;
  lat_values : list F64.t;
  lon_values : list F64.t
}.

Definition conus_lat_lo : F64.t := F64.of_Z 23.
Definition conus_lat_hi : F64.t := F64.of_Z 50.
Definition conus_lon_lo : F64.t := F64.of_Z 232.
Definition conus_lon_hi : F64.t := F64.of_Z 295.

(** Lines 208-218 for one axis: the index range of the clip. *)
Definition conus_range (values : list F64.t) (lo hi : F64.t) : result (nat * nat) :=
  do i_start <- _find_closest values lo false;
  do i_end <- _find_closest values hi false;
  Ok (i_start, (i_end + 1)%nat).

(** Lines 194-218. *)
Definition compute_axes (fuel : nat) (data_desc : data_dict) (conus_only : bool) : result Axes :=
  do lat_start <- getitem "ydef_start" (ydef_start data_desc);
  do y_count <- getitem "ydef_count" (ydef_count data_desc);
  do y_inc <- getitem "ydef_increment" (ydef_increment data_desc);
  do lat_end <- axis_stop lat_start y_count y_inc;
  do lon_start <- getitem "xdef_start" (xdef_start data_desc);
  do x_count <- getitem "xdef_count" (xdef_count data_desc);
  do x_inc <- getitem "xdef_increment" (xdef_increment data_desc);
  do lon_end <- axis_stop lon_start x_count x_inc;
  do lat_all <- of_option OutOfFuel (_frange fuel lat_start lat_end y_inc);
  do lon_all <- of_option OutOfFuel (_frange fuel lon_start lon_end x_inc);
  if conus_only then
    do lat_start <- _find_closest lat_all conus_lat_lo false;
    do lat_end0 <- _find_closest lat_all conus_lat_hi false;
    do lon_start <- _find_closest lon_all conus_lon_lo false;
    do lon_end0 <- _find_closest lon_all conus_lon_hi false;
    Ok (mk_axes (length lat_all) (length lon_all)
          (py_slice lat_all lat_start (lat_end0 + 1))
          (py_slice lon_all lon_start (lon_end0 + 1)))
  else Ok (mk_axes (length lat_all) (length lon_all) lat_all lon_all).

Definition epoch : date := mk_date 1900 1 1.

(** Lines 272-284: the download, or the lookup in the work directory. *)
Definition locate_daily_files (w : World) (cmorph_dir : string) (date_download : date)
    (obs_type : string) (download_files : bool) : M pyval :=
  if download_files then
    path <- _download_daily_files w cmorph_dir (year date_download) (month date_download)
              (day date_download) obs_type ;;
    ret (PyStr path)
  else
    let suffix := str_of_int (year date_download) +:+ zfill2 (str_of_int (month date_download)) in
    let filename_pattern := cmorph_dir +:+ "/" +:+ daily_name obs_type +:+ suffix in
    daily_files <- glob filename_pattern ;;
    lift (item daily_files 0) ;;
    ret (PyList daily_files).

(** Lines 286-305: decode the located file and assign the slice. *)
Definition decode_and_insert (data_desc : data_dict) (axes : Axes) (obs_type : string)
    (daily_files : pyval) : M unit :=
  if negb (String.eqb obs_type "icdr") then
    buf <- np_fromfile daily_files ;;
    data <- lift (decode_binary data_desc buf) ;;
    assign_prcp_slice (crop data (lat_len axes) (lon_len axes))
  else
    values <- read_cmorph_variable daily_files ;;
    data <- lift (decode_icdr data_desc values) ;;
    assign_prcp_slice (crop data (lat_len axes) (lon_len axes)).

(** Lines 227-310: the body of the [with] block. *)
Definition archive_body (w : World) (cmorph_dir date obs_type : string)
    (download_files remove_files : bool) (data_desc : data_dict) (axes : Axes) : M unit :=
  nc (set_dims (length (lat_values axes)) (length (lon_values axes))) ;;
  t <- lift (getitem "title" (title data_desc)) ;;
  nc (set_title t) ;;
  nc (set_coordinates [] [] []) ;;
  nc (set_attrs [("time.units", "days since 1900-01-01");
                 ("lat.units", "degrees_north"); ("lon.units", "degrees_east");
                 ("time.long_name", "Time"); ("lat.long_name", "Latitude");
                 ("lon.long_name", "Longitude"); ("time.calendar", "gregorian")]) ;;
  date_download <- lift (strptime_Ymd date) ;;
  let days_since := days_between date_download epoch in
  nc (set_coordinates [days_since] (map F32.of_f64 (lat_values axes))
                      (map F32.of_f64 (lon_values axes))) ;;
  nc create_prcp ;;
  nc (set_attrs [("prcp.units", "mm"); ("prcp.standard_name", "precipitation");
                 ("prcp.long_name", "Precipitation"); ("prcp.description", t)]) ;;
  daily_files <- locate_daily_files w cmorph_dir date_download obs_type download_files ;;
  decode_and_insert data_desc axes obs_type daily_files ;;
  when remove_files (remove_daily daily_files).

(** Lines 225-310 *)
Definition archive_block (w : World) (cmorph_dir netcdf_file date obs_type : string)
    (download_files remove_files : bool) (data_desc : data_dict) (axes : Axes) : M unit :=
  with_dataset_w netcdf_file
    (archive_body w cmorph_dir date obs_type download_files remove_files data_desc axes).

(** Lines 192-218 *)
Definition prelude (w : World) (fuel : nat) (cmorph_dir obs_type : string)
    (download_files remove_files conus_only : bool) : M (data_dict * Axes) :=
  data_desc <- _read_description w cmorph_dir download_files remove_files obs_type ;;
  axes <- lift (compute_axes fuel data_desc conus_only) ;;
  ret (data_desc, axes).

Definition ingest_cmorph_to_netcdf (w : World) (fuel : nat)
    (cmorph_dir netcdf_file date obs_type : string)
    (download_files remove_files conus_only : bool) : M unit :=
  da <- prelude w fuel cmorph_dir obs_type download_files remove_files conus_only ;;
  archive_block w cmorph_dir netcdf_file date obs_type download_files remove_files
    (fst da) (snd da).

(** A run from a given file system: its outcome and the files it leaves. *)
Definition run (w : World) (fuel : nat) (cmorph_dir netcdf_file date obs_type : string)
    (download_files remove_files conus_only : bool) (fs : gmap string file)
    : result unit * gmap string file :=
  let '(r, s) := ingest_cmorph_to_netcdf w fuel cmorph_dir netcdf_file date obs_type
                   download_files remove_files conus_only (mk_state fs empty_dataset) in
  (r, files s).

(* ===================================================================== *)
(** ** [_compute_days_full_years]                                         *)
(* ===================================================================== *)

(** [range(a, b)] *)
Definition py_range (a b : Z) : list Z :=
  map (fun k => a + Z.of_nat k) (seq 0 (Z.to_nat (b - a))).

(** Lines 126-145 (the defaults of the source are [year_since=1900],
    [month_initial=1], [day_initial=1], [month_final=12],
    [day_final=31]). *)
Definition _compute_days_full_years
    (year_initial year_final year_since month_initial day_initial month_final day_final : Z)
    : result (list Z) :=
  if year_initial <? year_since then Raise ValueError
  else if year_final <? year_initial then Raise ValueError
  else
    do date_initial <- make_date year_initial month_initial day_initial;
    do date_final <- make_date year_final month_final day_final;
    do date_since <- make_date year_since 1 1;
    let days_initial := days_between date_initial date_since in
    let total_days := days_between date_final date_initial + 1 in
    Ok (py_range days_initial (days_initial + total_days)).

(** The calendar day after [d], and the dates that exist: with them "the
    number of days from the epoch to [d]" is the number of steps of
    [next_day] that lead from the one to the other. *)
Definition next_day (d : date) : date :=
  if (day d <? days_in_month (year d) (month d)) then mk_date (year d) (month d) (day d + 1)
  else if (month d <? 12) then mk_date (year d) (month d + 1) 1
  else mk_date (year d + 1) 1 1.

Definition valid_date (d : date) : Prop :=
  1 <= month d <= 12 /\ 1 <= day d <= days_in_month (year d) (month d).

(* ===================================================================== *)
(** ** Sample inputs                                                      *)
(* ===================================================================== *)

Definition nl : string := String (ascii_of_N 10) "".

(** The descriptor quoted in the docstring of [_read_description]. *)
Definition cmorph_ctl : string :=
  "DSET ../0.25deg-DLY_00Z/%y4/%y4%m2/CMORPH_V1.0_RAW_0.25deg-DLY_00Z_%y4%m2%d2  " +:+ nl +:+
  "TITLE  CMORPH Version 1.0BETA Version, daily precip from 00Z-24Z " +:+ nl +:+
  "OPTIONS template little_endian" +:+ nl +:+
  "UNDEF  -999.0" +:+ nl +:+
  "XDEF 1440 LINEAR    0.125  0.25" +:+ nl +:+
  "YDEF  480 LINEAR  -59.875  0.25" +:+ nl +:+
  "ZDEF   01 LEVELS 1" +:+ nl +:+
  "TDEF 99999 LINEAR  01jan1998 1dy " +:+ nl +:+
  "VARS 1" +:+ nl +:+
  "cmorph   1   99 yyyyy CMORPH Version 1.o daily precipitation (mm)  " +:+ nl +:+
  "ENDVARS" +:+ nl.

(** A descriptor of a 3-by-4 grid. *)
Definition tiny_ctl : string :=
  "TITLE  tiny grid" +:+ nl +:+
  "OPTIONS template little_endian" +:+ nl +:+
  "UNDEF -999.0" +:+ nl +:+
  "XDEF 4 LINEAR 0.0 1.0" +:+ nl +:+
  "YDEF 3 LINEAR 0.0 1.0" +:+ nl.

(** The four bytes of a 32-bit pattern, least significant first. *)
Definition le_bytes (w : Z) : list byte :=
  map (fun k => default x00 (Byte.of_N (Z.to_N (Z.land (Z.shiftr w (8 * k)) 255))))
      [0; 1; 2; 3].

(** Twelve float32 items: 1.0 everywhere, 2.0 at index 4 and -999.0 at
    index 5. *)
Definition tiny_buffer : list byte :=
  flat_map le_bytes
    [0x3F800000; 0x3F800000; 0x3F800000; 0x3F800000;
     0x40000000; 0xC479C000; 0x3F800000; 0x3F800000;
     0x3F800000; 0x3F800000; 0x3F800000; 0x3F800000].

Definition text_file (text : string) : file := RawFile (list_byte_of_string text).

(** A server that holds the raw daily file of 2020-03-01 (already
    "compressed": the decompressors of this world are the identity) and a
    descriptor. *)
Definition sample_world (ctl : string) : World :=
  mk_world
    (fun url =>
       if String.eqb url
            ("https://ftp.cpc.ncep.noaa.gov/precip/CMORPH_V0.x/RAW/0.25deg-DLY_00Z/2020/202003/"
             +:+ "CMORPH_V0.x_RAW_0.25deg-DLY_00Z_20200301.gz")
       then Some (RawFile tiny_buffer)
       else if String.eqb url (descriptor_url "raw") then Some (text_file ctl)
       else None)
    Some Some.

(** A work directory with a descriptor and the raw daily files of two days
    of March 2020, and an archive left by an earlier run. *)
Definition old_archive : Dataset :=
  mk_ds 1 1 (Some "old") (Some [1; 2]) (Some [S754_zero false]) (Some [S754_zero false])
        (Some [mk_grid 1 1 [S754_zero false]; mk_grid 1 1 [S754_zero false]]) [] None.

Definition sample_files (ctl : string) : gmap string file :=
  <["work/cmorph_data_descriptor.txt" := text_file ctl]>
  (<["work/CMORPH_V0.x_RAW_0.25deg-DLY_00Z_20200301" := RawFile tiny_buffer]>
  (<["work/CMORPH_V0.x_RAW_0.25deg-DLY_00Z_20200302" := RawFile tiny_buffer]>
  (<["out.nc" := NcFile old_archive]> ∅))).





(** The 3-by-4 descriptor with the undef value -999.0000001. *)
Definition near_undef_ctl : string :=
  "TITLE  tiny grid" +:+ nl +:+
  "OPTIONS template little_endian" +:+ nl +:+
  "UNDEF -999.0000001" +:+ nl +:+
  "XDEF 4 LINEAR 0.0 1.0" +:+ nl +:+
  "YDEF 3 LINEAR 0.0 1.0" +:+ nl.

(** ** Predicates of the statements *)

(** The leading token of a line, if it has one. *)
Definition key_of (line : string) : option string := hd_error (split line).

Definition recognized_keys : list string :=
  ["UNDEF"; "XDEF"; "YDEF"; "TDEF"; "OPTIONS"; "cmorph"; "TITLE"].

Definition no_line_with (k : string) (lines : list string) : Prop :=
  Forall (fun l => key_of l <> Some k) lines.



(** ** Binary64 numbers on a dyadic grid *)

(** [n * 2^k] on positives. *)
Definition shl (n : positive) (k : nat) : positive := Nat.iter k xO n.

(** The number of binary digits of [n]. *)
Definition ndigits (n : positive) : Z := Zpos (digits2_pos n).

(** The exponent of the binary64 representation of a number whose leading
    bit has weight [2^(e-1)]. *)
Definition fexp64 (e : Z) : Z := fexp F64.prec F64.emax e.

(** The binary64 representation of [n * 2^p], for [n] of at most 53
    digits and [p] between -1074 and 971. *)
Definition canon (s : bool) (n : positive) (p : Z) : F64.t :=
  let c := fexp64 (ndigits n + p) in
  S754_finite s (shl n (Z.to_nat (p - c))) c.

(** The exponents [p] for which every [v * 2^p] with [|v| < 2^53] is a
    binary64 number. *)
Definition grid_exponent (p : Z) : Prop := -1074 <= p <= 971.

(** ** The CMORPH quarter-degree geometry *)

(** -59.875, 0.125 and 0.25 as [float] reads them. *)
Definition lat0 : F64.t := f64_of_decimal true 59875 (-3).
Definition lon0 : F64.t := f64_of_decimal false 125 (-3).
Definition quarter : F64.t := f64_of_decimal false 25 (-2).

(** YDEF 480 LINEAR -59.875 0.25 and XDEF 1440 LINEAR 0.125 0.25 *)
Definition cmorph_geometry (dd : data_dict) : Prop :=
  ydef_count dd = Some 480 /\ ydef_start dd = Some lat0 /\ ydef_increment dd = Some quarter /\
  xdef_count dd = Some 1440 /\ xdef_start dd = Some lon0 /\ xdef_increment dd = Some quarter.

(** The axis values lines 195-201 generate for a count, a start and an
    increment, when [fuel] tests are enough. *)
Definition generated_axis (fuel : nat) (start : F64.t) (count : Z) (inc : F64.t) : list F64.t :=
  match axis_stop start count inc with
  | Ok stop => default [] (_frange fuel start stop inc)
  | Raise _ => []
  end.

Definition cmorph_lat : list F64.t := Eval vm_compute in generated_axis 481 lat0 480 quarter.
Definition cmorph_lon : list F64.t := Eval vm_compute in generated_axis 1441 lon0 1440 quarter.



(** ** Predicates of the statements, continued *)

(** -999.0 as [float] reads it, and as a float32 item. *)
Definition minus_999 : F64.t := f64_of_decimal true 9990 (-1).
Definition minus_999_f32 : F32.t := F32.of_f64 minus_999.

(** -999.0000001 as [float] reads it. *)
Definition near_minus_999 : F64.t := f64_of_decimal true 9990000001 (-7).

(** The binary32 values: what a float32 item can hold. *)
Definition binary32 (v : F32.t) : bool := valid_binary F32.prec F32.emax v.


(** The fields a line leaves alone: all but those of its own key. *)
Definition same_fields_except (k : option string) (d d' : data_dict) : Prop :=
  (k <> Some "UNDEF" -> undef d' = undef d) /\
  (k <> Some "XDEF" -> xdef_count d' = xdef_count d /\ xdef_start d' = xdef_start d /\
                       xdef_increment d' = xdef_increment d) /\
  (k <> Some "YDEF" -> ydef_count d' = ydef_count d /\ ydef_start d' = ydef_start d /\
                       ydef_increment d' = ydef_increment d) /\
  (k <> Some "OPTIONS" -> little_endian d' = little_endian d) /\
  (k <> Some "cmorph" -> variable_description d' = variable_description d) /\
  (k <> Some "TITLE" -> title d' = title d).

(** Computations that leave the open dataset alone. *)
Definition keeps_dataset {A} (m : M A) : Prop :=
  forall s r s', m s = (r, s') -> output_dataset s' = output_dataset s.

(** The grid came out of the decoder: from the bytes of a daily file, or
    for ICDR from the values of the variable [cmorph]. *)
Definition decoded_from (dd : data_dict) (obs_type : string) (data : Grid) : Prop :=
  (String.eqb obs_type "icdr" = false /\ exists buf, decode_binary dd buf = Ok data) \/
  (String.eqb obs_type "icdr" = true /\ exists values, decode_icdr dd values = Ok data).


(** ** Predicates of the further properties *)

(** Once [p] holds at an item of [l] it holds at every later one: what a
    binary search for the first item with [p] needs. *)
Definition partitioned (p : F64.t -> bool) (l : list F64.t) : Prop :=
  forall j k x y, (j <= k)%nat ->
    nth_error l j = Some x -> nth_error l k = Some y -> p x = true -> p y = true.

(** The bytes of every four-byte item in reverse order (a shorter tail is
    dropped). *)
Definition swap_items (buf : list byte) : list byte :=
  flat_map (fun w : byte * byte * byte * byte =>
              let '(b0, b1, b2, b3) := w in [b3; b2; b1; b0]) (words32 buf).

(** A grid that holds [rows * cols] items. *)
Definition well_formed (g : Grid) : Prop := length (cells g) = (rows g * cols g)%nat.

(** A line that starts with a token that is none of the keys. *)
Definition skippable (line : string) : bool :=
  match key_of line with
  | Some w0 => negb (existsb (String.eqb w0) recognized_keys)
  | None => false
  end.

(** The descriptors agree on every field the ingest reads: all but the
    start date and the variable description. *)
Definition same_used_fields (d1 d2 : data_dict) : Prop :=
  undef d1 = undef d2 /\
  xdef_count d1 = xdef_count d2 /\ xdef_start d1 = xdef_start d2 /\
  xdef_increment d1 = xdef_increment d2 /\
  ydef_count d1 = ydef_count d2 /\ ydef_start d1 = ydef_start d2 /\
  ydef_increment d1 = ydef_increment d2 /\
  little_endian d1 = little_endian d2 /\ title d1 = title d2.

(** Computations that leave the files alone. *)
Definition keeps_files {A} (m : M A) : Prop :=
  forall s r s', m s = (r, s') -> files s' = files s.

(** The paths of a downloaded daily file, as [_download_daily_files]
    builds them: the decompressed file and the file as it was fetched. *)
Definition unzipped_path (dir obs_type : string) (d : date) : string :=
  dir +:+ "/" +:+
  (daily_name obs_type +:+
   ((str_of_int (year d) +:+ zfill2 (str_of_int (month d))) +:+ zfill2 (str_of_int (day d)))).

Definition zip_extension (obs_type : string) : string :=
  if String.eqb obs_type "raw" then ".gz"
  else if String.eqb obs_type "adjusted" then ".bz2"
  else ".nc".

Definition zipped_path (dir obs_type : string) (d : date) : string :=
  dir +:+ "/" +:+
  ((daily_name obs_type +:+
    ((str_of_int (year d) +:+ zfill2 (str_of_int (month d))) +:+ zfill2 (str_of_int (day d))))
   +:+ zip_extension obs_type).

(** The URL a daily file is fetched from, as [_download_daily_files]
    builds it. *)
Definition daily_url (obs_type : string) (d : date) : string :=
  let year_month := str_of_int (year d) +:+ zfill2 (str_of_int (month d)) in
  let url_base :=
    "https://ftp.cpc.ncep.noaa.gov/precip/" +:+
    (if String.eqb obs_type "raw"
     then "CMORPH_V0.x/RAW/0.25deg-DLY_00Z/" +:+ str_of_int (year d) +:+ "/" +:+ year_month
     else if String.eqb obs_type "adjusted"
     then "CMORPH_V1.0/CRT/0.25deg-DLY_00Z/" +:+ str_of_int (year d) +:+ "/" +:+ year_month
     else "CMORPH_RT/ICDR/0.25deg-DLY_00Z") in
  url_base +:+ "/" +:+
  ((daily_name obs_type +:+ (year_month +:+ zfill2 (str_of_int (day d))))
   +:+ zip_extension obs_type).

(** The decompressor for an observation type. *)
Definition unzip_for (w : World) (obs_type : string) : list byte -> option (list byte) :=
  if String.eqb obs_type "adjusted" then bunzip2 w else gunzip w.



(** The number of days of [n] calendar years from year [y] on. *)
Fixpoint days_in_years (y : Z) (n : nat) : Z :=
  match n with
  | O => 0
  | S n' => (if is_leap y then 366 else 365) + days_in_years (y + 1) n'
  end.

(* ===================================================================== *)
(** * Properties                                                          *)
(* ===================================================================== *)

(** ** Fallible computations *)

Lemma rbind_ok {A B} (r : result A) (k : A -> result B) (b : B) :
  rbind r k = Ok b -> exists a, r = Ok a /\ k a = Ok b.
Proof. destruct r as [a|e]; simpl; [eauto | discriminate]. Qed.

Lemma of_option_ok {A} (e : exn) (o : option A) (a : A) :
  of_option e o = Ok a -> o = Some a.
Proof. destruct o; simpl; congruence. Qed.

Lemma getitem_ok {A} (key : string) (field : option A) (a : A) :
  getitem key field = Ok a -> field = Some a.
Proof. apply of_option_ok. Qed.

(** ** The grid decoder *)



Lemma mask_undef_length (u : F64.t) (data : list F32.t) :
  length (mask_undef u data) = length data.
Proof. apply length_map. Qed.

Lemma mask_undef_nth (u : F64.t) (data : list F32.t) (i : nat) :
  nth_error (mask_undef u data) i =
  option_map (fun x => if np_equal x u then F32.nan else x) (nth_error data i).
Proof. unfold mask_undef. apply nth_error_map. Qed.

(** [np.reshape] to non-negative dimensions succeeds exactly when the
    sizes agree, and then keeps the items in their order. *)
Lemma np_reshape_spec (data : list F32.t) (y x : Z) :
  0 <= y -> 0 <= x ->
  (Z.of_nat (length data) = y * x ->
     np_reshape data y x = Ok (mk_grid (Z.to_nat y) (Z.to_nat x) data)) /\
  (Z.of_nat (length data) <> y * x -> np_reshape data y x = Raise ValueError).
Proof.
  intros Hy Hx. unfold np_reshape.
  destruct (Z.leb_spec 0 y); [|lia]. destruct (Z.leb_spec 0 x); [|lia]. simpl.
  destruct (Z.eqb_spec (Z.of_nat (length data)) (y * x)); split; intros; congruence.
Qed.

Lemma decode_binary_unfold (d : data_dict) (buf : list byte) (le : bool) (u : F64.t) (y x : Z) :
  little_endian d = Some le -> undef d = Some u ->
  ydef_count d = Some y -> xdef_count d = Some x ->
  decode_binary d buf = np_reshape (mask_undef u (elements le buf)) y x.
Proof. intros Hl Hu Hy Hx. unfold decode_binary. rewrite Hl, Hu, Hy, Hx. reflexivity. Qed.

Lemma decode_icdr_unfold (d : data_dict) (values : list F32.t) (u : F64.t) (y x : Z) :
  undef d = Some u -> ydef_count d = Some y -> xdef_count d = Some x ->
  decode_icdr d values = np_reshape (mask_undef u values) y x.
Proof. intros Hu Hy Hx. unfold decode_icdr. rewrite Hu, Hy, Hx. reflexivity. Qed.


(** ** The descriptor parser *)

Lemma item_0 {A} (xs : list A) : item xs 0 = of_option IndexError (hd_error xs).
Proof. destruct xs; reflexivity. Qed.

Ltac split_keys w0 :=
  repeat match goal with
         | |- context [String.eqb w0 ?k] => destruct (String.eqb_spec w0 k)
         | H : context [String.eqb w0 ?k] |- _ => destruct (String.eqb_spec w0 k)
         end.

Ltac inv_rbind H :=
  repeat (let a := fresh "a" in let E := fresh "E" in
          apply rbind_ok in H; destruct H as (a & E & H)).

(** A line without any token raises: [words[0]] is out of range. *)
Lemma read_line_blank (obs_type : string) (d : data_dict) (line : string) :
  split line = [] -> read_line obs_type d line = Raise IndexError.
Proof. intros H. unfold read_line. rewrite H. reflexivity. Qed.

(** A line whose leading token is none of the keys leaves the dictionary
    as it is. *)
Lemma read_line_unrecognized (obs_type : string) (d : data_dict) (line w0 : string) :
  key_of line = Some w0 -> ~ In w0 recognized_keys ->
  read_line obs_type d line = Ok d.
Proof.
  unfold key_of, read_line, recognized_keys. intros Hk Hn.
  rewrite item_0, Hk. cbn [of_option rbind].
  split_keys w0; try reflexivity; exfalso; apply Hn; subst w0; simpl; tauto.
Qed.

Lemma read_lines_app (obs_type : string) (d : data_dict) (l1 l2 : list string) :
  read_lines obs_type d (l1 ++ l2) =
  rbind (read_lines obs_type d l1) (fun d1 => read_lines obs_type d1 l2).
Proof.
  revert d. induction l1 as [|l l1 IH]; intros d; [reflexivity|].
  simpl. destruct (read_line obs_type d l) as [d'|e]; simpl; [apply IH | reflexivity].
Qed.

(** Unrecognized lines that are not blank are ignored: the parse gives the
    same outcome with or without them. *)
Lemma unrecognized_line_ignored (obs_type : string) (d : data_dict)
    (before after : list string) (line w0 : string) :
  key_of line = Some w0 -> ~ In w0 recognized_keys ->
  read_lines obs_type d (before ++ line :: after) =
  read_lines obs_type d (before ++ after).
Proof.
  intros Hk Hn. rewrite !read_lines_app.
  destruct (read_lines obs_type d before) as [d1|e]; simpl; [|reflexivity].
  rewrite (read_line_unrecognized obs_type d1 line w0 Hk Hn). reflexivity.
Qed.




Lemma read_line_frame (obs_type : string) (d d' : data_dict) (line : string) :
  read_line obs_type d line = Ok d' -> same_fields_except (key_of line) d d'.
Proof.
  unfold read_line, key_of. rewrite item_0.
  destruct (hd_error (split line)) as [w0|]; [|discriminate]. cbn [of_option rbind].
  intros H. split_keys w0; inv_rbind H; injection H as <-; subst;
    unfold same_fields_except; cbn; repeat split; intros; congruence.
Qed.

Lemma read_lines_frame (obs_type : string) (lines : list string) :
  forall d d', read_lines obs_type d lines = Ok d' ->
  (no_line_with "UNDEF" lines -> undef d' = undef d) /\
  (no_line_with "XDEF" lines -> xdef_count d' = xdef_count d /\ xdef_start d' = xdef_start d /\
                       xdef_increment d' = xdef_increment d) /\
  (no_line_with "YDEF" lines -> ydef_count d' = ydef_count d /\ ydef_start d' = ydef_start d /\
                       ydef_increment d' = ydef_increment d) /\
  (no_line_with "OPTIONS" lines -> little_endian d' = little_endian d) /\
  (no_line_with "cmorph" lines -> variable_description d' = variable_description d) /\
  (no_line_with "TITLE" lines -> title d' = title d).
Proof.
  unfold no_line_with.
  induction lines as [|l lines IH]; intros d d' H.
  - injection H as <-. repeat split; reflexivity.
  - simpl in H. apply rbind_ok in H. destruct H as (d1 & H1 & H).
    apply read_line_frame in H1. apply IH in H.
    destruct H1 as (A1 & A2 & A3 & A4 & A5 & A6).
    destruct H as (B1 & B2 & B3 & B4 & B5 & B6).
    repeat apply conj; intros F; apply Forall_cons_iff in F; destruct F as [Hk Hf].
    + rewrite (B1 Hf). exact (A1 Hk).
    + destruct (B2 Hf) as (-> & -> & ->). exact (A2 Hk).
    + destruct (B3 Hf) as (-> & -> & ->). exact (A3 Hk).
    + rewrite (B4 Hf). exact (A4 Hk).
    + rewrite (B5 Hf). exact (A5 Hk).
    + rewrite (B6 Hf). exact (A6 Hk).
Qed.

(** ** Effects of a run *)

Lemma bind_ok {A B} (m : M A) (k : A -> M B) (s s' : State) (b : B) :
  bind m k s = (Ok b, s') ->
  exists a s1, m s = (Ok a, s1) /\ k a s1 = (Ok b, s').
Proof.
  unfold bind. destruct (m s) as [[a|e] s1]; intros H; [eauto | discriminate].
Qed.

Lemma bind_raise {A B} (m : M A) (k : A -> M B) (s s1 : State) (e : exn) :
  m s = (Raise e, s1) -> bind m k s = (Raise e, s1).
Proof. unfold bind. intros ->. reflexivity. Qed.

Lemma keeps_ret {A} (a : A) : keeps_dataset (ret a).
Proof. intros s r s' H. injection H as _ <-. reflexivity. Qed.

Lemma keeps_raise {A} (e : exn) : keeps_dataset (@raise A e).
Proof. intros s r s' H. injection H as _ <-. reflexivity. Qed.

Lemma keeps_lift {A} (x : result A) : keeps_dataset (lift x).
Proof. intros s r s' H. injection H as _ <-. reflexivity. Qed.

Lemma keeps_bind {A B} (m : M A) (k : A -> M B) :
  keeps_dataset m -> (forall a, keeps_dataset (k a)) -> keeps_dataset (bind m k).
Proof.
  intros Hm Hk s r s' H. unfold bind in H.
  destruct (m s) as [[a|e] s1] eqn:E.
  - rewrite (Hk a _ _ _ H). exact (Hm _ _ _ E).
  - injection H as _ <-. exact (Hm _ _ _ E).
Qed.

Lemma keeps_set_file (path : string) (f : file) : keeps_dataset (set_file path f).
Proof. intros s r s' H. injection H as _ <-. reflexivity. Qed.

Lemma keeps_get_file (path : string) : keeps_dataset (get_file path).
Proof. intros s r s' H. injection H as _ <-. reflexivity. Qed.

Lemma keeps_os_remove (path : string) : keeps_dataset (os_remove path).
Proof.
  intros s r s' H. unfold os_remove in H.
  destruct (files s !! path); injection H as _ <-; reflexivity.
Qed.

Lemma keeps_glob (prefix : string) : keeps_dataset (glob prefix).
Proof. intros s r s' H. injection H as _ <-. reflexivity. Qed.

Create HintDb keeps.
#[local] Hint Resolve keeps_ret keeps_raise keeps_lift keeps_set_file keeps_get_file
  keeps_os_remove keeps_glob : keeps.

Ltac keeps :=
  repeat first
    [ progress auto with keeps
    | apply keeps_bind; [|intros ?]
    | match goal with
      | |- keeps_dataset (match ?x with _ => _ end) => destruct x
      | |- keeps_dataset (if ?b then _ else _) => destruct b
      end ].

Lemma keeps_urlretrieve (w : World) (url path : string) : keeps_dataset (urlretrieve w url path).
Proof. unfold urlretrieve. keeps. Qed.

Lemma keeps_decompress_to unzip (src dst : string) : keeps_dataset (decompress_to unzip src dst).
Proof. unfold decompress_to. keeps. Qed.

Lemma keeps_np_fromfile (v : pyval) : keeps_dataset (np_fromfile v).
Proof. unfold np_fromfile. keeps. Qed.

Lemma keeps_read_cmorph_variable (v : pyval) : keeps_dataset (read_cmorph_variable v).
Proof. unfold read_cmorph_variable. keeps. Qed.

Lemma keeps_remove_daily (v : pyval) : keeps_dataset (remove_daily v).
Proof. unfold remove_daily. keeps. Qed.

#[local] Hint Resolve keeps_urlretrieve keeps_decompress_to keeps_np_fromfile
  keeps_read_cmorph_variable keeps_remove_daily : keeps.

Lemma keeps_download (w : World) (dir : string) (y m d : Z) (obs_type : string) :
  keeps_dataset (_download_daily_files w dir y m d obs_type).
Proof. unfold _download_daily_files. keeps. Qed.

#[local] Hint Resolve keeps_download : keeps.

Lemma keeps_locate (w : World) (dir : string) (d : date) (obs_type : string) (dl : bool) :
  keeps_dataset (locate_daily_files w dir d obs_type dl).
Proof. unfold locate_daily_files. keeps. Qed.

(** The lookup in the work directory binds [daily_files] to a list, the
    download to a path. *)
Lemma locate_ok (w : World) (dir : string) (d : date) (obs_type : string) (dl : bool)
    (s s' : State) (v : pyval) :
  locate_daily_files w dir d obs_type dl s = (Ok v, s') ->
  if dl then exists path, v = PyStr path
  else v = PyList (glob_prefix
                     (dir +:+ "/" +:+ daily_name obs_type +:+
                      str_of_int (year d) +:+ zfill2 (str_of_int (month d)))
                     (files s)).
Proof.
  unfold locate_daily_files. destruct dl; intros H.
  - apply bind_ok in H. destruct H as (path & s1 & _ & H). injection H as <- _. eauto.
  - apply bind_ok in H. destruct H as (l & s1 & Hg & H).
    injection Hg as <- <-.
    apply bind_ok in H. destruct H as (x & s2 & _ & H). injection H as <- _. reflexivity.
Qed.

(** What a successful decode-and-insert has done. *)
Lemma decode_and_insert_ok (dd : data_dict) (axes : Axes) (obs_type : string)
    (v : pyval) (s s' : State) :
  decode_and_insert dd axes obs_type v s = (Ok tt, s') ->
  (String.eqb obs_type "icdr" = false -> exists path, v = PyStr path) /\
  exists data g,
    ((String.eqb obs_type "icdr" = false /\ exists buf, decode_binary dd buf = Ok data) \/
     (String.eqb obs_type "icdr" = true /\ exists values, decode_icdr dd values = Ok data)) /\
    nc_conform (dim_lat (output_dataset s)) (dim_lon (output_dataset s))
               (crop data (lat_len axes) (lon_len axes)) = Ok g /\
    output_dataset s' =
      (let d := output_dataset s in
       mk_ds (dim_lat d) (dim_lon d) (ds_title d) (var_time d) (var_lat d) (var_lon d)
             (Some (g :: tl (default [] (var_prcp d)))) (attributes d) (var_cmorph d)).
Proof.
  unfold decode_and_insert. intros H.
  destruct (String.eqb obs_type "icdr") eqn:Ei; cbn [negb] in H.
  - apply bind_ok in H. destruct H as (values & s1 & Hr & H).
    apply bind_ok in H. destruct H as (data & s2 & Hd & H).
    injection Hd as Hd <-.
    pose proof (keeps_read_cmorph_variable v _ _ _ Hr) as Hk.
    unfold assign_prcp_slice in H. rewrite Hk in H.
    destruct (nc_conform _ _ _) as [g|e] eqn:Hc; [|discriminate].
    injection H as <-. split; [discriminate|].
    exists data, g. split; [right; eauto|]. split; [exact Hc | reflexivity].
  - apply bind_ok in H. destruct H as (buf & s1 & Hr & H).
    apply bind_ok in H. destruct H as (data & s2 & Hd & H).
    injection Hd as Hd <-.
    pose proof (keeps_np_fromfile v _ _ _ Hr) as Hk.
    unfold assign_prcp_slice in H. rewrite Hk in H.
    destruct (nc_conform _ _ _) as [g|e] eqn:Hc; [|discriminate].
    injection H as <-. split.
    + intros _. destruct v; [eauto|]. discriminate Hr.
    + exists data, g. split; [left; eauto|]. split; [exact Hc | reflexivity].
Qed.

Ltac step H :=
  let a := fresh "a" in let s1 := fresh "s" in let E := fresh "E" in
  apply bind_ok in H; destruct H as (a & s1 & E & H).

Ltac nc_step H :=
  let a := fresh "a" in let s1 := fresh "s" in let E := fresh "E" in
  apply bind_ok in H; destruct H as (a & s1 & E & H);
  unfold nc in E; injection E as <- <-.

Ltac lift_step H x Hx :=
  let s1 := fresh "s" in
  apply bind_ok in H; destruct H as (x & s1 & Hx & H);
  unfold lift in Hx; injection Hx as Hx <-.

(** What the body of the [with] block has done when it ends without an
    exception. *)
Lemma archive_body_ok (w : World) (cmorph_dir date obs_type : string)
    (dl rm : bool) (dd : data_dict) (axes : Axes) (s s' : State) :
  archive_body w cmorph_dir date obs_type dl rm dd axes s = (Ok tt, s') ->
  (String.eqb obs_type "icdr" = false -> dl = true) /\
  exists t d data g,
    title dd = Some t /\ strptime_Ymd date = Ok d /\
    decoded_from dd obs_type data /\
    nc_conform (length (lat_values axes)) (length (lon_values axes))
               (crop data (lat_len axes) (lon_len axes)) = Ok g /\
    dim_lat (output_dataset s') = length (lat_values axes) /\
    dim_lon (output_dataset s') = length (lon_values axes) /\
    ds_title (output_dataset s') = Some t /\
    var_time (output_dataset s') = Some [days_between d epoch] /\
    var_lat (output_dataset s') = Some (map F32.of_f64 (lat_values axes)) /\
    var_lon (output_dataset s') = Some (map F32.of_f64 (lon_values axes)) /\
    var_prcp (output_dataset s') = Some [g].
Proof.
  unfold archive_body. intros H.
  nc_step H. lift_step H t Ht. apply getitem_ok in Ht.
  nc_step H. nc_step H. nc_step H.
  lift_step H d Hd.
  nc_step H. nc_step H. nc_step H.
  step H. rename a into daily, E into Hloc.
  step H. rename E into Hdec. destruct a.
  pose proof (keeps_locate _ _ _ _ _ _ _ _ Hloc) as Hk1.
  apply locate_ok in Hloc.
  apply decode_and_insert_ok in Hdec. destruct Hdec as (Hpath & data & g & Hfrom & Hc & Hds).
  assert (Hk2 : output_dataset s' = output_dataset s1).
  { destruct rm; cbn [when] in H.
    - exact (keeps_remove_daily _ _ _ _ H).
    - injection H as <-. reflexivity. }
  rewrite Hk1 in Hc, Hds. cbn in Hc, Hds.
  split.
  - intros Hi. destruct (Hpath Hi) as [path ->].
    destruct dl; [reflexivity | discriminate Hloc].
  - exists t, d, data, g. rewrite Hk2, Hds. cbn.
    repeat (split; [first [assumption | reflexivity]|]). reflexivity.
Qed.

(** Leaving the [with] block writes the dataset to the path. *)
Lemma with_dataset_w_result {A} (path : string) (body : M A) (s s' : State) (r : result A) :
  with_dataset_w path body s = (r, s') ->
  exists s1,
    body (mk_state (<[path := NcFile empty_dataset]> (files s)) empty_dataset) = (r, s1) /\
    s' = mk_state (<[path := NcFile (output_dataset s1)]> (files s1)) (output_dataset s1).
Proof.
  unfold with_dataset_w. destruct (body _) as [r1 s1]. intros H. injection H as <- <-. eauto.
Qed.

(** A whole run that ends without an exception. *)
Lemma run_ok (w : World) (fuel : nat) (cmorph_dir netcdf_file date obs_type : string)
    (dl rm conus : bool) (fs fs' : gmap string file) :
  run w fuel cmorph_dir netcdf_file date obs_type dl rm conus fs = (Ok tt, fs') ->
  (String.eqb obs_type "icdr" = false -> dl = true) /\
  exists dd axes s0 s1 a t d data g,
    _read_description w cmorph_dir dl rm obs_type (mk_state fs empty_dataset) = (Ok dd, s0) /\
    compute_axes fuel dd conus = Ok axes /\
    archive_body w cmorph_dir date obs_type dl rm dd axes
      (mk_state (<[netcdf_file := NcFile empty_dataset]> (files s0)) empty_dataset) = (Ok tt, s1) /\
    fs' = <[netcdf_file := NcFile a]> (files s1) /\ a = output_dataset s1 /\
    title dd = Some t /\ strptime_Ymd date = Ok d /\
    decoded_from dd obs_type data /\
    nc_conform (length (lat_values axes)) (length (lon_values axes))
               (crop data (lat_len axes) (lon_len axes)) = Ok g /\
    dim_lat a = length (lat_values axes) /\
    dim_lon a = length (lon_values axes) /\
    ds_title a = Some t /\
    var_time a = Some [days_between d epoch] /\
    var_lat a = Some (map F32.of_f64 (lat_values axes)) /\
    var_lon a = Some (map F32.of_f64 (lon_values axes)) /\
    var_prcp a = Some [g].
Proof.
  unfold run, ingest_cmorph_to_netcdf. intros H.
  destruct (bind _ _ _) as [r s2] eqn:E. injection H as -> <-.
  apply bind_ok in E. destruct E as ([dd axes] & s0' & Hp & Hb).
  unfold prelude in Hp.
  apply bind_ok in Hp. destruct Hp as (dd' & s0 & Hrd & Hp).
  lift_step Hp ax Hax. unfold ret in Hp. injection Hp as -> -> <-.
  cbn [fst snd] in Hb. unfold archive_block in Hb.
  apply with_dataset_w_result in Hb. destruct Hb as (s1 & Hbody & ->).
  pose proof (archive_body_ok _ _ _ _ _ _ _ _ _ _ Hbody) as (Hdl & t & d & data & g & Hrest).
  split; [exact Hdl|].
  exists dd, axes, s0, s1, (output_dataset s1), t, d, data, g.
  split; [exact Hrd|]. split; [exact Hax|]. split; [exact Hbody|].
  split; [reflexivity|]. split; [reflexivity|]. exact Hrest.
Qed.

(** ** Days since the epoch *)

Lemma days_in_month_bounds (y m : Z) : 28 <= days_in_month y m <= 31.
Proof.
  unfold days_in_month.
  destruct (m =? 2); [destruct (is_leap y); lia|].
  destruct ((m =? 4) || (m =? 6) || (m =? 9) || (m =? 11)); lia.
Qed.

Lemma days_before_month_succ (y m : Z) :
  1 <= m -> days_before_month y (m + 1) = days_before_month y m + days_in_month y m.
Proof.
  intros Hm. unfold days_before_month.
  replace (Z.to_nat (m + 1 - 1)) with (S (Z.to_nat (m - 1))) by lia.
  cbn [days_before_month_go]. f_equal. f_equal. lia.
Qed.

Lemma days_before_year_succ (y : Z) :
  days_before_year (y + 1) = days_before_year y + (if is_leap y then 366 else 365).
Proof.
  unfold days_before_year, is_leap.
  replace (y + 1 - 1) with y by lia.
  destruct (Z.eqb_spec (y mod 4) 0); destruct (Z.eqb_spec (y mod 100) 0);
    destruct (Z.eqb_spec (y mod 400) 0); cbn [negb andb orb];
    Z.div_mod_to_equations; lia.
Qed.

Lemma days_before_december (y : Z) :
  days_before_month y 12 + 31 = if is_leap y then 366 else 365.
Proof.
  unfold days_before_month. change (Z.to_nat (12 - 1)) with 11%nat.
  cbn [days_before_month_go]. unfold days_in_month. cbn.
  destruct (is_leap y); reflexivity.
Qed.

Lemma next_day_valid (d : date) : valid_date d -> valid_date (next_day d).
Proof.
  unfold valid_date, next_day. intros [Hm Hd].
  destruct (Z.ltb_spec (day d) (days_in_month (year d) (month d))); cbn [year month day].
  - lia.
  - destruct (Z.ltb_spec (month d) 12); cbn [year month day].
    + pose proof (days_in_month_bounds (year d) (month d + 1)). lia.
    + pose proof (days_in_month_bounds (year d + 1) 1). lia.
Qed.

(** One calendar day is one unit of [toordinal]. *)
Lemma toordinal_next_day (d : date) :
  valid_date d -> toordinal (next_day d) = toordinal d + 1.
Proof.
  unfold valid_date, next_day, toordinal. intros [Hm Hd].
  destruct (Z.ltb_spec (day d) (days_in_month (year d) (month d))); cbn [year month day].
  - lia.
  - destruct (Z.ltb_spec (month d) 12); cbn [year month day].
    + rewrite days_before_month_succ by lia. lia.
    + assert (month d = 12) as Hm12 by lia. rewrite Hm12 in *.
      rewrite days_before_year_succ.
      pose proof (days_before_december (year d)) as H12.
      assert (days_in_month (year d) 12 = 31) as H31 by reflexivity.
      change (days_before_month (year d + 1) 1) with 0.
      lia.
Qed.

Lemma iter_next_day (d : date) (n : nat) :
  valid_date d ->
  valid_date (Nat.iter n next_day d) /\
  toordinal (Nat.iter n next_day d) = toordinal d + Z.of_nat n.
Proof.
  intros Hd. induction n as [|n [IHv IHo]]; [split; [exact Hd | simpl; lia]|].
  rewrite Nat.iter_succ. split; [apply next_day_valid, IHv|].
  rewrite toordinal_next_day by exact IHv. lia.
Qed.

Lemma make_date_valid (y m dd : Z) (d : date) : make_date y m dd = Ok d -> valid_date d.
Proof.
  unfold make_date, valid_date.
  destruct (negb _); [discriminate|].
  destruct (_ && _) eqn:E; [|discriminate]. intros H. injection H as <-.
  cbn [year month day].
  repeat (apply andb_prop in E; destruct E as [E ?]). lia.
Qed.





Lemma run_result_eta
    (w : World) (fuel : nat) (cmorph_dir netcdf_file target obs_type : string)
    (dl rm conus : bool) (fs : gmap string file) (r : result unit) :
  fst (run w fuel cmorph_dir netcdf_file target obs_type dl rm conus fs) = r ->
  run w fuel cmorph_dir netcdf_file target obs_type dl rm conus fs =
  (r, snd (run w fuel cmorph_dir netcdf_file target obs_type dl rm conus fs)).
Proof. intros <-. apply surjective_pairing. Qed.

Lemma sample_run_ok :
  fst (run (sample_world tiny_ctl) 10 "work" "out.nc" "2020-03-01" "raw" true false false
           (sample_files tiny_ctl)) = Ok tt.
Proof. vm_compute. reflexivity. Qed.

(** For the raw and the adjusted files the lookup in the work directory
    never leads to a decoded file: what [glob] returns is a list, and
    [np.fromfile] wants a path or an open file. *)
Lemma run_without_download_fails
    (w : World) (fuel : nat) (cmorph_dir netcdf_file target obs_type : string)
    (remove_files conus_only : bool) (fs : gmap string file) :
  String.eqb obs_type "icdr" = false ->
  is_ok (fst (run w fuel cmorph_dir netcdf_file target obs_type
                  false remove_files conus_only fs)) = false.
Proof.
  intros Hi.
  destruct (run w fuel cmorph_dir netcdf_file target obs_type false remove_files conus_only fs)
    as [[[]|e] fs'] eqn:E; [|reflexivity].
  apply run_ok in E. destruct E as [Hdl _]. discriminate (Hdl Hi).
Qed.

(** C5: with downloading disabled and the raw files of 2020-03-01 and
    2020-03-02 in the work directory, the lookup for 2020-03-02 returns
    both files of the month and the run ends in [np.fromfile], which is
    handed that list, with an exception; no run for raw or adjusted files
    with downloading disabled ever gets past the decoding.  With
    downloading enabled the file is the one named by year, month and
    day. *)
Theorem local_lookup_selects_the_month_and_fails :
  glob_prefix "work/CMORPH_V0.x_RAW_0.25deg-DLY_00Z_202003" (sample_files tiny_ctl)
    = ["work/CMORPH_V0.x_RAW_0.25deg-DLY_00Z_20200301";
       "work/CMORPH_V0.x_RAW_0.25deg-DLY_00Z_20200302"] /\
  fst (locate_daily_files (sample_world tiny_ctl) "work" (mk_date 2020 3 2) "raw" false
         (mk_state (sample_files tiny_ctl) empty_dataset))
    = Ok (PyList ["work/CMORPH_V0.x_RAW_0.25deg-DLY_00Z_20200301";
                  "work/CMORPH_V0.x_RAW_0.25deg-DLY_00Z_20200302"]) /\
  fst (run (sample_world tiny_ctl) 10 "work" "out.nc" "2020-03-02" "raw" false false false
           (sample_files tiny_ctl)) = Raise AttributeError /\
  fst (locate_daily_files (sample_world tiny_ctl) "work" (mk_date 2020 3 1) "raw" true
         (mk_state (sample_files tiny_ctl) empty_dataset))
    = Ok (PyStr "work/CMORPH_V0.x_RAW_0.25deg-DLY_00Z_20200301") /\
  (forall w fuel cmorph_dir netcdf_file target obs_type remove_files conus_only fs,
     String.eqb obs_type "icdr" = false ->
     is_ok (fst (run w fuel cmorph_dir netcdf_file target obs_type
                     false remove_files conus_only fs)) = false).
Proof.
  split; [vm_compute; reflexivity|]. split; [vm_compute; reflexivity|].
  split; [vm_compute; reflexivity|]. split; [vm_compute; reflexivity|].
  intros. apply run_without_download_fails. assumption.
Qed.

Lemma local_lookup_selects_the_month_and_fails_witness :
  is_ok (fst (run (sample_world tiny_ctl) 10 "work" "out.nc" "2020-03-01" "adjusted"
                  false true false (sample_files tiny_ctl))) = false.
Proof.
  destruct local_lookup_selects_the_month_and_fails as (_ & _ & _ & _ & H).
  apply H. reflexivity.
Defined.

(** ** The archive file *)

(** [_read_description] touches no file but the descriptor. *)
Lemma read_description_frame (w : World) (work_dir : string) (dl rm : bool)
    (obs_type : string) (s s' : State) (r : result data_dict) (p : string) :
  _read_description w work_dir dl rm obs_type s = (r, s') ->
  p <> descriptor_path work_dir -> files s' !! p = files s !! p.
Proof.
  unfold _read_description. intros H Hp.
  set (path := descriptor_path work_dir) in *.
  assert (Hdl : forall s1 r1 s2, when dl (urlretrieve w (descriptor_url obs_type) path) s1 = (r1, s2) ->
                                 files s2 !! p = files s1 !! p).
  { intros s1 r1 s2 E. destruct dl; cbn [when] in E.
    - unfold urlretrieve in E. destruct (remote w _).
      + injection E as _ <-. cbn. apply lookup_insert_ne. congruence.
      + injection E as _ <-. reflexivity.
    - injection E as _ <-. reflexivity. }
  assert (Hrm : forall s1 r1 s2, when rm (os_remove path) s1 = (r1, s2) ->
                                 files s2 !! p = files s1 !! p).
  { intros s1 r1 s2 E. destruct rm; cbn [when] in E.
    - unfold os_remove in E. destruct (files s1 !! path).
      + injection E as _ <-. cbn. apply lookup_delete_ne. congruence.
      + injection E as _ <-. reflexivity.
    - injection E as _ <-. reflexivity. }
  assert (Hrt : forall s1 r1 s2, read_text path s1 = (r1, s2) -> s2 = s1).
  { intros s1 r1 s2 E. unfold read_text, bind, get_file in E.
    destruct (files s1 !! path) as [[bs|d]|]; cbn in E; injection E as _ <-; reflexivity. }
  unfold bind in H.
  destruct (when dl _ s) as [[[]|e0] s1] eqn:E1;
    [|injection H as _ <-; exact (Hdl _ _ _ E1)].
  rewrite <- (Hdl _ _ _ E1).
  destruct (read_text path s1) as [[text|e1] s2] eqn:E2; apply Hrt in E2; subst s2;
    [|injection H as _ <-; reflexivity].
  unfold lift in H.
  destruct (parse_descriptor obs_type text) as [d|e2]; [|injection H as _ <-; reflexivity].
  destruct (when rm _ s1) as [[[]|e3] s3] eqn:E3.
  - injection H as _ <-. exact (Hrm _ _ _ E3).
  - injection H as _ <-. exact (Hrm _ _ _ E3).
Qed.

Lemma with_dataset_w_fresh {A} (path : string) (body : M A) (s : State) :
  with_dataset_w path body s =
  with_dataset_w path body (mk_state (delete path (files s)) empty_dataset).
Proof.
  unfold with_dataset_w. cbn [files]. rewrite insert_delete_eq. reflexivity.
Qed.

(** C10 (amended): a run that gets as far as line 225 -- the descriptor was
    read and the axes, with the CONUS clip if asked for, were computed --
    opens the archive in write mode: it goes on exactly as if no file had
    been at [netcdf_file], and leaves a new dataset there, whatever the
    flags.  A run that fails before does not open the archive and, the
    descriptor apart, leaves the files as they were. *)
Theorem archive_rebuilt_once_opened
    (w : World) (fuel : nat) (cmorph_dir netcdf_file target obs_type : string)
    (download_files remove_files conus_only : bool) (fs : gmap string file)
    (r : result (data_dict * Axes)) (s1 : State) :
  prelude w fuel cmorph_dir obs_type download_files remove_files conus_only
          (mk_state fs empty_dataset) = (r, s1) ->
  match r with
  | Ok da =>
      run w fuel cmorph_dir netcdf_file target obs_type
          download_files remove_files conus_only fs =
      (let '(r2, s2) :=
         archive_block w cmorph_dir netcdf_file target obs_type download_files remove_files
           (fst da) (snd da) (mk_state (delete netcdf_file (files s1)) empty_dataset) in
       (r2, files s2)) /\
      exists a,
        snd (run w fuel cmorph_dir netcdf_file target obs_type
                 download_files remove_files conus_only fs) !! netcdf_file = Some (NcFile a)
  | Raise e =>
      run w fuel cmorph_dir netcdf_file target obs_type
          download_files remove_files conus_only fs = (Raise e, files s1) /\
      (netcdf_file <> descriptor_path cmorph_dir -> files s1 !! netcdf_file = fs !! netcdf_file)
  end.
Proof.
  intros Hp. unfold run, ingest_cmorph_to_netcdf, bind. rewrite Hp.
  destruct r as [da|e].
  - unfold archive_block. rewrite <- with_dataset_w_fresh.
    split; [reflexivity|].
    destruct (with_dataset_w _ _ s1) as [r2 s2] eqn:E.
    apply with_dataset_w_result in E. destruct E as (s3 & _ & ->).
    eexists. cbn. apply lookup_insert_eq.
  - split; [reflexivity|]. intros Hne.
    unfold prelude, bind in Hp.
    destruct (_read_description _ _ _ _ _ _) as [[dd|e0] s0] eqn:E.
    + unfold lift in Hp. destruct (compute_axes _ _ _); [discriminate|].
      injection Hp as _ <-.
      exact (read_description_frame _ _ _ _ _ _ _ _ _ E Hne).
    + injection Hp as _ <-.
      exact (read_description_frame _ _ _ _ _ _ _ _ _ E Hne).
Qed.









(** C9: a line without any token -- empty or of white space only -- ends
    the parse with IndexError, whatever stands before and after it. *)
Theorem blank_line_raises_IndexError
    (obs_type : string) (d d1 : data_dict) (before after : list string) (blank : string) :
  split blank = [] ->
  read_lines obs_type d before = Ok d1 ->
  read_lines obs_type d (before ++ blank :: after) = Raise IndexError.
Proof.
  intros Hb H1. rewrite read_lines_app, H1. cbn [rbind read_lines].
  rewrite (read_line_blank obs_type d1 blank Hb). reflexivity.
Qed.

Lemma blank_line_raises_IndexError_witness :
  read_lines "raw" empty_dict (["UNDEF -999.0"] ++ "" :: ["XDEF 4 LINEAR 0.0 1.0"])
    = Raise IndexError /\
  read_lines "raw" empty_dict (["UNDEF -999.0"] ++ "   " :: ["XDEF 4 LINEAR 0.0 1.0"])
    = Raise IndexError /\
  parse_descriptor "raw" ("UNDEF -999.0" +:+ nl +:+ nl +:+ "XDEF 4 LINEAR 0.0 1.0" +:+ nl)
    = Raise IndexError.
Proof.
  split; [|split].
  - eapply blank_line_raises_IndexError; [reflexivity | vm_compute; reflexivity].
  - eapply blank_line_raises_IndexError; [reflexivity | vm_compute; reflexivity].
  - change (parse_descriptor "raw" ("UNDEF -999.0" +:+ nl +:+ nl +:+ "XDEF 4 LINEAR 0.0 1.0" +:+ nl))
      with (read_lines "raw" empty_dict (["UNDEF -999.0"] ++ "" :: ["XDEF 4 LINEAR 0.0 1.0"])).
    eapply blank_line_raises_IndexError; [reflexivity | vm_compute; reflexivity].
Defined.

(** With the CONUS clip asked for and an axis that does not reach the
    bounds the run raises before line 225 and the old archive stays as it
    was; the same run without the clip replaces it. *)
Lemma old_archive_survives_failed_clip :
  fst (run (sample_world tiny_ctl) 10 "work" "out.nc" "2020-03-01" "raw" true false true
           (sample_files tiny_ctl)) = Raise ValueError /\
  snd (run (sample_world tiny_ctl) 10 "work" "out.nc" "2020-03-01" "raw" true false true
           (sample_files tiny_ctl)) !! "out.nc" = Some (NcFile old_archive) /\
  snd (run (sample_world tiny_ctl) 10 "work" "out.nc" "2020-03-01" "raw" true false false
           (sample_files tiny_ctl)) !! "out.nc" <> Some (NcFile old_archive).
Proof.
  split; [vm_compute; reflexivity|]. split; [vm_compute; reflexivity|].
  vm_compute. discriminate.
Qed.

Lemma archive_rebuilt_once_opened_witness :
  exists a,
    snd (run (sample_world tiny_ctl) 10 "work" "out.nc" "2020-03-01" "raw" true false false
             (sample_files tiny_ctl)) !! "out.nc" = Some (NcFile a).
Proof.
  pose proof (archive_rebuilt_once_opened (sample_world tiny_ctl) 10 "work" "out.nc"
                "2020-03-01" "raw" true false false (sample_files tiny_ctl) _ _
                (surjective_pairing _)) as H.
  assert (Hok : is_ok (fst (prelude (sample_world tiny_ctl) 10 "work" "raw" true false false
                              (mk_state (sample_files tiny_ctl) empty_dataset))) = true)
    by (vm_compute; reflexivity).
  destruct (fst (prelude _ _ _ _ _ _ _ _)) as [da|e]; [|discriminate Hok].
  destruct H as [_ H]. exact H.
Defined.



Lemma fexp64_eq (e : Z) : fexp64 e = Z.max (e - 53) (-1074).
Proof. reflexivity. Qed.

Lemma shl_S (n : positive) (k : nat) : shl n (S k) = xO (shl n k).
Proof. reflexivity. Qed.

Lemma shl_add (n : positive) (j k : nat) : shl (shl n j) k = shl n (j + k).
Proof.
  unfold shl. rewrite Nat.add_comm. symmetry. apply Nat.iter_add.
Qed.


Lemma ndigits_shl (n : positive) (k : nat) : ndigits (shl n k) = ndigits n + Z.of_nat k.
Proof.
  unfold ndigits. induction k as [|k IH]; [change (shl n 0) with n; lia|].
  rewrite shl_S. cbn [digits2_pos]. rewrite Pos2Z.inj_succ, IH. lia.
Qed.

Lemma ndigits_pos (n : positive) : 1 <= ndigits n.
Proof. unfold ndigits. lia. Qed.

Lemma ndigits_bounds (n : positive) : 2 ^ (ndigits n - 1) <= Zpos n < 2 ^ ndigits n.
Proof.
  unfold ndigits. induction n as [n IH | n IH |]; cbn [digits2_pos].
  - rewrite Pos2Z.inj_succ, (Pos2Z.inj_xI n).
    replace (Z.succ (Zpos (digits2_pos n)) - 1) with (Z.succ (Zpos (digits2_pos n) - 1)) by lia.
    rewrite !Z.pow_succ_r by lia. lia.
  - rewrite Pos2Z.inj_succ, (Pos2Z.inj_xO n).
    replace (Z.succ (Zpos (digits2_pos n)) - 1) with (Z.succ (Zpos (digits2_pos n) - 1)) by lia.
    rewrite !Z.pow_succ_r by lia. lia.
  - cbn. lia.
Qed.

Lemma ndigits_le (n : positive) (d : Z) : Zpos n < 2 ^ d -> ndigits n <= d.
Proof.
  intros H. destruct (Z.le_gt_cases (ndigits n) d) as [|Hgt]; [assumption|].
  pose proof (ndigits_bounds n) as [Hlo _].
  assert (0 <= d \/ d < 0) as [Hd|Hd] by lia.
  - assert (2 ^ d <= 2 ^ (ndigits n - 1)) by (apply Z.pow_le_mono_r; lia). lia.
  - rewrite Z.pow_neg_r in H by lia. lia.
Qed.

Lemma ndigits_mono (a b : positive) : (a <= b)%positive -> ndigits a <= ndigits b.
Proof.
  intros H. apply ndigits_le. pose proof (ndigits_bounds b). lia.
Qed.


Lemma iter_pos_nat {A} (f : A -> A) (n : positive) (x : A) :
  SpecFloat.iter_pos f n x = Nat.iter (Pos.to_nat n) f x.
Proof.
  revert x. induction n as [n IH | n IH |]; intros x; cbn [SpecFloat.iter_pos].
  - rewrite !IH, Pos2Nat.inj_xI.
    replace (S (2 * Pos.to_nat n)) with (Pos.to_nat n + (Pos.to_nat n + 1))%nat by lia.
    rewrite !Nat.iter_add. reflexivity.
  - rewrite !IH, Pos2Nat.inj_xO.
    replace (2 * Pos.to_nat n)%nat with (Pos.to_nat n + Pos.to_nat n)%nat by lia.
    rewrite Nat.iter_add. reflexivity.
  - reflexivity.
Qed.

(** Shifting out zero bits is exact. *)
Lemma shr_exact (n : positive) (j : nat) :
  Nat.iter j shr_1 (Build_shr_record (Zpos (shl n j)) false false) =
  Build_shr_record (Zpos n) false false.
Proof.
  induction j as [|j IH]; [reflexivity|].
  rewrite Nat.iter_succ_r, shl_S. cbn [shr_1 orb]. exact IH.
Qed.

Lemma shr_exact_to (n : positive) (k : nat) (e d : Z) :
  0 <= d <= Z.of_nat k ->
  shr (Build_shr_record (Zpos (shl n k)) false false) e d =
  (Build_shr_record (Zpos (shl n (k - Z.to_nat d))) false false, e + d).
Proof.
  intros Hd. unfold shr. destruct d as [|q|q]; [|
    |lia].
  - rewrite Z.add_0_r, Nat.sub_0_r. reflexivity.
  - rewrite iter_pos_nat. f_equal.
    replace k with ((k - Z.to_nat (Zpos q)) + Pos.to_nat q)%nat at 1 by lia.
    rewrite <- shl_add. apply shr_exact.
Qed.

(** Rounding a number that fits is exact: [shl n k] at exponent [e] is
    brought to the exponent [c] of its representation. *)
Lemma binary_round_aux_exact (s : bool) (n : positive) (k : nat) (e : Z) :
  let c := fexp64 (ndigits n + Z.of_nat k + e) in
  e <= c <= e + Z.of_nat k -> c <= 971 ->
  binary_round_aux F64.prec F64.emax s (Zpos (shl n k)) e loc_Exact =
  S754_finite s (shl n (Z.to_nat (e + Z.of_nat k - c))) c.
Proof.
  intros c Hc Hmax. unfold binary_round_aux, shr_fexp.
  cbn [Zdigits2 shr_record_of_loc].
  change (Zpos (digits2_pos (shl n k))) with (ndigits (shl n k)).
  rewrite ndigits_shl. change (fexp F64.prec F64.emax) with fexp64. fold c.
  rewrite (shr_exact_to n k e (c - e)) by lia.
  cbn [shr_m loc_of_shr_record round_nearest_even shr_record_of_loc Zdigits2].
  change (Zpos (digits2_pos (shl n (k - Z.to_nat (c - e)))))
    with (ndigits (shl n (k - Z.to_nat (c - e)))).
  rewrite ndigits_shl.
  replace (ndigits n + Z.of_nat (k - Z.to_nat (c - e)) + (e + (c - e)))
    with (ndigits n + Z.of_nat k + e) by lia.
  fold c. replace (c - (e + (c - e))) with 0 by lia.
  cbn [shr shr_m].
  replace (e + (c - e)) with c by lia.
  change (F64.emax - F64.prec) with 971.
  destruct (Z.leb_spec c 971); [|lia].
  f_equal. f_equal. lia.
Qed.

(** [binary_round] of a number that fits gives its representation. *)
Lemma binary_round_exact (s : bool) (n : positive) (k : nat) (e : Z) :
  ndigits n <= 53 -> grid_exponent (e + Z.of_nat k) ->
  binary_round F64.prec F64.emax s (shl n k) e = canon s n (e + Z.of_nat k).
Proof.
  unfold grid_exponent. intros Hn Hp. unfold binary_round, canon.
  change (Zpos (digits2_pos (shl n k))) with (ndigits (shl n k)).
  rewrite ndigits_shl. change (fexp F64.prec F64.emax) with fexp64.
  replace (ndigits n + (e + Z.of_nat k)) with (ndigits n + Z.of_nat k + e) by lia.
  set (c := fexp64 (ndigits n + Z.of_nat k + e)).
  assert (Hc : c <= e + Z.of_nat k /\ -1074 <= c).
  { subst c. rewrite fexp64_eq. lia. }
  unfold shl_align.
  destruct (c - e) as [|q|q] eqn:Hq.
  - assert (Hce : c = e) by lia.
    pose proof (binary_round_aux_exact s n k e) as H. cbv zeta in H. fold c in H.
    rewrite H by lia. reflexivity.
  - pose proof (binary_round_aux_exact s n k e) as H. cbv zeta in H. fold c in H.
    rewrite H by lia. reflexivity.
  - assert (Hs : Pos.iter xO (shl n k) q = shl n (k + Pos.to_nat q)).
    { rewrite Pos2Nat.inj_iter. exact (shl_add n k (Pos.to_nat q)). }
    rewrite Hs.
    pose proof (binary_round_aux_exact s n (k + Pos.to_nat q) c) as H. cbv zeta in H.
    replace (ndigits n + Z.of_nat (k + Pos.to_nat q) + c)
      with (ndigits n + Z.of_nat k + e) in H by lia.
    fold c in H. rewrite H by lia.
    f_equal. f_equal. lia.
Qed.

Lemma ndigits_53 (v : Z) (n : positive) : Zpos n = Z.abs v -> Z.abs v < 2 ^ 53 -> ndigits n <= 53.
Proof. intros E H. apply ndigits_le. lia. Qed.



















(** ** The axes *)

Lemma frange_more_fuel (n : nat) :
  forall (i stop step : F64.t) (l : list F64.t) (m : nat),
    _frange n i stop step = Some l -> (n <= m)%nat -> _frange m i stop step = Some l.
Proof.
  induction n as [|n IH]; intros i stop step l m H Hm; [discriminate|].
  destruct m as [|m]; [lia|]. cbn [_frange] in *.
  destruct (F64.ltb i stop); [|exact H].
  destruct (_frange n (F64.add i step) stop step) as [l'|] eqn:E; [|discriminate].
  rewrite (IH _ _ _ _ m E) by lia. exact H.
Qed.

(** The list [_frange] returns does not depend on the fuel. *)
Lemma frange_unique (n m : nat) (i stop step : F64.t) (l l' : list F64.t) :
  _frange n i stop step = Some l -> _frange m i stop step = Some l' -> l = l'.
Proof.
  intros H H'.
  pose proof (frange_more_fuel n _ _ _ _ (Nat.max n m) H (Nat.le_max_l n m)) as A.
  pose proof (frange_more_fuel m _ _ _ _ (Nat.max n m) H' (Nat.le_max_r n m)) as B.
  congruence.
Qed.

Lemma cmorph_ctl_geometry :
  exists dd, parse_descriptor "raw" cmorph_ctl = Ok dd /\ cmorph_geometry dd.
Proof.
  eexists. split; [vm_compute; reflexivity|]. repeat split.
Qed.

Lemma cmorph_lat_generated :
  exists stop, axis_stop lat0 480 quarter = Ok stop /\
               _frange 481 lat0 stop quarter = Some cmorph_lat.
Proof. eexists. split; vm_compute; reflexivity. Qed.

Lemma cmorph_lon_generated :
  exists stop, axis_stop lon0 1440 quarter = Ok stop /\
               _frange 1441 lon0 stop quarter = Some cmorph_lon.
Proof. eexists. split; vm_compute; reflexivity. Qed.

Lemma cmorph_conus_indices :
  _find_closest cmorph_lat conus_lat_lo false = Ok 332%nat /\
  _find_closest cmorph_lat conus_lat_hi false = Ok 440%nat /\
  _find_closest cmorph_lon conus_lon_lo false = Ok 928%nat /\
  _find_closest cmorph_lon conus_lon_hi false = Ok 1180%nat.
Proof. repeat split; vm_compute; reflexivity. Qed.

Lemma cmorph_lengths :
  length cmorph_lat = 480%nat /\ length cmorph_lon = 1440%nat /\
  length (py_slice cmorph_lat 332 (440 + 1)) = 109%nat /\
  length (py_slice cmorph_lon 928 (1180 + 1)) = 253%nat.
Proof. repeat split; vm_compute; reflexivity. Qed.

(** The axes of a CONUS run on the CMORPH geometry. *)
Lemma cmorph_conus_axes (fuel : nat) (dd : data_dict) (axes : Axes) :
  cmorph_geometry dd -> compute_axes fuel dd true = Ok axes ->
  axes = mk_axes 480 1440 (py_slice cmorph_lat 332 (440 + 1))
                          (py_slice cmorph_lon 928 (1180 + 1)).
Proof.
  intros (Hyc & Hys & Hyi & Hxc & Hxs & Hxi) H.
  destruct cmorph_lat_generated as (slat & Hslat & Hlat).
  destruct cmorph_lon_generated as (slon & Hslon & Hlon).
  destruct cmorph_conus_indices as (I1 & I2 & I3 & I4).
  destruct cmorph_lengths as (L1 & L2 & _).
  unfold compute_axes in H. rewrite Hyc, Hys, Hyi, Hxc, Hxs, Hxi in H.
  cbv beta iota delta [getitem of_option rbind] in H.
  rewrite Hslat, Hslon in H. cbv beta iota in H.
  destruct (_frange fuel lat0 slat quarter) as [l1|] eqn:E1; [|discriminate H].
  destruct (_frange fuel lon0 slon quarter) as [l2|] eqn:E2; [|discriminate H].
  rewrite (frange_unique _ _ _ _ _ _ _ E1 Hlat) in H.
  rewrite (frange_unique _ _ _ _ _ _ _ E2 Hlon) in H.
  rewrite I1, I2, I3, I4, L1, L2 in H. cbv beta iota in H.
  injection H as <-. reflexivity.
Qed.

Lemma decoded_from_shape (dd : data_dict) (obs_type : string) (data : Grid) (y x : Z) :
  ydef_count dd = Some y -> xdef_count dd = Some x -> 0 <= y -> 0 <= x ->
  decoded_from dd obs_type data -> rows data = Z.to_nat y /\ cols data = Z.to_nat x.
Proof.
  intros Hy Hx Hy0 Hx0 [[_ [buf H]] | [_ [values H]]].
  - unfold decode_binary in H. rewrite Hy, Hx in H.
    apply rbind_ok in H. destruct H as (le & _ & H).
    apply rbind_ok in H. destruct H as (u & _ & H).
    cbv beta iota delta [getitem of_option rbind] in H.
    destruct (np_reshape_spec (mask_undef u (elements le buf)) y x Hy0 Hx0) as [Hok Hbad].
    destruct (Z.eq_dec (Z.of_nat (length (mask_undef u (elements le buf)))) (y * x)) as [E|E].
    + rewrite (Hok E) in H. injection H as <-. split; reflexivity.
    + rewrite (Hbad E) in H. discriminate.
  - unfold decode_icdr in H. rewrite Hy, Hx in H.
    apply rbind_ok in H. destruct H as (u & _ & H).
    cbv beta iota delta [getitem of_option rbind] in H.
    destruct (np_reshape_spec (mask_undef u values) y x Hy0 Hx0) as [Hok Hbad].
    destruct (Z.eq_dec (Z.of_nat (length (mask_undef u values))) (y * x)) as [E|E].
    + rewrite (Hok E) in H. injection H as <-. split; reflexivity.
    + rewrite (Hbad E) in H. discriminate.
Qed.

Lemma nc_conform_mismatch (g : Grid) :
  rows g = 480%nat -> cols g = 1440%nat -> nc_conform 109 253 g = Raise ValueError.
Proof.
  intros Hr Hc. unfold nc_conform. rewrite Hr, Hc.
  change (109 =? 0)%nat with false. change (253 =? 0)%nat with false. cbv iota.
  change (480 =? 109)%nat with false. cbn [andb orb].
  change (480 =? 1)%nat with false. cbn [andb orb].
  destruct (Nat.eqb_spec (480 * 1440) (109 * 253)) as [E|E]; [lia | reflexivity].
Qed.

(** C1: on the CMORPH geometry a CONUS-only run sizes the archive to the
    109-by-253 subset but crops the decoded grid to the lengths of the full
    axes, 480 and 1440, taken before the subsetting: the grid handed to the
    variable is still 480 by 1440, the assignment is refused, and no such
    run ends without an exception. *)
Theorem conus_slice_is_not_cropped_to_the_archive
    (w : World) (fuel : nat) (cmorph_dir netcdf_file target obs_type : string)
    (download_files remove_files : bool) (fs : gmap string file)
    (dd : data_dict) (s0 : State) :
  _read_description w cmorph_dir download_files remove_files obs_type
                    (mk_state fs empty_dataset) = (Ok dd, s0) ->
  cmorph_geometry dd ->
  (forall axes data,
     compute_axes fuel dd true = Ok axes -> decoded_from dd obs_type data ->
     length (lat_values axes) = 109%nat /\ length (lon_values axes) = 253%nat /\
     rows (crop data (lat_len axes) (lon_len axes)) = 480%nat /\
     cols (crop data (lat_len axes) (lon_len axes)) = 1440%nat /\
     nc_conform (length (lat_values axes)) (length (lon_values axes))
                (crop data (lat_len axes) (lon_len axes)) = Raise ValueError) /\
  is_ok (fst (run w fuel cmorph_dir netcdf_file target obs_type
                  download_files remove_files true fs)) = false.
Proof.
  intros Hrd Hgeo.
  assert (Hmain : forall axes data,
     compute_axes fuel dd true = Ok axes -> decoded_from dd obs_type data ->
     length (lat_values axes) = 109%nat /\ length (lon_values axes) = 253%nat /\
     rows (crop data (lat_len axes) (lon_len axes)) = 480%nat /\
     cols (crop data (lat_len axes) (lon_len axes)) = 1440%nat /\
     nc_conform (length (lat_values axes)) (length (lon_values axes))
                (crop data (lat_len axes) (lon_len axes)) = Raise ValueError).
  { intros axes data Hax Hfrom.
    rewrite (cmorph_conus_axes fuel dd axes Hgeo Hax). cbn [lat_values lon_values lat_len lon_len].
    destruct cmorph_lengths as (_ & _ & L3 & L4). rewrite L3, L4.
    destruct Hgeo as (Hyc & _ & _ & Hxc & _ & _).
    destruct (decoded_from_shape dd obs_type data 480 1440 Hyc Hxc ltac:(lia) ltac:(lia) Hfrom)
      as [Hr Hc].
    assert (Hr' : rows (crop data 480 1440) = 480%nat)
      by (cbn [crop rows]; rewrite Hr; reflexivity).
    assert (Hc' : cols (crop data 480 1440) = 1440%nat)
      by (cbn [crop cols]; rewrite Hc; reflexivity).
    repeat split; try assumption. apply nc_conform_mismatch; assumption. }
  split; [exact Hmain|].
  destruct (run w fuel cmorph_dir netcdf_file target obs_type download_files remove_files true fs)
    as [[[]|e] fs'] eqn:E; [|reflexivity].
  apply run_ok in E.
  destruct E as (_ & dd' & axes & s0' & s1 & a & t & d & data & g & E).
  destruct E as (Hrd' & Hax & _ & _ & _ & _ & _ & Hfrom & Hc & _).
  rewrite Hrd in Hrd'. injection Hrd' as <- <-.
  destruct (Hmain axes data Hax Hfrom) as (_ & _ & _ & _ & Hbad).
  rewrite Hbad in Hc. discriminate.
Qed.

Lemma conus_slice_is_not_cropped_to_the_archive_witness :
  is_ok (fst (run (sample_world cmorph_ctl) 1441 "work" "out.nc" "2020-03-01" "raw"
                  true false true (sample_files cmorph_ctl))) = false.
Proof.
  destruct cmorph_ctl_geometry as (dd & Hdd & Hgeo).
  refine (proj2 (conus_slice_is_not_cropped_to_the_archive (sample_world cmorph_ctl) 1441
                   "work" "out.nc" "2020-03-01" "raw" true false
                   (sample_files cmorph_ctl) dd
                   (snd (_read_description (sample_world cmorph_ctl) "work" true false "raw"
                           (mk_state (sample_files cmorph_ctl) empty_dataset))) _ Hgeo)).
  rewrite (surjective_pairing (_read_description _ _ _ _ _ _)) at 1. f_equal.
  rewrite <- Hdd. vm_compute. reflexivity.
Defined.

(** C2: for the axis of YDEF 480 LINEAR -59.875 0.25 and the bounds 23.0
    and 50.0 the source computes the index range 332 to 441.  Index 332 is
    the first whose value is at least 23.0, but one past the last index
    whose value is at most 50.0 is 440: the range also selects index 440,
    whose value 50.125 lies above the bound. *)
Theorem conus_latitude_range_selects_50_125 :
  length cmorph_lat = 480%nat /\
  nth_error cmorph_lat 0 = py_float "-59.875" /\
  nth_error cmorph_lat 479 = py_float "59.875" /\
  conus_range cmorph_lat conus_lat_lo conus_lat_hi = Ok (332%nat, 441%nat) /\
  forallb (fun k => Bool.eqb (F64.leb conus_lat_lo (nth k cmorph_lat F64.nan)) (332 <=? k)%nat)
          (seq 0 480) = true /\
  forallb (fun k => Bool.eqb (F64.leb (nth k cmorph_lat F64.nan) conus_lat_hi) (k <? 440)%nat)
          (seq 0 480) = true /\
  nth_error cmorph_lat 440 = py_float "50.125" /\
  F64.ltb conus_lat_hi (nth 440 cmorph_lat F64.nan) = true /\
  List.last (py_slice cmorph_lat 332 441) F64.nan = nth 440 cmorph_lat F64.nan.
Proof. repeat split; vm_compute; reflexivity. Qed.


(** ** Binary32 items and their widening *)

Lemma SFeqb_finite_r (v : spec_float) (s : bool) (m : positive) (e : Z) :
  SFeqb v (S754_finite s m e) = true <-> v = S754_finite s m e.
Proof.
  split.
  - unfold SFeqb. destruct v as [s0|s0| |s0 m0 e0]; cbn [SFcompare];
      try (destruct s; discriminate); try (destruct s0; discriminate); try discriminate.
    destruct s0, s; try discriminate;
      destruct (Z.compare_spec e0 e) as [E|E|E]; try discriminate; subst e0;
      change (Pos.compare_cont Eq m0 m) with (Pos.compare m0 m);
      destruct (Pos.compare_spec m0 m) as [Em|Em|Em]; try discriminate; subst m0;
      reflexivity.
  - intros ->. unfold SFeqb. cbn [SFcompare].
    destruct s; rewrite Z.compare_refl;
      change (Pos.compare_cont Eq m m) with (Pos.compare m m);
      rewrite Pos.compare_refl; reflexivity.
Qed.

Lemma SFeqb_finite_l (u : spec_float) (s : bool) (m : positive) (e : Z) :
  SFeqb (S754_finite s m e) u = true <-> u = S754_finite s m e.
Proof.
  split.
  - unfold SFeqb. destruct u as [s0|s0| |s0 m0 e0]; cbn [SFcompare];
      try (destruct s; discriminate); try (destruct s0; discriminate); try discriminate.
    destruct s0, s; try discriminate;
      destruct (Z.compare_spec e e0) as [E|E|E]; try discriminate; subst e0;
      change (Pos.compare_cont Eq m m0) with (Pos.compare m m0);
      destruct (Pos.compare_spec m m0) as [Em|Em|Em]; try discriminate; subst m0;
      reflexivity.
  - intros ->. apply SFeqb_finite_r. reflexivity.
Qed.

Lemma fexp32_eq (x : Z) : fexp F32.prec F32.emax x = Z.max (x - 24) (-149).
Proof. reflexivity. Qed.

(** A canonical binary32 number: at most 24 digits, at the least
    exponent that holds them. *)
Lemma binary32_finite (s : bool) (m : positive) (e : Z) :
  binary32 (S754_finite s m e) = true <->
  e = Z.max (ndigits m + e - 24) (-149) /\ e <= 104.
Proof.
  unfold binary32, valid_binary, bounded, canonical_mantissa.
  change (Zpos (digits2_pos m)) with (ndigits m). rewrite fexp32_eq.
  change (F32.emax - F32.prec) with 104.
  rewrite andb_true_iff, Z.leb_le, Z.eqb_eq. intuition lia.
Qed.

(** Every 32-bit pattern is a binary32 value. *)
Lemma of_bits_binary32 (w : Z) : binary32 (F32.of_bits w) = true.
Proof.
  unfold F32.of_bits.
  set (e := Z.land (Z.shiftr w 23) 255). set (m := Z.land w (Z.ones 23)).
  assert (He : 0 <= e < 256).
  { subst e. change 255 with (Z.ones 8). rewrite Z.land_ones by lia.
    apply Z.mod_pos_bound. lia. }
  assert (Hm : 0 <= m < 2 ^ 23).
  { subst m. rewrite Z.land_ones by lia. apply Z.mod_pos_bound. lia. }
  destruct (Z.eqb_spec e 0) as [E0|E0].
  - destruct m as [|p|p] eqn:Em; try reflexivity.
    apply binary32_finite.
    assert (ndigits p <= 23) by (apply ndigits_le; lia). lia.
  - destruct (Z.eqb_spec e 255) as [E1|E1]; [destruct (m =? 0); reflexivity|].
    destruct (m + 2 ^ 23) as [|p|p] eqn:Ep; try reflexivity.
    apply binary32_finite.
    assert (Hp : 2 ^ 23 <= Zpos p < 2 ^ 24) by lia.
    assert (ndigits p <= 24) by (apply ndigits_le; lia).
    assert (23 < ndigits p).
    { pose proof (ndigits_bounds p) as [_ Hu].
      apply (Z.pow_lt_mono_r_iff 2); [lia | pose proof (ndigits_pos p); lia | lia]. }
    lia.
Qed.

Lemma elements_binary32 (le : bool) (buf : list byte) (i : nat) (v : F32.t) :
  nth_error (elements le buf) i = Some v -> binary32 v = true.
Proof.
  unfold elements. rewrite nth_error_map.
  destruct (nth_error (words32 buf) i); [|discriminate].
  intros H. injection H as <-. apply of_bits_binary32.
Qed.

(** The widening of a binary32 number: the same number with 53 digits. *)
Lemma to_f64_finite (s : bool) (m : positive) (e : Z) :
  binary32 (S754_finite s m e) = true ->
  F32.to_f64 (S754_finite s m e) =
  S754_finite s (shl m (Z.to_nat (53 - ndigits m))) (ndigits m + e - 53).
Proof.
  intros H. apply binary32_finite in H. pose proof (ndigits_pos m).
  unfold F32.to_f64. change m with (shl m 0) at 1.
  rewrite binary_round_exact by (unfold grid_exponent; lia).
  unfold canon. rewrite fexp64_eq. cbv zeta.
  replace (Z.max (ndigits m + (e + Z.of_nat 0) - 53) (-1074)) with (ndigits m + e - 53) by lia.
  f_equal. f_equal. lia.
Qed.

(** Rounding to binary32 a number that fits is exact. *)
Lemma binary_round_aux32_exact (s : bool) (n : positive) (k : nat) (e : Z) :
  let c := fexp F32.prec F32.emax (ndigits n + Z.of_nat k + e) in
  e <= c <= e + Z.of_nat k -> c <= 104 ->
  binary_round_aux F32.prec F32.emax s (Zpos (shl n k)) e loc_Exact =
  S754_finite s (shl n (Z.to_nat (e + Z.of_nat k - c))) c.
Proof.
  intros c Hc Hmax. unfold binary_round_aux, shr_fexp.
  cbn [Zdigits2 shr_record_of_loc].
  change (Zpos (digits2_pos (shl n k))) with (ndigits (shl n k)).
  rewrite ndigits_shl. fold c.
  rewrite (shr_exact_to n k e (c - e)) by lia.
  cbn [shr_m loc_of_shr_record round_nearest_even shr_record_of_loc Zdigits2].
  change (Zpos (digits2_pos (shl n (k - Z.to_nat (c - e)))))
    with (ndigits (shl n (k - Z.to_nat (c - e)))).
  rewrite ndigits_shl.
  replace (ndigits n + Z.of_nat (k - Z.to_nat (c - e)) + (e + (c - e)))
    with (ndigits n + Z.of_nat k + e) by lia.
  fold c. replace (c - (e + (c - e))) with 0 by lia.
  cbn [shr shr_m].
  replace (e + (c - e)) with c by lia.
  change (F32.emax - F32.prec) with 104.
  destruct (Z.leb_spec c 104); [|lia].
  f_equal. f_equal. lia.
Qed.

Lemma of_f64_to_f64 (v : F32.t) : binary32 v = true -> F32.of_f64 (F32.to_f64 v) = v.
Proof.
  destruct v as [s|s| |s m e]; try reflexivity.
  intros H. rewrite (to_f64_finite s m e H).
  apply binary32_finite in H. pose proof (ndigits_pos m).
  unfold F32.of_f64, binary_round.
  set (k := Z.to_nat (53 - ndigits m)).
  change (Zpos (digits2_pos (shl m k))) with (ndigits (shl m k)).
  rewrite ndigits_shl, fexp32_eq.
  replace (Z.max (ndigits m + Z.of_nat k + (ndigits m + e - 53) - 24) (-149)) with e
    by (subst k; lia).
  unfold shl_align.
  replace (e - (ndigits m + e - 53)) with (Z.of_nat k) by (subst k; lia).
  assert (Haux : binary_round_aux F32.prec F32.emax s (Zpos (shl m k))
                   (ndigits m + e - 53) loc_Exact = S754_finite s m e).
  { pose proof (binary_round_aux32_exact s m k (ndigits m + e - 53)) as A. cbv zeta in A.
    rewrite fexp32_eq in A.
    replace (Z.max (ndigits m + Z.of_nat k + (ndigits m + e - 53) - 24) (-149)) with e in A
      by (subst k; lia).
    rewrite A by (subst k; lia).
    replace (Z.to_nat (ndigits m + e - 53 + Z.of_nat k - e)) with 0%nat by (subst k; lia).
    reflexivity. }
  destruct (Z.of_nat k) as [|q|q] eqn:Ek; [exact Haux | exact Haux | lia].
Qed.

Lemma to_f64_inj (v w : F32.t) :
  binary32 v = true -> binary32 w = true -> F32.to_f64 v = F32.to_f64 w -> v = w.
Proof.
  intros Hv Hw H. rewrite <- (of_f64_to_f64 v Hv), <- (of_f64_to_f64 w Hw), H. reflexivity.
Qed.

(** Comparing the widened values compares the binary32 values. *)
Lemma eqb_to_f64 (v w : F32.t) :
  binary32 v = true -> binary32 w = true ->
  F64.eqb (F32.to_f64 v) (F32.to_f64 w) = F32.eqb v w.
Proof.
  intros Hv Hw. unfold F64.eqb, F32.eqb.
  destruct w as [sw|sw| |sw mw ew].
  - destruct v as [sv|sv| |sv mv ev]; try reflexivity.
    rewrite (to_f64_finite _ _ _ Hv). reflexivity.
  - destruct v as [sv|sv| |sv mv ev]; try reflexivity.
    rewrite (to_f64_finite _ _ _ Hv). reflexivity.
  - destruct v as [sv|sv| |sv mv ev]; try reflexivity.
    rewrite (to_f64_finite _ _ _ Hv). reflexivity.
  - apply eq_true_iff_eq. rewrite SFeqb_finite_r.
    rewrite (to_f64_finite _ _ _ Hw) at 1. rewrite SFeqb_finite_r.
    rewrite <- (to_f64_finite _ _ _ Hw).
    split; [apply to_f64_inj; assumption | intros ->; reflexivity].
Qed.

(** An item that equals the undef value is masked. *)
Lemma np_equal_of_equal (v : F32.t) (u : F64.t) :
  binary32 v = true -> F64.eqb (F32.to_f64 v) u = true -> np_equal v u = true.
Proof.
  intros Hv H. unfold np_equal. destruct (fits_float32 u); [|exact H].
  unfold F64.eqb in H. unfold F32.eqb.
  destruct v as [s|s| |s m e].
  - destruct u as [su|su| |su mu eu]; cbn in H;
      try discriminate H; try (destruct su; discriminate H); reflexivity.
  - destruct u as [su|su| |su mu eu]; cbn in H;
      try discriminate H; try (destruct s; discriminate H); exact H.
  - discriminate H.
  - rewrite (to_f64_finite _ _ _ Hv) in H. apply SFeqb_finite_l in H. subst u.
    rewrite <- (to_f64_finite _ _ _ Hv), (of_f64_to_f64 _ Hv).
    apply SFeqb_finite_r. reflexivity.
Qed.

(** When the undef value is a binary32 number, the mask compares the
    values. *)
Lemma np_equal_binary32 (v u32 : F32.t) :
  binary32 v = true -> binary32 u32 = true ->
  np_equal v (F32.to_f64 u32) = F64.eqb (F32.to_f64 v) (F32.to_f64 u32).
Proof.
  intros Hv Hu. unfold np_equal. destruct (fits_float32 _); [|reflexivity].
  rewrite (of_f64_to_f64 _ Hu). symmetry. apply eqb_to_f64; assumption.
Qed.

Lemma np_equal_minus_999_f32 (v : F32.t) :
  np_equal v minus_999 = F32.eqb v minus_999_f32.
Proof. reflexivity. Qed.

Lemma eqb_minus_999_f32 (v : F32.t) : F32.eqb v minus_999_f32 = true <-> v = minus_999_f32.
Proof. apply SFeqb_finite_r. Qed.

Lemma np_reshape_cells (data : list F32.t) (y x : Z) (g : Grid) :
  np_reshape data y x = Ok g -> cells g = data.
Proof.
  unfold np_reshape.
  repeat match goal with |- context [if ?b then _ else _] => destruct b end;
    intros H; try discriminate H; injection H as <-; reflexivity.
Qed.

(** C3: with UNDEF -999.0, XDEF 4 and YDEF 3, a buffer of twelve items
    whose item 5 is -999.0 decodes to a 3-by-4 grid with NaN at row 1,
    column 1; every cell is NaN where its item is -999.0 and the item
    itself elsewhere, so that when the other items are finite and are not
    -999.0 every other cell is finite and equal to its item and the NaN
    is the only one.  In general, for any descriptor and shape, the
    decoded cells are the items in their order, each either kept or
    replaced by NaN; every item equal to the undef value is replaced,
    and when the undef value is itself a binary32 number only those are.
    What is replaced otherwise: the items equal to the undef value
    rounded to binary32 when its magnitude is below 3.4e38, the items
    equal to it when not. *)
Theorem decode_masks_undef_example
    (d : data_dict) (buf : list byte) (le : bool) (u : F64.t) :
  little_endian d = Some le -> undef d = Some u ->
  (u = minus_999 -> xdef_count d = Some 4 -> ydef_count d = Some 3 ->
   length (elements le buf) = 12%nat ->
   nth_error (elements le buf) 5 = Some minus_999_f32 ->
   exists g,
     decode_binary d buf = Ok g /\ rows g = 3%nat /\ cols g = 4%nat /\
     cell g 1 1 = Some F32.nan /\
     (forall r c, (r < 3)%nat -> (c < 4)%nat ->
        exists v, nth_error (elements le buf) (4 * r + c) = Some v /\
                  cell g r c = Some (if F32.eqb v minus_999_f32 then F32.nan else v)) /\
     ((forall i v, i <> 5%nat -> nth_error (elements le buf) i = Some v ->
                   F32.is_finite v = true /\ v <> minus_999_f32) ->
      (forall r c, (r < 3)%nat -> (c < 4)%nat -> (r, c) <> (1%nat, 1%nat) ->
         exists v, nth_error (elements le buf) (4 * r + c) = Some v /\
                   cell g r c = Some v /\ F32.is_finite v = true) /\
      (forall r c v, cell g r c = Some v ->
         (F32.is_nan v = true <-> r = 1%nat /\ c = 1%nat)))) /\
  (forall g, decode_binary d buf = Ok g ->
     length (cells g) = length (elements le buf) /\
     forall i v, nth_error (elements le buf) i = Some v ->
       (F64.eqb (F32.to_f64 v) u = true -> nth_error (cells g) i = Some F32.nan) /\
       (nth_error (cells g) i = Some F32.nan \/ nth_error (cells g) i = Some v) /\
       (forall u32, binary32 u32 = true -> u = F32.to_f64 u32 ->
          nth_error (cells g) i = Some (if F64.eqb (F32.to_f64 v) u then F32.nan else v)) /\
       (fits_float32 u = true ->
          nth_error (cells g) i = Some (if F32.eqb v (F32.of_f64 u) then F32.nan else v)) /\
       (fits_float32 u = false ->
          nth_error (cells g) i = Some (if F64.eqb (F32.to_f64 v) u then F32.nan else v))).
Proof.
  intros Hl Hu. split.
  - intros -> Hx Hy Hlen H5.
    rewrite (decode_binary_unfold d buf le minus_999 3 4 Hl Hu Hy Hx).
    destruct (np_reshape_spec (mask_undef minus_999 (elements le buf)) 3 4) as [Hok _];
      [lia|lia|].
    rewrite mask_undef_length, Hlen in Hok. specialize (Hok eq_refl).
    eexists. split; [exact Hok|]. cbn [rows cols cells].
    change (Z.to_nat 3) with 3%nat. change (Z.to_nat 4) with 4%nat.
    assert (Hcell : forall r c, (r < 3)%nat -> (c < 4)%nat ->
              cell (mk_grid 3 4 (mask_undef minus_999 (elements le buf))) r c =
              option_map (fun x => if F32.eqb x minus_999_f32 then F32.nan else x)
                         (nth_error (elements le buf) (4 * r + c))).
    { intros r c Hr Hc. unfold cell. cbn [rows cols cells].
      destruct (Nat.ltb_spec r 3); [|lia]. destruct (Nat.ltb_spec c 4); [|lia].
      cbn [andb]. rewrite mask_undef_nth. f_equal. f_equal. lia. }
    assert (Hsome : forall r c, (r < 3)%nat -> (c < 4)%nat ->
              exists v, nth_error (elements le buf) (4 * r + c) = Some v).
    { intros r c Hr Hc.
      destruct (nth_error (elements le buf) (4 * r + c)) eqn:E; [eauto|].
      apply nth_error_None in E. lia. }
    assert (Hin : forall r c v,
              cell (mk_grid 3 4 (mask_undef minus_999 (elements le buf))) r c = Some v ->
              (r < 3)%nat /\ (c < 4)%nat).
    { intros r c v Hv. unfold cell in Hv. cbn [rows cols] in Hv.
      destruct (Nat.ltb_spec r 3); destruct (Nat.ltb_spec c 4); cbn [andb] in Hv;
        try discriminate Hv. split; assumption. }
    split; [reflexivity|]. split; [reflexivity|].
    split; [|split].
    + rewrite Hcell by lia. change (4 * 1 + 1)%nat with 5%nat. rewrite H5. reflexivity.
    + intros r c Hr Hc. destruct (Hsome r c Hr Hc) as [v Hv]. exists v.
      split; [exact Hv|]. rewrite Hcell, Hv by assumption. reflexivity.
    + intros Hothers.
      assert (Hkept : forall r c v, (r < 3)%nat -> (c < 4)%nat -> (4 * r + c)%nat <> 5%nat ->
                nth_error (elements le buf) (4 * r + c) = Some v ->
                cell (mk_grid 3 4 (mask_undef minus_999 (elements le buf))) r c = Some v /\
                F32.is_finite v = true).
      { intros r c v Hr Hc Hne Hv. destruct (Hothers _ _ Hne Hv) as [Hfin Hneq].
        rewrite Hcell, Hv by assumption. cbn [option_map].
        destruct (F32.eqb v minus_999_f32) eqn:E.
        - apply eqb_minus_999_f32 in E. contradiction.
        - split; [reflexivity | exact Hfin]. }
      split.
      * intros r c Hr Hc Hne. destruct (Hsome r c Hr Hc) as [v Hv]. exists v.
        assert (H45 : (4 * r + c)%nat <> 5%nat).
        { intros E. apply Hne. f_equal; lia. }
        destruct (Hkept r c v Hr Hc H45 Hv) as [Hcv Hfin].
        split; [exact Hv|]. split; assumption.
      * intros r c v Hv. destruct (Hin r c v Hv) as [Hr Hc].
        destruct (Nat.eq_dec (4 * r + c)%nat 5%nat) as [E|E].
        -- assert (r = 1%nat /\ c = 1%nat) as [-> ->] by lia.
           rewrite Hcell in Hv by lia. change (4 * 1 + 1)%nat with 5%nat in Hv.
           rewrite H5 in Hv. injection Hv as <-.
           split; [intros _; split; reflexivity | intros _; reflexivity].
        -- destruct (Hsome r c Hr Hc) as [v0 Hv0].
           destruct (Hkept r c v0 Hr Hc E Hv0) as [Hcv Hfin].
           rewrite Hcv in Hv. injection Hv as <-.
           split.
           ++ intros Hnan. destruct v0; simpl in Hfin, Hnan;
                first [discriminate Hfin | discriminate Hnan].
           ++ intros [-> ->]. exfalso. apply E. reflexivity.
  - intros g Hg. unfold decode_binary in Hg. rewrite Hl, Hu in Hg.
    cbn [getitem of_option rbind] in Hg.
    destruct (ydef_count d) as [y|]; [|discriminate Hg].
    destruct (xdef_count d) as [x|]; [|discriminate Hg].
    cbn [of_option rbind] in Hg. apply np_reshape_cells in Hg. rewrite Hg.
    split; [apply mask_undef_length|].
    intros i v Hv. rewrite mask_undef_nth, Hv. cbn [option_map].
    pose proof (elements_binary32 le buf i v Hv) as Hb.
    split; [|split; [|split; [|split]]].
    + intros E. rewrite (np_equal_of_equal v u Hb E). reflexivity.
    + destruct (np_equal v u); [left | right]; reflexivity.
    + intros u32 Hu32 ->. rewrite (np_equal_binary32 v u32 Hb Hu32). reflexivity.
    + intros Hf. unfold np_equal. rewrite Hf. reflexivity.
    + intros Hf. unfold np_equal. rewrite Hf. reflexivity.
Qed.

Lemma decode_masks_undef_example_witness :
  exists g,
    decode_binary (mk_dict (Some minus_999) (Some 4) None None (Some 3) None None None
                           (Some true) None None) tiny_buffer = Ok g /\
    cell g 0 0 = Some (F32.of_bits 0x3F800000) /\
    cell g 1 0 = Some (F32.of_bits 0x40000000) /\
    cell g 1 1 = Some F32.nan /\
    cell g 1 2 = Some (F32.of_bits 0x3F800000) /\
    cell g 2 3 = Some (F32.of_bits 0x3F800000) /\
    (forall r c v, cell g r c = Some v -> (F32.is_nan v = true <-> r = 1%nat /\ c = 1%nat)) /\
    (forall i v, nth_error (elements true tiny_buffer) i = Some v ->
       nth_error (cells g) i =
       Some (if F64.eqb (F32.to_f64 v) minus_999 then F32.nan else v)).
Proof.
  pose proof (proj2 (decode_masks_undef_example
              (mk_dict (Some minus_999) (Some 4) None None (Some 3) None None None
                       (Some true) None None) tiny_buffer true minus_999
              eq_refl eq_refl)) as Hgeneral.
  destruct (proj1 (decode_masks_undef_example
              (mk_dict (Some minus_999) (Some 4) None None (Some 3) None None None
                       (Some true) None None) tiny_buffer true minus_999
              eq_refl eq_refl) eq_refl eq_refl eq_refl)
    as (g & Hg & _ & _ & H11 & _ & Hothers).
  - vm_compute. reflexivity.
  - vm_compute. reflexivity.
  - assert (Hitems : forall i v, i <> 5%nat ->
              nth_error (elements true tiny_buffer) i = Some v ->
              F32.is_finite v = true /\ v <> minus_999_f32).
    { intros i v Hi Hv.
      do 12 (destruct i as [|i];
             [first [exfalso; apply Hi; reflexivity
                    | vm_compute in Hv; injection Hv as <-;
                      split; [reflexivity | intros E; vm_compute in E; discriminate E]]|]).
      vm_compute in Hv. destruct i; discriminate Hv. }
    destruct (Hothers Hitems) as [Hkept Hnan].
    exists g. split; [exact Hg|].
    assert (Hc : forall r c x, (r < 3)%nat -> (c < 4)%nat -> (r, c) <> (1%nat, 1%nat) ->
              nth_error (elements true tiny_buffer) (4 * r + c) = Some x ->
              cell g r c = Some x).
    { intros r c x Hr Hcl Hne Hx. destruct (Hkept r c Hr Hcl Hne) as (v & Hv & Hcv & _).
      rewrite Hx in Hv. injection Hv as <-. exact Hcv. }
    split; [apply Hc; [lia | lia | discriminate | vm_compute; reflexivity]|].
    split; [apply Hc; [lia | lia | discriminate | vm_compute; reflexivity]|].
    split; [exact H11|].
    split; [apply Hc; [lia | lia | discriminate | vm_compute; reflexivity]|].
    split; [apply Hc; [lia | lia | discriminate | vm_compute; reflexivity]|].
    split; [exact Hnan|].
    intros i v Hv. destruct (Hgeneral g Hg) as [_ Hitem].
    destruct (Hitem i v Hv) as (_ & _ & H32 & _).
    apply (H32 minus_999_f32); vm_compute; reflexivity.
Defined.

(** With UNDEF -999.0000001 the item -999.0, which is not equal to it, is
    replaced by NaN all the same. *)
Lemma item_near_undef_is_masked :
  py_float "-999.0000001" = Some near_minus_999 /\
  nth_error (elements true tiny_buffer) 5 = Some minus_999_f32 /\
  F64.eqb (F32.to_f64 minus_999_f32) near_minus_999 = false /\
  F64.ltb near_minus_999 (F32.to_f64 minus_999_f32) = true /\
  exists d g,
    parse_descriptor "raw" near_undef_ctl = Ok d /\
    undef d = Some near_minus_999 /\
    decode_binary d tiny_buffer = Ok g /\
    cell g 1 1 = Some F32.nan.
Proof.
  split; [vm_compute; reflexivity|]. split; [vm_compute; reflexivity|].
  split; [vm_compute; reflexivity|]. split; [vm_compute; reflexivity|].
  exists (match parse_descriptor "raw" near_undef_ctl with Ok d => d | Raise _ => empty_dict end).
  exists (match decode_binary
                  (match parse_descriptor "raw" near_undef_ctl with
                   | Ok d => d | Raise _ => empty_dict end) tiny_buffer with
          | Ok g => g | Raise _ => mk_grid 0 0 [] end).
  split; [vm_compute; reflexivity|]. split; [vm_compute; reflexivity|].
  split; [vm_compute; reflexivity|]. vm_compute. reflexivity.
Qed.

(** ** The slice of the archive *)








(* ===================================================================== *)
(** * Further properties of the ingest                                  *)
(* ===================================================================== *)

(** ** [_find_closest] *)

Lemma bisect_right_loop_range (n : nat) (a : list F64.t) (x : F64.t) :
  forall lo hi, (lo <= hi)%nat ->
    (lo <= bisect_right_loop n a x lo hi <= hi)%nat.
Proof.
  induction n as [|n IH]; intros lo hi H; cbn [bisect_right_loop]; [lia|].
  destruct (Nat.ltb_spec lo hi); [|lia].
  assert (Hm : (lo <= (lo + hi) / 2 < hi)%nat).
  { split; [apply Nat.div_le_lower_bound | apply Nat.Div0.div_lt_upper_bound]; lia. }
  destruct (F64.ltb x _).
  - specialize (IH lo ((lo + hi) / 2)%nat). lia.
  - specialize (IH (S ((lo + hi) / 2)) hi). lia.
Qed.

Lemma bisect_left_loop_range (n : nat) (a : list F64.t) (x : F64.t) :
  forall lo hi, (lo <= hi)%nat ->
    (lo <= bisect_left_loop n a x lo hi <= hi)%nat.
Proof.
  induction n as [|n IH]; intros lo hi H; cbn [bisect_left_loop]; [lia|].
  destruct (Nat.ltb_spec lo hi); [|lia].
  assert (Hm : (lo <= (lo + hi) / 2 < hi)%nat).
  { split; [apply Nat.div_le_lower_bound | apply Nat.Div0.div_lt_upper_bound]; lia. }
  destruct (F64.ltb _ x).
  - specialize (IH (S ((lo + hi) / 2)) hi). lia.
  - specialize (IH lo ((lo + hi) / 2)%nat). lia.
Qed.

(** X1: [_find_closest] returns a valid index of the list or raises
    ValueError, whatever the list (sorted or not) and the flag; on the
    empty list it always raises. *)
Theorem find_closest_returns_an_index (l : list F64.t) (v : F64.t) (before : bool) :
  match _find_closest l v before with
  | Ok i => (i < length l)%nat
  | Raise e => e = ValueError
  end /\
  _find_closest [] v before = Raise ValueError.
Proof.
  split; [|destruct before; reflexivity].
  unfold _find_closest, bisect_left, bisect_right.
  pose proof (bisect_right_loop_range (length l) l v 0 (length l) ltac:(lia)) as Hr.
  pose proof (bisect_left_loop_range (length l) l v 0 (length l) ltac:(lia)) as Hl.
  destruct before.
  - destruct (Nat.eqb_spec (bisect_left_loop (length l) l v 0 (length l)) (length l));
      [reflexivity | lia].
  - destruct (Nat.eqb_spec (bisect_right_loop (length l) l v 0 (length l)) (length l));
      [reflexivity | lia].
Qed.

Lemma nth_error_lt {A} (l : list A) (k : nat) (y : A) :
  nth_error l k = Some y -> (k < length l)%nat.
Proof. intros H. apply nth_error_Some. congruence. Qed.

Lemma nth_nth_error (l : list F64.t) (k : nat) (y : F64.t) :
  nth_error l k = Some y -> nth k l F64.nan = y.
Proof. intros H. apply nth_error_nth. exact H. Qed.

(** The invariant of the search for the first item with [p]: no item
    before [lo] has [p], every item from [hi] on has it. *)
Lemma bisect_right_loop_first (n : nat) (a : list F64.t) (x : F64.t) :
  partitioned (F64.ltb x) a ->
  forall lo hi, (lo <= hi <= length a)%nat -> (hi - lo <= n)%nat ->
    (forall j y, (j < lo)%nat -> nth_error a j = Some y -> F64.ltb x y = false) ->
    (forall k y, (hi <= k)%nat -> nth_error a k = Some y -> F64.ltb x y = true) ->
    let r := bisect_right_loop n a x lo hi in
    (forall j y, (j < r)%nat -> nth_error a j = Some y -> F64.ltb x y = false) /\
    (forall k y, (r <= k)%nat -> nth_error a k = Some y -> F64.ltb x y = true).
Proof.
  intros Hp. induction n as [|n IH]; intros lo hi Hb Hn Hlo Hhi; cbn [bisect_right_loop].
  - assert (lo = hi) by lia. subst hi. split; assumption.
  - destruct (Nat.ltb_spec lo hi) as [Hlt|Hge].
    + assert (Hm : (lo <= (lo + hi) / 2 < hi)%nat).
      { split; [apply Nat.div_le_lower_bound | apply Nat.Div0.div_lt_upper_bound]; lia. }
      set (mid := ((lo + hi) / 2)%nat) in *.
      destruct (nth_error a mid) as [ym|] eqn:Em;
        [|apply nth_error_None in Em; lia].
      rewrite (nth_nth_error a mid ym Em).
      destruct (F64.ltb x ym) eqn:Ec.
      * apply IH; [lia | lia | exact Hlo |].
        intros k y Hk Hy. exact (Hp mid k ym y Hk Em Hy Ec).
      * apply IH; [lia | lia | | exact Hhi].
        intros j y Hj Hy.
        destruct (F64.ltb x y) eqn:Ey; [|reflexivity].
        rewrite (Hp j mid y ym ltac:(lia) Hy Em Ey) in Ec. discriminate.
    + assert (lo = hi) by lia. subst hi. split; assumption.
Qed.

Lemma partitioned_nil (p : F64.t -> bool) : partitioned p [].
Proof. intros j k x y _ Hx. destruct j; discriminate Hx. Qed.

Lemma partitioned_cons (p : F64.t -> bool) (x : F64.t) (l : list F64.t) :
  (p x = true -> Forall (fun y => p y = true) l) -> partitioned p l ->
  partitioned p (x :: l).
Proof.
  intros Hx Hl j k a b Hjk Ha Hb Hpa.
  destruct k as [|k]; [assert (j = 0)%nat by lia; subst j; cbn in Ha, Hb; congruence|].
  cbn in Hb. destruct j as [|j]; cbn in Ha.
  - injection Ha as <-. specialize (Hx Hpa).
    rewrite Stdlib.Lists.List.Forall_forall in Hx. apply Hx.
    apply nth_error_In with k. exact Hb.
  - apply (Hl j k a b); [lia | assumption..].
Qed.

Ltac partitioned_list :=
  repeat first
    [ apply partitioned_nil
    | apply partitioned_cons;
      [ let E := fresh "E" in
        intros E;
        first [ vm_compute in E; discriminate E
              | repeat (apply List.Forall_cons; [vm_compute; reflexivity|]);
                apply List.Forall_nil ]
      | ] ].

(** X2: on a list that is partitioned with respect to [value] (as a
    sorted one is), [_find_closest] with [before=False] returns the index
    of the first item greater than [value], and raises ValueError exactly
    when no item is greater. *)
Theorem find_closest_first_greater (l : list F64.t) (v : F64.t) :
  partitioned (F64.ltb v) l ->
  match _find_closest l v false with
  | Ok i =>
      (exists y, nth_error l i = Some y /\ F64.ltb v y = true) /\
      (forall j x, (j < i)%nat -> nth_error l j = Some x -> F64.ltb v x = false)
  | Raise e => e = ValueError /\ Forall (fun x => F64.ltb v x = false) l
  end.
Proof.
  intros Hp. unfold _find_closest, bisect_right.
  pose proof (bisect_right_loop_range (length l) l v 0 (length l) ltac:(lia)) as Hr.
  destruct (bisect_right_loop_first (length l) l v Hp 0 (length l)) as [Hbefore Hafter];
    [lia | lia | intros; lia | |].
  { intros k y Hk Hy. apply nth_error_lt in Hy. lia. }
  set (r := bisect_right_loop (length l) l v 0 (length l)) in *.
  destruct (Nat.eqb_spec r (length l)) as [E|E].
  - split; [reflexivity|]. apply Stdlib.Lists.List.Forall_forall. intros x Hx.
    apply In_nth_error in Hx. destruct Hx as [j Hj].
    apply (Hbefore j x); [|exact Hj]. apply nth_error_lt in Hj. lia.
  - split; [|exact Hbefore].
    destruct (nth_error l r) as [y|] eqn:Ey; [|apply nth_error_None in Ey; lia].
    exists y. split; [reflexivity|]. apply (Hafter r y); [lia | exact Ey].
Qed.

Lemma find_closest_first_greater_witness :
  partitioned (F64.ltb (F64.of_Z 2)) [F64.of_Z 1; F64.of_Z 2; F64.of_Z 2; F64.of_Z 5] /\
  exists y, nth_error [F64.of_Z 1; F64.of_Z 2; F64.of_Z 2; F64.of_Z 5] 3 = Some y /\
            F64.ltb (F64.of_Z 2) y = true.
Proof.
  assert (Hp : partitioned (F64.ltb (F64.of_Z 2))
                 [F64.of_Z 1; F64.of_Z 2; F64.of_Z 2; F64.of_Z 5]) by partitioned_list.
  split; [exact Hp|].
  pose proof (find_closest_first_greater _ _ Hp) as H.
  assert (E : _find_closest [F64.of_Z 1; F64.of_Z 2; F64.of_Z 2; F64.of_Z 5] (F64.of_Z 2) false
              = Ok 3%nat) by (vm_compute; reflexivity).
  rewrite E in H. exact (proj1 H).
Defined.

(** The same for the search of [bisect_left]: the items with [p] come
    first. *)
Lemma bisect_left_loop_first (n : nat) (a : list F64.t) (x : F64.t) :
  partitioned (fun y => negb (F64.ltb y x)) a ->
  forall lo hi, (lo <= hi <= length a)%nat -> (hi - lo <= n)%nat ->
    (forall j y, (j < lo)%nat -> nth_error a j = Some y -> F64.ltb y x = true) ->
    (forall k y, (hi <= k)%nat -> nth_error a k = Some y -> F64.ltb y x = false) ->
    let r := bisect_left_loop n a x lo hi in
    (forall j y, (j < r)%nat -> nth_error a j = Some y -> F64.ltb y x = true) /\
    (forall k y, (r <= k)%nat -> nth_error a k = Some y -> F64.ltb y x = false).
Proof.
  intros Hp. induction n as [|n IH]; intros lo hi Hb Hn Hlo Hhi; cbn [bisect_left_loop].
  - assert (lo = hi) by lia. subst hi. split; assumption.
  - destruct (Nat.ltb_spec lo hi) as [Hlt|Hge].
    + assert (Hm : (lo <= (lo + hi) / 2 < hi)%nat).
      { split; [apply Nat.div_le_lower_bound | apply Nat.Div0.div_lt_upper_bound]; lia. }
      set (mid := ((lo + hi) / 2)%nat) in *.
      destruct (nth_error a mid) as [ym|] eqn:Em;
        [|apply nth_error_None in Em; lia].
      rewrite (nth_nth_error a mid ym Em).
      destruct (F64.ltb ym x) eqn:Ec.
      * apply IH; [lia | lia | | exact Hhi].
        intros j y Hj Hy.
        destruct (F64.ltb y x) eqn:Ey; [reflexivity|].
        pose proof (Hp j mid y ym ltac:(lia) Hy Em) as H. cbn beta in H.
        rewrite Ey, Ec in H. discriminate (H eq_refl).
      * apply IH; [lia | lia | exact Hlo |].
        intros k y Hk Hy.
        pose proof (Hp mid k ym y Hk Em Hy) as H. cbn beta in H.
        rewrite Ec in H. specialize (H eq_refl).
        destruct (F64.ltb y x); [discriminate H | reflexivity].
    + assert (lo = hi) by lia. subst hi. split; assumption.
Qed.

(** X3: with [before=True] and a list whose items less than [value] come
    first (as in a sorted one), [_find_closest] returns the index of the
    first item that is not less than [value], and raises ValueError
    exactly when every item is less. *)
Theorem find_closest_before_first_not_less (l : list F64.t) (v : F64.t) :
  partitioned (fun y => negb (F64.ltb y v)) l ->
  match _find_closest l v true with
  | Ok i =>
      (exists y, nth_error l i = Some y /\ F64.ltb y v = false) /\
      (forall j x, (j < i)%nat -> nth_error l j = Some x -> F64.ltb x v = true)
  | Raise e => e = ValueError /\ Forall (fun x => F64.ltb x v = true) l
  end.
Proof.
  intros Hp. unfold _find_closest, bisect_left.
  pose proof (bisect_left_loop_range (length l) l v 0 (length l) ltac:(lia)) as Hr.
  destruct (bisect_left_loop_first (length l) l v Hp 0 (length l)) as [Hbefore Hafter];
    [lia | lia | intros; lia | |].
  { intros k y Hk Hy. apply nth_error_lt in Hy. lia. }
  set (r := bisect_left_loop (length l) l v 0 (length l)) in *.
  destruct (Nat.eqb_spec r (length l)) as [E|E].
  - split; [reflexivity|]. apply Stdlib.Lists.List.Forall_forall. intros x Hx.
    apply In_nth_error in Hx. destruct Hx as [j Hj].
    apply (Hbefore j x); [|exact Hj]. apply nth_error_lt in Hj. lia.
  - split; [|exact Hbefore].
    destruct (nth_error l r) as [y|] eqn:Ey; [|apply nth_error_None in Ey; lia].
    exists y. split; [reflexivity|]. apply (Hafter r y); [lia | exact Ey].
Qed.

Lemma find_closest_before_first_not_less_witness :
  partitioned (fun y => negb (F64.ltb y (F64.of_Z 2)))
              [F64.of_Z 1; F64.of_Z 2; F64.of_Z 2; F64.of_Z 5] /\
  exists y, nth_error [F64.of_Z 1; F64.of_Z 2; F64.of_Z 2; F64.of_Z 5] 1 = Some y /\
            F64.ltb y (F64.of_Z 2) = false.
Proof.
  assert (Hp : partitioned (fun y => negb (F64.ltb y (F64.of_Z 2)))
                 [F64.of_Z 1; F64.of_Z 2; F64.of_Z 2; F64.of_Z 5]) by partitioned_list.
  split; [exact Hp|].
  pose proof (find_closest_before_first_not_less _ _ Hp) as H.
  assert (E : _find_closest [F64.of_Z 1; F64.of_Z 2; F64.of_Z 2; F64.of_Z 5] (F64.of_Z 2) true
              = Ok 1%nat) by (vm_compute; reflexivity).
  rewrite E in H. exact (proj1 H).
Defined.

(** ** [_frange] *)

(** X4: what [_frange] yields, when it ends: the list is empty exactly
    when [start < stop] fails; otherwise it begins with [start], every
    item is below [stop], each item is its predecessor plus [step] (by
    repeated addition, not [start + k * step]), and the item after the
    last would not be below [stop]. *)
Theorem frange_yields (fuel : nat) (i stop step : F64.t) (l : list F64.t) :
  _frange fuel i stop step = Some l ->
  (l = [] <-> F64.ltb i stop = false) /\
  (forall x, hd_error l = Some x -> x = i) /\
  Forall (fun x => F64.ltb x stop = true) l /\
  (forall k x y, nth_error l k = Some x -> nth_error l (S k) = Some y ->
     y = F64.add x step) /\
  (forall x, nth_error l (length l - 1) = Some x -> F64.ltb (F64.add x step) stop = false).
Proof.
  revert i l. induction fuel as [|fuel IH]; intros i l H; [discriminate|].
  cbn [_frange] in H. destruct (F64.ltb i stop) eqn:E.
  - destruct (_frange fuel (F64.add i step) stop step) as [l'|] eqn:E'; [|discriminate].
    injection H as <-. destruct (IH _ _ E') as (Hnil & Hhd & Hall & Hstep & Hlast).
    split; [split; intros; discriminate|].
    split; [intros x Hx; injection Hx as <-; reflexivity|].
    split; [apply List.Forall_cons; assumption|].
    split.
    + intros [|k] x y Hx Hy.
      * injection Hx as <-. apply Hhd. destruct l'; [discriminate Hy | exact Hy].
      * exact (Hstep k x y Hx Hy).
    + intros x Hx. destruct l' as [|z l'].
      * injection Hx as <-. apply Hnil. reflexivity.
      * apply Hlast. cbn [length] in Hx.
        replace (S (S (length l')) - 1)%nat with (S (length l')) in Hx by lia.
        cbn [length]. replace (S (length l') - 1)%nat with (length l') by lia.
        exact Hx.
  - injection H as <-.
    split; [split; intros; reflexivity|].
    split; [intros x Hx; discriminate Hx|].
    split; [apply List.Forall_nil|].
    split; [intros k x y Hx; destruct k; discriminate Hx|].
    intros x Hx. discriminate Hx.
Qed.

Lemma frange_yields_witness :
  exists l, _frange 5 (F64.of_Z 0) (F64.of_Z 3) (F64.of_Z 1) = Some l /\
            Forall (fun x => F64.ltb x (F64.of_Z 3) = true) l.
Proof.
  exists [F64.of_Z 0; F64.of_Z 1; F64.of_Z 2].
  assert (E : _frange 5 (F64.of_Z 0) (F64.of_Z 3) (F64.of_Z 1)
              = Some [F64.of_Z 0; F64.of_Z 1; F64.of_Z 2]) by (vm_compute; reflexivity).
  split; [exact E|].
  exact (proj1 (proj2 (proj2 (frange_yields _ _ _ _ _ E)))).
Defined.

Lemma ltb_add_zero (i stop : F64.t) (s : bool) :
  F64.ltb (F64.add i (S754_zero s)) stop = F64.ltb i stop.
Proof.
  unfold F64.ltb, F64.add, SFltb.
  destruct i as [si| si| |si mi ei]; cbn [SFadd]; try reflexivity.
  destruct si, s; destruct stop; reflexivity.
Qed.

(** X5: when [start < stop] and the step is zero, or is so small that
    adding it to the running value gives that value again, the loop of
    [_frange] never ends: no number of turns is enough. *)
Theorem frange_stalls (i stop step : F64.t) :
  F64.ltb i stop = true ->
  (exists s, step = S754_zero s) \/ F64.add i step = i ->
  forall fuel, _frange fuel i stop step = None.
Proof.
  intros Hlt Hstep fuel. revert i Hlt Hstep.
  induction fuel as [|fuel IH]; intros i Hlt Hstep; [reflexivity|].
  cbn [_frange]. rewrite Hlt.
  rewrite IH; [reflexivity | |].
  - destruct Hstep as [[s ->] | ->]; [rewrite ltb_add_zero|]; exact Hlt.
  - destruct Hstep as [[s ->] | E]; [left; eauto|]. right. rewrite E. exact E.
Qed.

Lemma frange_stalls_witness :
  _frange 1000 (F64.of_Z 1) (F64.of_Z 2) (S754_zero false) = None /\
  _frange 1000 (F64.of_Z (2 ^ 60)) (F64.of_Z (2 ^ 61)) (F64.of_Z 1) = None.
Proof.
  split.
  - apply frange_stalls; [vm_compute; reflexivity | left; eauto].
  - apply frange_stalls; [vm_compute; reflexivity | right; vm_compute; reflexivity].
Defined.





(** ** Byte order, masking, reshaping and cropping *)

Lemma words32_swap_items (buf : list byte) :
  words32 (swap_items buf) = map byteswap (words32 buf).
Proof.
  unfold swap_items.
  induction (words32 buf) as [|[[[b0 b1] b2] b3] ws IH]; [reflexivity|].
  cbn [flat_map app map byteswap words32]. rewrite IH. reflexivity.
Qed.

(** X7: the byte order declared by the descriptor only says how the four
    bytes of an item are read: a file declared big-endian decodes to the
    grid that the file with the bytes of every item reversed gives when
    declared little-endian, and the other way round. *)
Theorem byte_order_is_item_reversal (d : data_dict) (buf : list byte) (le : bool) :
  elements (negb le) buf = elements le (swap_items buf) /\
  decode_binary
    (mk_dict (undef d) (xdef_count d) (xdef_start d) (xdef_increment d)
             (ydef_count d) (ydef_start d) (ydef_increment d)
             (start_date d) (Some (negb le)) (variable_description d) (title d)) buf =
  decode_binary
    (mk_dict (undef d) (xdef_count d) (xdef_start d) (xdef_increment d)
             (ydef_count d) (ydef_start d) (ydef_increment d)
             (start_date d) (Some le) (variable_description d) (title d)) (swap_items buf).
Proof.
  assert (E : elements (negb le) buf = elements le (swap_items buf)).
  { unfold elements. rewrite words32_swap_items, map_map. apply map_ext.
    intros [[[b0 b1] b2] b3]. destruct le; reflexivity. }
  split; [exact E|].
  unfold decode_binary. cbn [little_endian undef ydef_count xdef_count getitem of_option rbind].
  rewrite E. reflexivity.
Qed.

Lemma np_equal_nan_left (u : F64.t) : np_equal F32.nan u = false.
Proof. unfold np_equal. destruct (fits_float32 u); reflexivity. Qed.

Lemma np_equal_nan_right (x : F32.t) : np_equal x S754_nan = false.
Proof. unfold np_equal. cbn. destruct x; reflexivity. Qed.

(** X8: masking is idempotent (a masked item is NaN, which equals
    nothing), and an undef value of NaN masks nothing: the items are left
    as they were read. *)
Theorem masking_is_idempotent (u : F64.t) (data : list F32.t) :
  mask_undef u (mask_undef u data) = mask_undef u data /\
  mask_undef S754_nan data = data.
Proof.
  unfold mask_undef. split.
  - rewrite map_map. apply map_ext. intros x.
    destruct (np_equal x u) eqn:E; [rewrite np_equal_nan_left | rewrite E]; reflexivity.
  - rewrite <- (map_id data) at 2. apply map_ext. intros x.
    rewrite np_equal_nan_right. reflexivity.
Qed.

Lemma np_reshape_ok (data : list F32.t) (y x : Z) (g : Grid) :
  np_reshape data y x = Ok g -> cells g = data /\ well_formed g.
Proof.
  unfold np_reshape, well_formed. set (n := Z.of_nat (length data)).
  assert (Hinf : forall a, 0 < a -> n mod a = 0 ->
            length data = (Z.to_nat (n / a) * Z.to_nat a)%nat /\
            length data = (Z.to_nat a * Z.to_nat (n / a))%nat).
  { intros a Ha Hm.
    assert (n = a * (n / a)) by (apply Z.div_exact; lia).
    assert (0 <= n / a) by (apply Z.div_pos; lia). subst n. nia. }
  destruct ((0 <=? y) && (0 <=? x)) eqn:E0.
  - apply andb_prop in E0. destruct E0 as [Hy Hx].
    apply Z.leb_le in Hy. apply Z.leb_le in Hx.
    destruct (Z.eqb_spec n (y * x)) as [E|E]; [|discriminate].
    intros H. injection H as <-. cbn. split; [reflexivity | subst n; nia].
  - destruct ((y =? -1) && (0 <? x)) eqn:E1.
    + apply andb_prop in E1. destruct E1 as [_ Hx]. apply Z.ltb_lt in Hx.
      destruct (Z.eqb_spec (n mod x) 0) as [E|E]; [|discriminate].
      intros H. injection H as <-. cbn. split; [reflexivity | apply Hinf; assumption].
    + destruct ((x =? -1) && (0 <? y)) eqn:E2; [|discriminate].
      apply andb_prop in E2. destruct E2 as [_ Hy]. apply Z.ltb_lt in Hy.
      destruct (Z.eqb_spec (n mod y) 0) as [E|E]; [|discriminate].
      intros H. injection H as <-. cbn. split; [reflexivity | apply Hinf; assumption].
Qed.

(** X9: a grid that comes out of the decoder holds exactly rows * cols
    items, and they are the items of the file (for ICDR, of the variable)
    in their order, masked. *)
Theorem decoded_grid_is_well_formed (d : data_dict) (g : Grid) :
  (forall buf, decode_binary d buf = Ok g ->
     well_formed g /\
     exists le u, little_endian d = Some le /\ undef d = Some u /\
                  cells g = mask_undef u (elements le buf)) /\
  (forall values, decode_icdr d values = Ok g ->
     well_formed g /\
     exists u, undef d = Some u /\ cells g = mask_undef u values).
Proof.
  split.
  - intros buf H. unfold decode_binary in H.
    apply rbind_ok in H. destruct H as (le & Hle & H). apply getitem_ok in Hle.
    apply rbind_ok in H. destruct H as (u & Hu & H). apply getitem_ok in Hu.
    apply rbind_ok in H. destruct H as (y & _ & H).
    apply rbind_ok in H. destruct H as (x & _ & H).
    apply np_reshape_ok in H. destruct H as [Hc Hw]. split; [exact Hw|]. eauto.
  - intros values H. unfold decode_icdr in H.
    apply rbind_ok in H. destruct H as (u & Hu & H). apply getitem_ok in Hu.
    apply rbind_ok in H. destruct H as (y & _ & H).
    apply rbind_ok in H. destruct H as (x & _ & H).
    apply np_reshape_ok in H. destruct H as [Hc Hw]. split; [exact Hw|]. eauto.
Qed.

Lemma flat_map_chunks_length {A} (f : nat -> list A) (c n a : nat) :
  (forall k, (a <= k < a + n)%nat -> length (f k) = c) ->
  length (flat_map f (seq a n)) = (n * c)%nat.
Proof.
  revert a. induction n as [|n IH]; intros a H; [reflexivity|].
  cbn [seq flat_map]. rewrite length_app, (H a) by lia.
  rewrite (IH (S a)) by (intros k Hk; apply H; lia). lia.
Qed.

Lemma flat_map_chunks_nth {A} (f : nat -> list A) (c n : nat) :
  forall a i j,
    (forall k, (a <= k < a + n)%nat -> length (f k) = c) ->
    (i < n)%nat -> (j < c)%nat ->
    nth_error (flat_map f (seq a n)) (i * c + j) = nth_error (f (a + i)%nat) j.
Proof.
  induction n as [|n IH]; intros a i j H Hi Hj; [lia|].
  cbn [seq flat_map]. destruct i as [|i].
  - rewrite Nat.add_0_r. cbn [Nat.mul Nat.add].
    apply nth_error_app1. rewrite (H a) by lia. exact Hj.
  - rewrite nth_error_app2 by (rewrite (H a) by lia; cbn; lia).
    rewrite (H a) by lia.
    replace (S i * c + j - c)%nat with (i * c + j)%nat by (cbn; lia).
    rewrite (IH (S a) i j) by (try lia; intros k Hk; apply H; lia).
    f_equal. f_equal. lia.
Qed.

(** The row [i] of a well-formed grid, cut to [c] items. *)
Lemma row_prefix (g : Grid) (c i : nat) :
  well_formed g -> (i < rows g)%nat -> (c <= cols g)%nat ->
  length (firstn c (skipn (i * cols g) (cells g))) = c /\
  forall j, (j < c)%nat ->
    nth_error (firstn c (skipn (i * cols g) (cells g))) j =
    nth_error (cells g) (i * cols g + j).
Proof.
  unfold well_formed. intros Hw Hi Hc. split.
  - rewrite length_firstn, length_skipn, Hw. nia.
  - intros j Hj. rewrite nth_error_firstn.
    destruct (Nat.ltb_spec j c); [|lia]. apply nth_error_skipn.
Qed.

Lemma crop_length (g : Grid) (lat_len lon_len : nat) :
  well_formed g ->
  length (cells (crop g lat_len lon_len)) =
  (Nat.min (rows g) lat_len * Nat.min (cols g) lon_len)%nat.
Proof.
  intros Hw. unfold crop. cbn [cells].
  apply (flat_map_chunks_length
           (fun i => firstn (Nat.min (cols g) lon_len) (skipn (i * cols g) (cells g)))).
  intros k Hk. apply (row_prefix g _ k Hw); lia.
Qed.

Lemma crop_nth (g : Grid) (lat_len lon_len i j : nat) :
  well_formed g ->
  (i < Nat.min (rows g) lat_len)%nat -> (j < Nat.min (cols g) lon_len)%nat ->
  nth_error (cells (crop g lat_len lon_len)) (i * Nat.min (cols g) lon_len + j) =
  nth_error (cells g) (i * cols g + j).
Proof.
  intros Hw Hi Hj. unfold crop. cbn [cells].
  rewrite (flat_map_chunks_nth
             (fun i => firstn (Nat.min (cols g) lon_len) (skipn (i * cols g) (cells g)))
             (Nat.min (cols g) lon_len) (Nat.min (rows g) lat_len) 0 i j);
    [|intros k Hk; apply (row_prefix g _ k Hw); lia | exact Hi | exact Hj].
  cbn [Nat.add]. apply (row_prefix g _ i Hw); lia.
Qed.

Lemma crop_well_formed (g : Grid) (lat_len lon_len : nat) :
  well_formed g -> well_formed (crop g lat_len lon_len).
Proof. intros Hw. unfold well_formed. rewrite (crop_length g _ _ Hw). reflexivity. Qed.

(** X10: the slice [data[:, :lat_len, :lon_len]] of a well-formed grid
    is the well-formed grid of its first rows and columns: it has
    min(rows, lat_len) rows and min(cols, lon_len) columns, its cell
    (i, j) is the cell (i, j) of the grid, and it is the grid itself when
    the bounds are not smaller than the grid. *)
Theorem crop_is_the_top_left_block (g : Grid) (lat_len lon_len : nat) :
  well_formed g ->
  rows (crop g lat_len lon_len) = Nat.min (rows g) lat_len /\
  cols (crop g lat_len lon_len) = Nat.min (cols g) lon_len /\
  well_formed (crop g lat_len lon_len) /\
  (forall i j, (i < lat_len)%nat -> (j < lon_len)%nat ->
     cell (crop g lat_len lon_len) i j = cell g i j) /\
  ((rows g <= lat_len)%nat -> (cols g <= lon_len)%nat -> crop g lat_len lon_len = g).
Proof.
  intros Hw.
  set (r := Nat.min (rows g) lat_len). set (c := Nat.min (cols g) lon_len).
  pose proof (crop_length g lat_len lon_len Hw) as Hlen. fold r c in Hlen.
  assert (Hnth : forall i j, (i < r)%nat -> (j < c)%nat ->
            nth_error (cells (crop g lat_len lon_len)) (i * c + j) =
            nth_error (cells g) (i * cols g + j))
    by (intros i j; apply (crop_nth g lat_len lon_len i j Hw)).
  split; [reflexivity|]. split; [reflexivity|].
  split; [apply crop_well_formed; exact Hw|]. split.
  - intros i j Hi Hj. unfold cell.
    change (rows (crop g lat_len lon_len)) with r.
    change (cols (crop g lat_len lon_len)) with c.
    destruct (Nat.ltb_spec i (rows g)); destruct (Nat.ltb_spec j (cols g)); cbn [andb].
    + destruct (Nat.ltb_spec i r); [|lia]. destruct (Nat.ltb_spec j c); [|lia].
      cbn [andb]. apply Hnth; assumption.
    + destruct (Nat.ltb_spec j c); [lia|]. rewrite andb_false_r. reflexivity.
    + destruct (Nat.ltb_spec i r); [lia|]. reflexivity.
    + destruct (Nat.ltb_spec i r); [lia|]. reflexivity.
  - intros Hr Hc.
    assert (Er : r = rows g) by lia. assert (Ec : c = cols g) by lia.
    assert (Ecells : cells (crop g lat_len lon_len) = cells g).
    { apply nth_error_ext. intros k.
      destruct (Nat.ltb_spec k (rows g * cols g)) as [Hk|Hk].
      - assert (Hc0 : (0 < cols g)%nat) by nia.
        pose proof (Nat.div_mod_eq k (cols g)) as Hdm.
        pose proof (Nat.mod_upper_bound k (cols g) ltac:(lia)) as Hmod.
        assert (Hdiv : (k / cols g < rows g)%nat)
          by (apply Nat.Div0.div_lt_upper_bound; lia).
        replace k with ((k / cols g) * cols g + k mod cols g)%nat at 2 by lia.
        rewrite <- (Hnth (k / cols g) (k mod cols g))%nat by lia.
        rewrite Ec. f_equal. lia.
      - rewrite (proj2 (nth_error_None _ _)) by (rewrite Hlen, Er, Ec; exact Hk).
        symmetry. apply nth_error_None. unfold well_formed in Hw. lia. }
    destruct g as [gr gc gcells]. unfold crop in *. cbn [rows cols cells] in *.
    fold r c. fold r c in Ecells. rewrite Ecells, Er, Ec. reflexivity.
Qed.

Lemma decoded_grid_is_well_formed_witness :
  exists g,
    decode_binary (mk_dict (Some minus_999) (Some 4) None None (Some 3) None None None
                           (Some true) None None) tiny_buffer = Ok g /\
    well_formed g.
Proof.
  set (dd := mk_dict (Some minus_999) (Some 4) None None (Some 3) None None None
                     (Some true) None None).
  destruct (decode_binary dd tiny_buffer) as [g|e] eqn:E;
    [|exfalso; vm_compute in E; discriminate E].
  exists g. split; [reflexivity|].
  exact (proj1 (proj1 (decoded_grid_is_well_formed dd g) tiny_buffer E)).
Defined.

Lemma crop_is_the_top_left_block_witness :
  cell (crop (mk_grid 2 3 (map F32.of_bits [1; 2; 3; 4; 5; 6])) 1 2) 0 1
  = cell (mk_grid 2 3 (map F32.of_bits [1; 2; 3; 4; 5; 6])) 0 1.
Proof.
  apply (crop_is_the_top_left_block (mk_grid 2 3 (map F32.of_bits [1; 2; 3; 4; 5; 6])) 1 2);
    first [lia | reflexivity].
Defined.



(** ** The descriptor parser *)

Lemma skippable_line (obs_type : string) (d : data_dict) (line : string) :
  skippable line = true -> read_line obs_type d line = Ok d.
Proof.
  unfold skippable. destruct (key_of line) as [w0|] eqn:Hk; [|discriminate].
  intros H. apply negb_true_iff in H.
  apply (read_line_unrecognized obs_type d line w0 Hk).
  intros Hin. apply not_true_iff_false in H. apply H.
  apply existsb_exists. exists w0. split; [exact Hin | apply String.eqb_refl].
Qed.

(** X12: the lines whose leading token is none of UNDEF, XDEF, YDEF,
    TDEF, OPTIONS, cmorph and TITLE play no part in the parse: with all of
    them deleted the outcome is the same, record or exception.  (Lines
    without any token are not among them.) *)
Theorem unrecognized_lines_play_no_part (obs_type : string) (d : data_dict)
    (lines : list string) :
  read_lines obs_type d lines =
  read_lines obs_type d (List.filter (fun l => negb (skippable l)) lines).
Proof.
  revert d. induction lines as [|l lines IH]; intros d; [reflexivity|].
  cbn [List.filter]. destruct (skippable l) eqn:E; cbn [negb read_lines].
  - rewrite (skippable_line obs_type d l E). cbn [rbind]. apply IH.
  - destruct (read_line obs_type d l) as [d'|e]; cbn [rbind]; [apply IH | reflexivity].
Qed.

Lemma read_lines_split (obs_type : string) (d d' : data_dict)
    (before after : list string) (line : string) :
  read_lines obs_type d (before ++ line :: after) = Ok d' ->
  exists d1 d2, read_lines obs_type d before = Ok d1 /\
                read_line obs_type d1 line = Ok d2 /\
                read_lines obs_type d2 after = Ok d'.
Proof.
  rewrite read_lines_app. intros H.
  apply rbind_ok in H. destruct H as (d1 & H1 & H). cbn [read_lines] in H.
  apply rbind_ok in H. destruct H as (d2 & H2 & H). eauto.
Qed.

(** X13: for UNDEF, TITLE and OPTIONS the record holds what the last line
    with that key says, whatever the lines before it: the undef value is
    [float] of its second token, the title is its tokens after the first
    joined by single spaces, and the byte order is little-endian unless
    its third token is [big_endian]. *)
Theorem last_line_of_a_key_wins (obs_type : string) (d d' : data_dict)
    (before after : list string) (line : string) :
  read_lines obs_type d (before ++ line :: after) = Ok d' ->
  (key_of line = Some "UNDEF" -> no_line_with "UNDEF" after ->
     exists tok v, nth_error (split line) 1 = Some tok /\ py_float tok = Some v /\
                   undef d' = Some v) /\
  (key_of line = Some "TITLE" -> no_line_with "TITLE" after ->
     title d' = Some (join " " (skipn 1 (split line)))) /\
  (key_of line = Some "OPTIONS" -> no_line_with "OPTIONS" after ->
     exists tok, nth_error (split line) 2 = Some tok /\
                 little_endian d' = Some (negb (String.eqb tok "big_endian"))).
Proof.
  intros H. apply read_lines_split in H. destruct H as (d1 & d2 & _ & H2 & H3).
  destruct (read_lines_frame obs_type after d2 d' H3) as (F1 & _ & _ & F4 & _ & F6).
  unfold read_line in H2. rewrite item_0 in H2. unfold key_of in *.
  split; [|split]; intros Hk Hno.
  - rewrite (F1 Hno). rewrite Hk in H2. cbn [of_option rbind] in H2.
    change (String.eqb "UNDEF" "UNDEF") with true in H2. cbv iota in H2.
    apply rbind_ok in H2. destruct H2 as (tok & Ht & H2). apply of_option_ok in Ht.
    apply rbind_ok in H2. destruct H2 as (v & Hv & H2). apply of_option_ok in Hv.
    injection H2 as <-. exists tok, v. repeat split; assumption.
  - rewrite (F6 Hno). rewrite Hk in H2. cbn [of_option rbind] in H2.
    change (String.eqb "TITLE" "UNDEF") with false in H2.
    change (String.eqb "TITLE" "XDEF") with false in H2.
    change (String.eqb "TITLE" "YDEF") with false in H2.
    change (String.eqb "TITLE" "TDEF") with false in H2.
    change (String.eqb "TITLE" "OPTIONS") with false in H2.
    change (String.eqb "TITLE" "cmorph") with false in H2.
    change (String.eqb "TITLE" "TITLE") with true in H2. cbv iota in H2.
    injection H2 as <-. reflexivity.
  - rewrite (F4 Hno). rewrite Hk in H2. cbn [of_option rbind] in H2.
    change (String.eqb "OPTIONS" "UNDEF") with false in H2.
    change (String.eqb "OPTIONS" "XDEF") with false in H2.
    change (String.eqb "OPTIONS" "YDEF") with false in H2.
    change (String.eqb "OPTIONS" "TDEF") with false in H2.
    change (String.eqb "OPTIONS" "OPTIONS") with true in H2. cbv iota in H2.
    apply rbind_ok in H2. destruct H2 as (tok & Ht & H2). apply of_option_ok in Ht.
    injection H2 as <-. exists tok. split; [exact Ht | reflexivity].
Qed.

Lemma last_line_of_a_key_wins_witness :
  exists d', read_lines "raw" empty_dict
               (["UNDEF 1.0"] ++ "UNDEF -999.0" :: ["TITLE a  b"]) = Ok d' /\
             undef d' = py_float "-999.0".
Proof.
  destruct (read_lines "raw" empty_dict (["UNDEF 1.0"] ++ "UNDEF -999.0" :: ["TITLE a  b"]))
    as [d'|e] eqn:E; [|exfalso; vm_compute in E; discriminate E].
  exists d'. split; [reflexivity|].
  destruct (last_line_of_a_key_wins "raw" empty_dict d' ["UNDEF 1.0"] ["TITLE a  b"]
              "UNDEF -999.0" E) as (H & _).
  destruct H as (tok & v & Ht & Hv & Hu).
  - reflexivity.
  - repeat constructor. discriminate.
  - rewrite Hu, <- Hv. injection Ht as <-. reflexivity.
Defined.

Lemma bind_ext {A B} (m1 m2 : M A) (k1 k2 : A -> M B) :
  (forall s, m1 s = m2 s) -> (forall a s, k1 a s = k2 a s) ->
  forall s, bind m1 k1 s = bind m2 k2 s.
Proof.
  intros Hm Hk s. unfold bind. rewrite Hm.
  destruct (m2 s) as [[a|e] s']; [apply Hk | reflexivity].
Qed.

(** X14: the start date of the TDEF line and the description of the
    [cmorph] line are parsed but never read: two descriptors that agree
    on the other fields give the same axes, the same decoded grids and
    the same archive. *)
Theorem start_date_and_description_are_unused
    (d1 d2 : data_dict) (w : World) (fuel : nat)
    (cmorph_dir netcdf_file target obs_type : string)
    (download_files remove_files conus_only : bool) (axes : Axes) (s : State) :
  same_used_fields d1 d2 ->
  compute_axes fuel d1 conus_only = compute_axes fuel d2 conus_only /\
  (forall buf, decode_binary d1 buf = decode_binary d2 buf) /\
  (forall values, decode_icdr d1 values = decode_icdr d2 values) /\
  archive_block w cmorph_dir netcdf_file target obs_type download_files remove_files d1 axes s =
  archive_block w cmorph_dir netcdf_file target obs_type download_files remove_files d2 axes s.
Proof.
  intros (H1 & H2 & H3 & H4 & H5 & H6 & H7 & H8 & H9).
  assert (Hb : forall buf, decode_binary d1 buf = decode_binary d2 buf).
  { intros buf. unfold decode_binary. rewrite H1, H2, H5, H8. reflexivity. }
  assert (Hi : forall values, decode_icdr d1 values = decode_icdr d2 values).
  { intros values. unfold decode_icdr. rewrite H1, H2, H5. reflexivity. }
  split; [unfold compute_axes; rewrite H2, H3, H4, H5, H6, H7; reflexivity|].
  split; [exact Hb|]. split; [exact Hi|].
  assert (Hd : forall v s0, decode_and_insert d1 axes obs_type v s0 =
                            decode_and_insert d2 axes obs_type v s0).
  { intros v s0. unfold decode_and_insert.
    destruct (negb (String.eqb obs_type "icdr")).
    - apply bind_ext; [reflexivity|]. intros buf s1. rewrite Hb. reflexivity.
    - apply bind_ext; [reflexivity|]. intros values s1. rewrite Hi. reflexivity. }
  unfold archive_block, with_dataset_w.
  replace (archive_body w cmorph_dir target obs_type download_files remove_files d1 axes
             (mk_state (<[netcdf_file := NcFile empty_dataset]> (files s)) empty_dataset))
    with (archive_body w cmorph_dir target obs_type download_files remove_files d2 axes
             (mk_state (<[netcdf_file := NcFile empty_dataset]> (files s)) empty_dataset));
    [reflexivity|].
  unfold archive_body. rewrite H9.
  repeat first [ reflexivity
               | symmetry; apply Hd
               | apply bind_ext; [intros ? | intros ? ?] ].
Qed.

Lemma start_date_and_description_are_unused_witness :
  compute_axes 10 (mk_dict None (Some 4) (Some (F64.of_Z 0)) (Some (F64.of_Z 1))
                           (Some 3) (Some (F64.of_Z 0)) (Some (F64.of_Z 1))
                           (Some (mk_date 1998 1 1)) None (Some "a") None) false =
  compute_axes 10 (mk_dict None (Some 4) (Some (F64.of_Z 0)) (Some (F64.of_Z 1))
                           (Some 3) (Some (F64.of_Z 0)) (Some (F64.of_Z 1))
                           None None None None) false.
Proof.
  apply (start_date_and_description_are_unused _ _ (sample_world tiny_ctl) 10
           "work" "out.nc" "2020-03-01" "raw" true false false (mk_axes 0 0 [] [])
           (mk_state (sample_files tiny_ctl) empty_dataset)).
  repeat split.
Defined.

(** After [_read_description] returned with [remove_file] set the
    descriptor is gone. *)
Lemma read_description_removes (w : World) (work_dir : string) (dl : bool)
    (obs_type : string) (s s' : State) (dd : data_dict) :
  _read_description w work_dir dl true obs_type s = (Ok dd, s') ->
  files s' !! descriptor_path work_dir = None.
Proof.
  unfold _read_description. intros H.
  step H. step H. lift_step H d Hd. step H. injection H as _ <-.
  cbn [when] in E1. unfold os_remove in E1.
  destruct (files s1 !! descriptor_path work_dir); [|discriminate E1].
  injection E1 as _ <-. apply lookup_delete_eq.
Qed.

(** X15: what [_read_description] leaves in the work directory.  It
    touches no file but the descriptor and not the open dataset.  When it
    returns, the descriptor is gone if [remove_file] was set, and else is
    the downloaded one (or the one that was there, without download).
    When it raises, nothing is cleaned up: a descriptor that was
    downloaded stays in the work directory even with [remove_file]. *)
Theorem read_description_leaves (w : World) (work_dir : string) (dl rm : bool)
    (obs_type : string) (s s' : State) (r : result data_dict) :
  _read_description w work_dir dl rm obs_type s = (r, s') ->
  (forall p, p <> descriptor_path work_dir -> files s' !! p = files s !! p) /\
  output_dataset s' = output_dataset s /\
  files s' !! descriptor_path work_dir =
    match r with
    | Ok _ =>
        if rm then None
        else if dl then remote w (descriptor_url obs_type)
        else files s !! descriptor_path work_dir
    | Raise _ =>
        if dl then
          match remote w (descriptor_url obs_type) with
          | Some f => Some f
          | None => files s !! descriptor_path work_dir
          end
        else files s !! descriptor_path work_dir
    end.
Proof.
  intros H.
  split; [intros p Hp; exact (read_description_frame _ _ _ _ _ _ _ _ _ H Hp)|].
  unfold _read_description in H. set (path := descriptor_path work_dir) in *.
  unfold bind in H.
  assert (Hrt : forall s1 r1 s2, read_text path s1 = (r1, s2) ->
            s2 = s1 /\ (is_ok r1 = true -> is_Some (files s1 !! path))).
  { intros s1 r1 s2 E. unfold read_text, bind, get_file in E.
    destruct (files s1 !! path) as [[bs|d]|]; cbn in E; injection E as <- <-;
      (split; [reflexivity|]); intros; eauto; discriminate. }
  destruct (when dl (urlretrieve w (descriptor_url obs_type) path) s)
    as [[[]|e0] s1] eqn:E1.
  - assert (Hs1 : output_dataset s1 = output_dataset s /\
                  files s1 !! path =
                  (if dl then remote w (descriptor_url obs_type) else files s !! path) /\
                  (dl = true -> is_Some (remote w (descriptor_url obs_type)))).
    { destruct dl; cbn [when] in E1.
      - unfold urlretrieve in E1.
        destruct (remote w (descriptor_url obs_type)) as [f|]; [|discriminate E1].
        injection E1 as <-. cbn. rewrite lookup_insert_eq. eauto.
      - injection E1 as <-. repeat split. discriminate. }
    destruct Hs1 as (Hd1 & Hf1 & Hrem).
    destruct (read_text path s1) as [[text|e1] s2] eqn:E2;
      apply Hrt in E2; destruct E2 as [-> Hsome].
    + unfold lift in H.
      destruct (parse_descriptor obs_type text) as [d|e2].
      * destruct (when rm (os_remove path) s1) as [[[]|e3] s3] eqn:E3.
        -- injection H as <- <-. destruct rm; cbn [when] in E3.
           ++ unfold os_remove in E3. destruct (files s1 !! path); [|discriminate E3].
              injection E3 as <-. cbn. rewrite lookup_delete_eq. split; [exact Hd1 | reflexivity].
           ++ injection E3 as <-. split; [exact Hd1 | exact Hf1].
        -- exfalso. destruct rm; cbn [when] in E3; [|discriminate E3].
           unfold os_remove in E3. destruct (Hsome eq_refl) as [f Hf].
           rewrite Hf in E3. discriminate E3.
      * injection H as <- <-. split; [exact Hd1|]. rewrite Hf1.
        destruct dl; [|reflexivity].
        destruct (Hrem eq_refl) as [f ->]. reflexivity.
    + injection H as <- <-. split; [exact Hd1|]. rewrite Hf1.
      destruct dl; [|reflexivity].
      destruct (Hrem eq_refl) as [f ->]. reflexivity.
  - injection H as <- <-. destruct dl; cbn [when] in E1; [|discriminate E1].
    unfold urlretrieve in E1.
    destruct (remote w (descriptor_url obs_type)) as [f|]; [discriminate E1|].
    injection E1 as _ <-. split; reflexivity.
Qed.



Lemma read_description_leaves_witness :
  files (snd (_read_description (sample_world tiny_ctl) "work" true true "raw"
                (mk_state (sample_files tiny_ctl) empty_dataset)))
    !! "work/cmorph_data_descriptor.txt" = None.
Proof.
  pose proof (read_description_leaves (sample_world tiny_ctl) "work" true true "raw"
                (mk_state (sample_files tiny_ctl) empty_dataset) _ _
                (surjective_pairing _)) as (_ & _ & H).
  assert (Hok : is_ok (fst (_read_description (sample_world tiny_ctl) "work" true true "raw"
                              (mk_state (sample_files tiny_ctl) empty_dataset))) = true)
    by (vm_compute; reflexivity).
  destruct (fst (_read_description _ _ _ _ _ _)) as [dd|e]; [|discriminate Hok].
  exact H.
Defined.

(** ** The run as a whole *)

(** X16: the date is parsed only after the archive was opened.  A run
    whose descriptor and axes are fine but whose date is not a date
    ([strptime] raises) has by then replaced the archive: it leaves one
    with the dimensions, the title and the attributes of the coordinate
    variables, with empty coordinate variables and without data variable,
    and it has downloaded no daily file. *)
Theorem bad_date_leaves_an_archive_without_data
    (w : World) (fuel : nat) (cmorph_dir netcdf_file target obs_type : string)
    (download_files remove_files conus_only : bool) (fs : gmap string file)
    (dd : data_dict) (axes : Axes) (s1 : State) (t : string) (e : exn) :
  prelude w fuel cmorph_dir obs_type download_files remove_files conus_only
          (mk_state fs empty_dataset) = (Ok (dd, axes), s1) ->
  title dd = Some t ->
  strptime_Ymd target = Raise e ->
  run w fuel cmorph_dir netcdf_file target obs_type
      download_files remove_files conus_only fs =
  (Raise e,
   <[netcdf_file :=
       NcFile (mk_ds (length (lat_values axes)) (length (lon_values axes)) (Some t)
                 (Some []) (Some []) (Some []) None
                 [("time.units", "days since 1900-01-01");
                  ("lat.units", "degrees_north"); ("lon.units", "degrees_east");
                  ("time.long_name", "Time"); ("lat.long_name", "Latitude");
                  ("lon.long_name", "Longitude"); ("time.calendar", "gregorian")]
                 None)]> (files s1)).
Proof.
  intros Hp Ht Hd. unfold run, ingest_cmorph_to_netcdf, bind. rewrite Hp.
  cbn [fst snd]. unfold archive_block, with_dataset_w, archive_body, bind, nc, lift.
  rewrite Ht, Hd. cbn. rewrite insert_insert_eq. reflexivity.
Qed.

Lemma bad_date_leaves_an_archive_without_data_witness :
  exists a,
    snd (run (sample_world tiny_ctl) 10 "work" "out.nc" "2020-02-30" "raw" true false false
             (sample_files tiny_ctl)) !! "out.nc" = Some (NcFile a) /\
    var_time a = Some [] /\ var_prcp a = None.
Proof.
  pose proof (fun dd axes s1 t e =>
                bad_date_leaves_an_archive_without_data (sample_world tiny_ctl) 10 "work"
                  "out.nc" "2020-02-30" "raw" true false false (sample_files tiny_ctl)
                  dd axes s1 t e) as H.
  destruct (prelude (sample_world tiny_ctl) 10 "work" "raw" true false false
              (mk_state (sample_files tiny_ctl) empty_dataset)) as [[[dd axes]|e0] s1] eqn:Ep;
    [|exfalso; vm_compute in Ep; discriminate Ep].
  assert (Ht : title dd = Some "tiny grid").
  { vm_compute in Ep. injection Ep as <- _ _. reflexivity. }
  rewrite (H dd axes s1 "tiny grid" ValueError eq_refl Ht)
    by (vm_compute; reflexivity).
  eexists. cbn [snd]. split; [apply lookup_insert_eq|]. split; reflexivity.
Defined.

Lemma nc_conform_ok (lat_dim lon_dim : nat) (g g' : Grid) :
  well_formed g -> nc_conform lat_dim lon_dim g = Ok g' ->
  well_formed g' /\
  (lat_dim <> 0%nat -> rows g' = lat_dim) /\ (lon_dim <> 0%nat -> cols g' = lon_dim).
Proof.
  unfold nc_conform, well_formed. intros Hw.
  set (L := if (lat_dim =? 0)%nat then rows g else lat_dim).
  set (K := if (lon_dim =? 0)%nat then cols g else lon_dim).
  assert (HL : lat_dim <> 0%nat -> L = lat_dim).
  { intros H. unfold L. destruct (Nat.eqb_spec lat_dim 0); [contradiction | reflexivity]. }
  assert (HK : lon_dim <> 0%nat -> K = lon_dim).
  { intros H. unfold K. destruct (Nat.eqb_spec lon_dim 0); [contradiction | reflexivity]. }
  destruct ((rows g =? L)%nat && (cols g =? K)%nat) eqn:E1.
  - apply andb_prop in E1. destruct E1 as [Er Ec].
    apply Nat.eqb_eq in Er. apply Nat.eqb_eq in Ec.
    intros H. injection H as <-. split; [exact Hw|]. split; intros; [rewrite Er | rewrite Ec]; auto.
  - destruct (Nat.eqb_spec (rows g * cols g) (L * K)) as [E2|E2].
    + intros H. injection H as <-. cbn [rows cols cells].
      split; [lia|]. split; assumption.
    + destruct (((rows g =? 1)%nat || (rows g =? L)%nat) &&
                ((cols g =? 1)%nat || (cols g =? K)%nat)) eqn:E3; [|discriminate].
      apply andb_prop in E3. destruct E3 as [Er Ec].
      intros H. injection H as <-. cbn [rows cols cells].
      split; [|split; assumption].
      apply flat_map_chunks_length. intros r Hr.
      transitivity (K * 1)%nat; [|lia].
      apply (flat_map_chunks_length _ 1 K 0). intros c Hc.
      assert (Hi : ((if (rows g =? 1)%nat then 0 else r) * cols g
                    + (if (cols g =? 1)%nat then 0 else c) < length (cells g))%nat).
      { rewrite Hw.
        assert (((if (rows g =? 1)%nat then 0 else r) < rows g)%nat).
        { destruct (Nat.eqb_spec (rows g) 1); [lia|].
          cbn [orb] in Er. apply Nat.eqb_eq in Er. lia. }
        assert (((if (cols g =? 1)%nat then 0 else c) < cols g)%nat).
        { destruct (Nat.eqb_spec (cols g) 1); [lia|].
          cbn [orb] in Ec. apply Nat.eqb_eq in Ec. lia. }
        nia. }
      apply nth_error_Some in Hi.
      destruct (nth_error (cells g) _); [reflexivity | contradiction].
Qed.

Lemma decoded_from_well_formed (dd : data_dict) (obs_type : string) (data : Grid) :
  decoded_from dd obs_type data -> well_formed data.
Proof.
  intros [[_ [buf H]] | [_ [values H]]].
  - unfold decode_binary in H.
    apply rbind_ok in H. destruct H as (le & _ & H).
    apply rbind_ok in H. destruct H as (u & _ & H).
    apply rbind_ok in H. destruct H as (y & _ & H).
    apply rbind_ok in H. destruct H as (x & _ & H).
    apply (np_reshape_ok _ _ _ _ H).
  - unfold decode_icdr in H.
    apply rbind_ok in H. destruct H as (u & _ & H).
    apply rbind_ok in H. destruct H as (y & _ & H).
    apply rbind_ok in H. destruct H as (x & _ & H).
    apply (np_reshape_ok _ _ _ _ H).
Qed.

(** X17: the archive a run leaves when it ends without an exception is
    consistent: the coordinate variables are as long as the dimensions
    say, and the one slice of the data variable holds rows * cols items
    and has the shape of the dimensions (a dimension of length 0 is
    unlimited and takes the length of the data). *)
Theorem archive_is_consistent
    (w : World) (fuel : nat) (cmorph_dir netcdf_file target obs_type : string)
    (download_files remove_files conus_only : bool) (fs fs' : gmap string file) :
  run w fuel cmorph_dir netcdf_file target obs_type
      download_files remove_files conus_only fs = (Ok tt, fs') ->
  exists (a : Dataset) (lat lon : list F32.t) (g : Grid),
    fs' !! netcdf_file = Some (NcFile a) /\
    var_lat a = Some lat /\ length lat = dim_lat a /\
    var_lon a = Some lon /\ length lon = dim_lon a /\
    var_prcp a = Some [g] /\ well_formed g /\
    (dim_lat a <> 0%nat -> rows g = dim_lat a) /\
    (dim_lon a <> 0%nat -> cols g = dim_lon a).
Proof.
  intros H. apply run_ok in H.
  destruct H as (_ & dd & axes & s0 & s1 & a & t & d & data & g & H).
  destruct H as (_ & _ & _ & -> & _ & _ & _ & Hfrom & Hc & Hlat & Hlon & _ & _ & Hvlat & Hvlon & Hp).
  exists a, (map F32.of_f64 (lat_values axes)), (map F32.of_f64 (lon_values axes)), g.
  destruct (nc_conform_ok _ _ _ _
              (crop_well_formed _ _ _ (decoded_from_well_formed _ _ _ Hfrom)) Hc)
    as (Hw & Hr & Hcl).
  rewrite Hlat, Hlon, !length_map.
  repeat (split; [first [apply lookup_insert_eq | assumption | reflexivity]|]).
  assumption.
Qed.

Lemma archive_is_consistent_witness :
  exists a g,
    snd (run (sample_world tiny_ctl) 10 "work" "out.nc" "2020-03-01" "raw" true false false
             (sample_files tiny_ctl)) !! "out.nc" = Some (NcFile a) /\
    var_prcp a = Some [g] /\ well_formed g.
Proof.
  destruct (archive_is_consistent (sample_world tiny_ctl) 10 "work" "out.nc"
              "2020-03-01" "raw" true false false (sample_files tiny_ctl) _
              (run_result_eta _ _ _ _ _ _ _ _ _ _ _ sample_run_ok))
    as (a & lat & lon & g & Hfs & _ & _ & _ & _ & Hp & Hw & _).
  exists a, g. repeat split; assumption.
Defined.

Lemma append_length (a b : string) :
  String.length (a +:+ b) = (String.length a + String.length b)%nat.
Proof. induction a as [|c a IH]; [reflexivity|]. simpl. f_equal. exact IH. Qed.

Lemma append_cancel (a b c : string) : a +:+ b = a +:+ c -> b = c.
Proof. induction a as [|x a IH]; simpl; intros H; [exact H | injection H as H; auto]. Qed.

Lemma append_not_self (a b : string) : b <> "" -> a +:+ b <> a.
Proof.
  intros Hb H. apply (f_equal String.length) in H. rewrite append_length in H.
  destruct b; [contradiction | simpl in H; lia].
Qed.

Lemma zip_extension_not_empty (obs_type : string) : zip_extension obs_type <> "".
Proof.
  unfold zip_extension.
  destruct (String.eqb obs_type "raw"); [discriminate|].
  destruct (String.eqb obs_type "adjusted"); discriminate.
Qed.

Lemma zipped_not_unzipped (dir obs_type : string) (d : date) :
  zipped_path dir obs_type d <> unzipped_path dir obs_type d.
Proof.
  unfold zipped_path, unzipped_path. intros H.
  apply append_cancel in H. apply append_cancel in H.
  exact (append_not_self _ _ (zip_extension_not_empty obs_type) H).
Qed.

Lemma daily_name_not_descriptor (obs_type rest : string) :
  daily_name obs_type +:+ rest <> "cmorph_data_descriptor.txt".
Proof.
  unfold daily_name.
  destruct (String.eqb obs_type "raw"); [discriminate|].
  destruct (String.eqb obs_type "adjusted"); discriminate.
Qed.

Lemma unzipped_not_descriptor (dir obs_type : string) (d : date) :
  unzipped_path dir obs_type d <> descriptor_path dir.
Proof.
  unfold unzipped_path, descriptor_path. intros H.
  apply append_cancel in H. apply append_cancel in H.
  exact (daily_name_not_descriptor _ _ H).
Qed.

Lemma zipped_not_descriptor (dir obs_type : string) (d : date) :
  zipped_path dir obs_type d <> descriptor_path dir.
Proof.
  unfold zipped_path, descriptor_path. intros H.
  apply append_cancel in H. apply append_cancel in H.
  unfold daily_name in H.
  destruct (String.eqb obs_type "raw"); [discriminate H|].
  destruct (String.eqb obs_type "adjusted"); discriminate H.
Qed.

(** What a download that returned has put into the work directory. *)
Lemma download_ok (w : World) (dir obs_type : string) (d : date)
    (s s' : State) (path : string) :
  _download_daily_files w dir (year d) (month d) (day d) obs_type s = (Ok path, s') ->
  output_dataset s' = output_dataset s /\
  if String.eqb obs_type "adjusted" || String.eqb obs_type "raw" then
    path = unzipped_path dir obs_type d /\
    exists zb out,
      files s' = <[unzipped_path dir obs_type d := RawFile out]>
                 (<[unzipped_path dir obs_type d := RawFile []]>
                  (<[zipped_path dir obs_type d := RawFile zb]> (files s)))
  else
    path = zipped_path dir obs_type d /\
    exists f, files s' = <[zipped_path dir obs_type d := f]> (files s).
Proof.
  intros H. split; [exact (keeps_download _ _ _ _ _ _ _ _ _ H)|].
  unfold _download_daily_files in H. cbv zeta in H.
  fold (zip_extension obs_type) in H.
  fold (unzipped_path dir obs_type d) in H. fold (zipped_path dir obs_type d) in H.
  apply bind_ok in H. destruct H as ([] & s1 & E & H).
  unfold urlretrieve in E. destruct (remote w _) as [f|]; [|discriminate E].
  injection E as <-.
  assert (Hz : forall unzip s2 p,
            bind (decompress_to unzip (zipped_path dir obs_type d)
                    (unzipped_path dir obs_type d))
                 (fun _ => ret (unzipped_path dir obs_type d))
                 (mk_state (<[zipped_path dir obs_type d := f]> (files s)) (output_dataset s))
            = (Ok p, s2) ->
            p = unzipped_path dir obs_type d /\
            exists zb out,
              files s2 = <[unzipped_path dir obs_type d := RawFile out]>
                         (<[unzipped_path dir obs_type d := RawFile []]>
                          (<[zipped_path dir obs_type d := RawFile zb]> (files s)))).
  { intros unzip s2 p E. unfold decompress_to, bind, get_file, set_file in E.
    cbn [files output_dataset] in E. rewrite lookup_insert_eq in E. cbn [of_option] in E.
    destruct f as [zb|ds]; [|discriminate E].
    destruct (unzip zb) as [out|]; [|discriminate E].
    injection E as <- <-. split; [reflexivity|]. exists zb, out. reflexivity. }
  destruct (String.eqb obs_type "adjusted"); cbn [orb].
  - exact (Hz _ _ _ H).
  - destruct (String.eqb obs_type "raw").
    + exact (Hz _ _ _ H).
    + injection H as <- <-. split; [reflexivity|]. exists f. reflexivity.
Qed.

Lemma keeps_files_bind {A B} (m : M A) (k : A -> M B) :
  keeps_files m -> (forall a, keeps_files (k a)) -> keeps_files (bind m k).
Proof.
  intros Hm Hk s r s' H. unfold bind in H.
  destruct (m s) as [[a|e] s1] eqn:E.
  - rewrite (Hk a _ _ _ H). exact (Hm _ _ _ E).
  - injection H as _ <-. exact (Hm _ _ _ E).
Qed.

Lemma keeps_files_lift {A} (x : result A) : keeps_files (lift x).
Proof. intros s r s' H. injection H as _ <-. reflexivity. Qed.

Lemma keeps_files_get_file (path : string) : keeps_files (get_file path).
Proof. intros s r s' H. injection H as _ <-. reflexivity. Qed.

Lemma keeps_files_assign (g : Grid) : keeps_files (assign_prcp_slice g).
Proof.
  intros s r s' H. unfold assign_prcp_slice in H.
  destruct (nc_conform _ _ g); injection H as _ <-; reflexivity.
Qed.

Lemma keeps_files_decode_and_insert (dd : data_dict) (axes : Axes) (obs_type : string)
    (v : pyval) :
  keeps_files (decode_and_insert dd axes obs_type v).
Proof.
  unfold decode_and_insert. destruct (negb (String.eqb obs_type "icdr")).
  - apply keeps_files_bind.
    + unfold np_fromfile. destruct v as [path|ps].
      * apply keeps_files_bind; [apply keeps_files_get_file|].
        intros [bs|ds] s r s' H; injection H as _ <-; reflexivity.
      * intros s r s' H. injection H as _ <-. reflexivity.
    + intros buf. apply keeps_files_bind; [apply keeps_files_lift|].
      intros data. apply keeps_files_assign.
  - apply keeps_files_bind.
    + unfold read_cmorph_variable.
      apply keeps_files_bind; [apply keeps_files_get_file|].
      intros [bs|ds] s r s' H; injection H as _ <-; reflexivity.
    + intros values. apply keeps_files_bind; [apply keeps_files_lift|].
      intros data. apply keeps_files_assign.
Qed.

(** The files after the body of the [with] block, in download mode. *)
Lemma archive_body_files (w : World) (cmorph_dir target obs_type : string)
    (rm : bool) (dd : data_dict) (axes : Axes) (s s' : State) :
  archive_body w cmorph_dir target obs_type true rm dd axes s = (Ok tt, s') ->
  exists d sa sd path,
    strptime_Ymd target = Ok d /\ files sa = files s /\
    _download_daily_files w cmorph_dir (year d) (month d) (day d) obs_type sa = (Ok path, sd) /\
    is_Some (files sd !! path) /\
    files s' = if rm then delete path (files sd) else files sd.
Proof.
  unfold archive_body. intros H.
  nc_step H. lift_step H t Ht.
  nc_step H. nc_step H. nc_step H.
  lift_step H d Hd.
  nc_step H. nc_step H. nc_step H.
  step H. rename a into daily, E into Hloc.
  step H. rename E into Hdec. destruct a.
  unfold locate_daily_files in Hloc.
  apply bind_ok in Hloc. destruct Hloc as (path & sd & Hdl & Hret).
  injection Hret as <- <-.
  pose proof (keeps_files_decode_and_insert _ _ _ _ _ _ _ Hdec) as Hk.
  eexists d, _, sd, path. split; [exact Hd|]. split; [|split; [exact Hdl|]].
  { reflexivity. }
  assert (Hsome : is_Some (files sd !! path)).
  { unfold decode_and_insert in Hdec.
    destruct (negb (String.eqb obs_type "icdr")).
    - apply bind_ok in Hdec. destruct Hdec as (buf & s2 & Hr & _).
      unfold np_fromfile, bind, get_file in Hr.
      destruct (files sd !! path); [eauto | discriminate Hr].
    - apply bind_ok in Hdec. destruct Hdec as (values & s2 & Hr & _).
      unfold read_cmorph_variable, bind, get_file in Hr. cbn [py_str] in Hr.
      destruct (files sd !! path); [eauto | discriminate Hr]. }
  split; [exact Hsome|].
  destruct rm; cbn [when] in H.
  - unfold remove_daily, os_remove in H. rewrite Hk in H.
    destruct (files sd !! path); [|discriminate H].
    injection H as <-. reflexivity.
  - injection H as <-. exact Hk.
Qed.

(** X18: the clean-up removes the descriptor and the decompressed daily
    file but not the compressed file that was downloaded: after a run for
    raw or adjusted files with download and clean-up that ended without
    an exception, the [.gz] (or [.bz2]) file is still in the work
    directory. *)
Theorem cleanup_leaves_the_compressed_download
    (w : World) (fuel : nat) (cmorph_dir netcdf_file target obs_type : string)
    (conus_only : bool) (fs fs' : gmap string file) :
  obs_type = "raw" \/ obs_type = "adjusted" ->
  run w fuel cmorph_dir netcdf_file target obs_type true true conus_only fs = (Ok tt, fs') ->
  exists d,
    strptime_Ymd target = Ok d /\
    (netcdf_file <> descriptor_path cmorph_dir ->
       fs' !! descriptor_path cmorph_dir = None) /\
    (netcdf_file <> unzipped_path cmorph_dir obs_type d ->
       fs' !! unzipped_path cmorph_dir obs_type d = None) /\
    (netcdf_file <> zipped_path cmorph_dir obs_type d ->
       exists zb, fs' !! zipped_path cmorph_dir obs_type d = Some (RawFile zb)).
Proof.
  intros Hobs H. apply run_ok in H.
  destruct H as (_ & dd & axes & s0 & s1 & a & t & d0 & data & g & H).
  destruct H as (Hrd & _ & Hbody & -> & _).
  apply archive_body_files in Hbody.
  destruct Hbody as (d & sa & sd & path & Hd & Hsa & Hdl & _ & Hfiles).
  cbn [files] in Hsa.
  apply download_ok in Hdl. destruct Hdl as [_ Hdl].
  assert (Eb : String.eqb obs_type "adjusted" || String.eqb obs_type "raw" = true)
    by (destruct Hobs as [-> | ->]; reflexivity).
  rewrite Eb in Hdl. destruct Hdl as (-> & zb & out & Hsd).
  rewrite Hsd, Hsa in Hfiles.
  pose proof (read_description_removes _ _ _ _ _ _ _ Hrd) as Hdesc.
  pose proof (zipped_not_unzipped cmorph_dir obs_type d) as N1.
  pose proof (unzipped_not_descriptor cmorph_dir obs_type d) as N2.
  pose proof (zipped_not_descriptor cmorph_dir obs_type d) as N3.
  exists d. split; [exact Hd|]. rewrite Hfiles.
  split; [|split]; intros Hne.
  - rewrite lookup_insert_ne, lookup_delete_ne, !lookup_insert_ne by congruence.
    exact Hdesc.
  - rewrite lookup_insert_ne by congruence. apply lookup_delete_eq.
  - exists zb.
    rewrite lookup_insert_ne, lookup_delete_ne, !lookup_insert_ne by congruence.
    apply lookup_insert_eq.
Qed.

Lemma cleanup_leaves_the_compressed_download_witness :
  exists zb,
    snd (run (sample_world tiny_ctl) 10 "work" "out.nc" "2020-03-01" "raw" true true false
             (sample_files tiny_ctl))
      !! "work/CMORPH_V0.x_RAW_0.25deg-DLY_00Z_20200301.gz" = Some (RawFile zb).
Proof.
  assert (Hok : fst (run (sample_world tiny_ctl) 10 "work" "out.nc" "2020-03-01" "raw"
                         true true false (sample_files tiny_ctl)) = Ok tt)
    by (vm_compute; reflexivity).
  destruct (cleanup_leaves_the_compressed_download (sample_world tiny_ctl) 10 "work"
              "out.nc" "2020-03-01" "raw" false (sample_files tiny_ctl) _
              (or_introl eq_refl) (run_result_eta _ _ _ _ _ _ _ _ _ _ _ Hok))
    as (d & Hd & _ & _ & H).
  vm_compute in Hd. injection Hd as <-.
  apply H. discriminate.
Defined.

Lemma read_description_succeeds (w : World) (dir : string) (rm : bool) (obs_type : string)
    (s : State) (bs : list byte) (dd : data_dict) :
  remote w (descriptor_url obs_type) = Some (RawFile bs) ->
  parse_descriptor obs_type (string_of_bytes bs) = Ok dd ->
  exists s', _read_description w dir true rm obs_type s = (Ok dd, s') /\
             output_dataset s' = output_dataset s.
Proof.
  intros Hr Hp. unfold _read_description, bind, when, urlretrieve. rewrite Hr.
  unfold set_file, read_text, bind, get_file. cbn [files output_dataset].
  rewrite lookup_insert_eq. cbn [of_option]. unfold ret, lift. rewrite Hp.
  destruct rm.
  - unfold os_remove. cbn [files output_dataset]. rewrite lookup_insert_eq.
    eexists. split; reflexivity.
  - eexists. split; reflexivity.
Qed.

Lemma download_succeeds (w : World) (dir obs_type : string) (d : date) (s : State)
    (zb out : list byte) :
  obs_type = "raw" \/ obs_type = "adjusted" ->
  remote w (daily_url obs_type d) = Some (RawFile zb) ->
  unzip_for w obs_type zb = Some out ->
  _download_daily_files w dir (year d) (month d) (day d) obs_type s =
  (Ok (unzipped_path dir obs_type d),
   mk_state (<[unzipped_path dir obs_type d := RawFile out]>
             (<[unzipped_path dir obs_type d := RawFile []]>
              (<[zipped_path dir obs_type d := RawFile zb]> (files s))))
            (output_dataset s)).
Proof.
  intros Hobs Hr Hz. unfold _download_daily_files. cbv zeta.
  fold (zip_extension obs_type).
  fold (unzipped_path dir obs_type d). fold (zipped_path dir obs_type d).
  unfold bind at 1. unfold urlretrieve.
  change (remote w _) with (remote w (daily_url obs_type d)).
  rewrite Hr. unfold set_file at 1.
  assert (Hd : forall unzip, unzip zb = Some out ->
            bind (decompress_to unzip (zipped_path dir obs_type d)
                    (unzipped_path dir obs_type d))
                 (fun _ => ret (unzipped_path dir obs_type d))
                 (mk_state (<[zipped_path dir obs_type d := RawFile zb]> (files s))
                           (output_dataset s))
            = (Ok (unzipped_path dir obs_type d),
               mk_state (<[unzipped_path dir obs_type d := RawFile out]>
                         (<[unzipped_path dir obs_type d := RawFile []]>
                          (<[zipped_path dir obs_type d := RawFile zb]> (files s))))
                        (output_dataset s))).
  { intros unzip Hu. unfold decompress_to, bind, get_file, set_file.
    cbn [files output_dataset]. rewrite lookup_insert_eq. cbn [of_option].
    rewrite Hu. reflexivity. }
  unfold unzip_for in Hz. destruct Hobs as [-> | ->].
  - change (String.eqb "raw" "adjusted") with false in *.
    change (String.eqb "raw" "raw") with true. cbv iota. exact (Hd _ Hz).
  - change (String.eqb "adjusted" "adjusted") with true in *. cbv iota. exact (Hd _ Hz).
Qed.

(** X19: when a download run goes through.  For raw or adjusted files, if
    the server holds a descriptor that parses with a title and gives the
    axes, the date is a date, the server holds the daily file at the URL
    built from the date, it decompresses, it decodes with the descriptor,
    and the cropped grid fits the dimensions, then the run ends without
    an exception, whatever was in the work directory and whether or not
    clean-up was asked for. *)
Theorem download_run_succeeds
    (w : World) (fuel : nat) (cmorph_dir netcdf_file target obs_type : string)
    (remove_files conus_only : bool) (fs : gmap string file)
    (bs zb buf : list byte) (dd : data_dict) (axes : Axes) (t : string) (d : date)
    (data g : Grid) :
  obs_type = "raw" \/ obs_type = "adjusted" ->
  remote w (descriptor_url obs_type) = Some (RawFile bs) ->
  parse_descriptor obs_type (string_of_bytes bs) = Ok dd ->
  compute_axes fuel dd conus_only = Ok axes ->
  title dd = Some t ->
  strptime_Ymd target = Ok d ->
  remote w (daily_url obs_type d) = Some (RawFile zb) ->
  unzip_for w obs_type zb = Some buf ->
  decode_binary dd buf = Ok data ->
  nc_conform (length (lat_values axes)) (length (lon_values axes))
             (crop data (lat_len axes) (lon_len axes)) = Ok g ->
  fst (run w fuel cmorph_dir netcdf_file target obs_type true remove_files conus_only fs)
  = Ok tt.
Proof.
  intros Hobs Hrd Hparse Hax Ht Hd Hrf Hz Hdec Hc.
  destruct (read_description_succeeds w cmorph_dir remove_files obs_type
              (mk_state fs empty_dataset) bs dd Hrd Hparse) as (s0 & Hs0 & _).
  assert (Hp : prelude w fuel cmorph_dir obs_type true remove_files conus_only
                 (mk_state fs empty_dataset) = (Ok (dd, axes), s0)).
  { unfold prelude, bind. rewrite Hs0. unfold lift. rewrite Hax. reflexivity. }
  unfold run, ingest_cmorph_to_netcdf. unfold bind at 1. rewrite Hp. cbn [fst snd].
  unfold archive_block, with_dataset_w, archive_body.
  assert (Hi : negb (String.eqb obs_type "icdr") = true)
    by (destruct Hobs as [-> | ->]; reflexivity).
  unfold bind, nc, lift, locate_daily_files. rewrite Ht, Hd.
  cbn [getitem of_option files output_dataset]. unfold bind.
  rewrite (download_succeeds w cmorph_dir obs_type d _ zb buf Hobs Hrf Hz).
  unfold ret, decode_and_insert. rewrite Hi.
  unfold bind, np_fromfile, bind, get_file, ret, lift.
  cbn [files output_dataset]. rewrite lookup_insert_eq. cbn [of_option].
  rewrite Hdec. unfold assign_prcp_slice.
  cbn [files output_dataset dim_lat dim_lon set_attrs create_prcp set_coordinates
       set_title set_dims].
  rewrite Hc.
  destruct remove_files; cbn [when]; [|reflexivity].
  unfold remove_daily, os_remove. cbn [files output_dataset].
  rewrite lookup_insert_eq. reflexivity.
Qed.

Lemma download_run_succeeds_witness :
  fst (run (sample_world tiny_ctl) 10 "work" "out.nc" "2020-03-01" "raw" true true false ∅)
  = Ok tt.
Proof.
  set (dd := mk_dict (py_float "-999.0") (Some 4) (py_float "0.0") (py_float "1.0")
                     (Some 3) (py_float "0.0") (py_float "1.0") None (Some true) None
                     (Some "tiny grid")).
  set (axes := mk_axes 3 4 [F64.of_Z 0; F64.of_Z 1; F64.of_Z 2]
                           [F64.of_Z 0; F64.of_Z 1; F64.of_Z 2; F64.of_Z 3]).
  set (data := mk_grid 3 4 (mask_undef minus_999 (elements true tiny_buffer))).
  apply (download_run_succeeds (sample_world tiny_ctl) 10 "work" "out.nc" "2020-03-01" "raw"
           true false ∅ (list_byte_of_string tiny_ctl) tiny_buffer tiny_buffer
           dd axes "tiny grid" (mk_date 2020 3 1) data (crop data 3 4));
    first [ left; reflexivity | vm_compute; reflexivity ].
Defined.

(** ** [_compute_days_full_years] *)

Lemma py_range_length (a b : Z) : length (py_range a b) = Z.to_nat (b - a).
Proof. unfold py_range. rewrite length_map, length_seq. reflexivity. Qed.

Lemma py_range_nth (a b : Z) (k : nat) :
  (k < Z.to_nat (b - a))%nat -> nth_error (py_range a b) k = Some (a + Z.of_nat k).
Proof.
  intros Hk. unfold py_range. rewrite nth_error_map, nth_error_seq.
  destruct (Nat.ltb_spec k (Z.to_nat (b - a))); [reflexivity | lia].
Qed.

Lemma days_before_year_add (y : Z) (n : nat) :
  days_before_year (y + Z.of_nat n) = days_before_year y + days_in_years y n.
Proof.
  revert y. induction n as [|n IH]; intros y.
  - cbn [days_in_years]. rewrite Z.add_0_r. lia.
  - replace (y + Z.of_nat (S n)) with ((y + 1) + Z.of_nat n) by lia.
    rewrite IH, days_before_year_succ. cbn [days_in_years]. lia.
Qed.

Lemma days_in_years_nonneg (y : Z) (n : nat) : 0 <= days_in_years y n.
Proof.
  revert y. induction n as [|n IH]; intros y; cbn [days_in_years]; [lia|].
  specialize (IH (y + 1)). destruct (is_leap y); lia.
Qed.

Lemma days_before_year_mono (y1 y2 : Z) :
  y1 <= y2 -> days_before_year y1 <= days_before_year y2.
Proof.
  intros H. replace y2 with (y1 + Z.of_nat (Z.to_nat (y2 - y1))) by lia.
  rewrite days_before_year_add.
  pose proof (days_in_years_nonneg y1 (Z.to_nat (y2 - y1))). lia.
Qed.

Lemma days_before_month_nonneg (y m : Z) : 0 <= days_before_month y m.
Proof.
  unfold days_before_month. induction (Z.to_nat (m - 1)) as [|n IH];
    cbn [days_before_month_go]; [lia|].
  pose proof (days_in_month_bounds y (Z.of_nat (S n))). lia.
Qed.

(** X20: with the default months and days, [_compute_days_full_years]
    returns one value per calendar day of the years [year_initial] to
    [year_final] (365 or 366 per year): they are consecutive integers,
    the k-th being the number of days from January 1st of [year_since] to
    the k-th day after January 1st of [year_initial]. *)
Theorem days_of_full_years (year_initial year_final year_since : Z) :
  1 <= year_since <= year_initial -> year_initial <= year_final <= 9999 ->
  exists l,
    _compute_days_full_years year_initial year_final year_since 1 1 12 31 = Ok l /\
    Z.of_nat (length l) =
      days_in_years year_initial (Z.to_nat (year_final - year_initial + 1)) /\
    (forall k, (k < length l)%nat ->
       nth_error l k =
       Some (days_between (Nat.iter k next_day (mk_date year_initial 1 1))
                          (mk_date year_since 1 1))) /\
    (forall k x y, nth_error l k = Some x -> nth_error l (S k) = Some y -> y = x + 1).
Proof.
  intros Hs Hf. unfold _compute_days_full_years.
  destruct (Z.ltb_spec year_initial year_since); [lia|].
  destruct (Z.ltb_spec year_final year_initial); [lia|].
  assert (Hc : forall y, 1 <= y <= 9999 -> c_int y = true).
  { intros y Hy. unfold c_int.
    destruct (Z.leb_spec (- 2 ^ 31) y); [|lia]. destruct (Z.ltb_spec y (2 ^ 31)); [|lia].
    reflexivity. }
  assert (Hmk : forall y, 1 <= y <= 9999 -> make_date y 1 1 = Ok (mk_date y 1 1)).
  { intros y Hy. unfold make_date. rewrite (Hc y Hy).
    destruct (Z.leb_spec 1 y); [|lia]. destruct (Z.leb_spec y 9999); [|lia]. reflexivity. }
  assert (Hmk' : make_date year_final 12 31 = Ok (mk_date year_final 12 31)).
  { unfold make_date. rewrite (Hc year_final) by lia.
    destruct (Z.leb_spec 1 year_final); [|lia].
    destruct (Z.leb_spec year_final 9999); [|lia]. reflexivity. }
  rewrite (Hmk year_initial) by lia. rewrite Hmk'. rewrite (Hmk year_since) by lia.
  cbn [rbind]. eexists. split; [reflexivity|].
  set (di := mk_date year_initial 1 1). set (ds := mk_date year_since 1 1).
  set (df := mk_date year_final 12 31).
  assert (Hvi : valid_date di) by (unfold valid_date, di; cbn; lia).
  assert (Htot : days_between df di + 1 =
                 days_in_years year_initial (Z.to_nat (year_final - year_initial + 1))).
  { unfold days_between, toordinal, df, di. cbn [year month day].
    change (days_before_month year_initial 1) with 0.
    pose proof (days_before_december year_final) as H12.
    pose proof (days_before_year_succ year_final) as Hsucc.
    pose proof (days_before_year_add year_initial (Z.to_nat (year_final - year_initial + 1)))
      as Hadd.
    replace (year_initial + Z.of_nat (Z.to_nat (year_final - year_initial + 1)))
      with (year_final + 1) in Hadd by lia.
    lia. }
  pose proof (days_in_years_nonneg year_initial (Z.to_nat (year_final - year_initial + 1)))
    as Hnn.
  rewrite py_range_length.
  replace (days_between di ds + (days_between df di + 1) - days_between di ds)
    with (days_between df di + 1) by lia.
  split; [lia|]. split.
  - intros k Hk. rewrite py_range_nth by lia. f_equal.
    destruct (iter_next_day di k Hvi) as [_ Ho]. unfold days_between. lia.
  - intros k x y Hx Hy.
    assert (Hk : (S k < Z.to_nat (days_between df di + 1))%nat).
    { apply nth_error_lt in Hy. rewrite py_range_length in Hy. lia. }
    rewrite py_range_nth in Hx, Hy by lia.
    injection Hx as <-. injection Hy as <-. lia.
Qed.

Lemma days_of_full_years_witness :
  exists l, _compute_days_full_years 1998 1999 1900 1 1 12 31 = Ok l /\
            length l = 730%nat /\ nth_error l 0 = Some 35794.
Proof.
  destruct (days_of_full_years 1998 1999 1900 ltac:(lia) ltac:(lia))
    as (l & Hl & Hlen & Hk & _).
  exists l. split; [exact Hl|].
  assert (E : days_in_years 1998 (Z.to_nat (1999 - 1998 + 1)) = 730) by reflexivity.
  assert (Hlen' : length l = 730%nat) by lia.
  split; [exact Hlen'|]. rewrite Hk by lia. reflexivity.
Defined.

Lemma make_date_raises (y m d : Z) (e : exn) :
  make_date y m d = Raise e ->
  (e = OverflowError /\ c_int y && c_int m && c_int d = false) \/
  (e = ValueError /\ c_int y && c_int m && c_int d = true).
Proof.
  unfold make_date. destruct (c_int y && c_int m && c_int d); cbn [negb].
  - destruct (_ && _); [discriminate|]. intros H. injection H as <-. right. split; reflexivity.
  - intros H. injection H as <-. left. split; reflexivity.
Qed.

Lemma make_date_year (y m d : Z) (dt : date) :
  make_date y m d = Ok dt -> dt = mk_date y m d /\ 1 <= y <= 9999.
Proof.
  unfold make_date. destruct (negb _); [discriminate|].
  destruct (_ && _) eqn:E; [|discriminate]. intros H. injection H as <-.
  repeat (apply andb_prop in E; destruct E as [E ?]). split; [reflexivity | lia].
Qed.

(** X21: [_compute_days_full_years] raises ValueError when the initial
    year is before the since-year or the final year before the initial
    one.  It raises nothing but ValueError and OverflowError, the latter
    only when an argument does not fit a C int (then [datetime] refuses
    it); with arguments that fit, every failure is a ValueError.  What it
    returns are consecutive integers, none of them negative, one per day
    from the initial to the final date (none when the final date is
    before the initial date). *)
Theorem days_are_consecutive_and_not_negative
    (year_initial year_final year_since month_initial day_initial month_final day_final : Z) :
  (year_initial < year_since \/ year_final < year_initial ->
   _compute_days_full_years year_initial year_final year_since
     month_initial day_initial month_final day_final = Raise ValueError) /\
  match _compute_days_full_years year_initial year_final year_since
          month_initial day_initial month_final day_final with
  | Raise e =>
      e = ValueError \/
      (e = OverflowError /\
       c_int year_initial && c_int month_initial && c_int day_initial &&
       c_int year_final && c_int month_final && c_int day_final &&
       c_int year_since = false)
  | Ok l =>
      Forall (fun x => 0 <= x) l /\
      (forall k x y, nth_error l k = Some x -> nth_error l (S k) = Some y -> y = x + 1) /\
      exists di df,
        make_date year_initial month_initial day_initial = Ok di /\
        make_date year_final month_final day_final = Ok df /\
        length l = Z.to_nat (days_between df di + 1)
  end.
Proof.
  unfold _compute_days_full_years. split.
  - intros [H | H].
    + destruct (Z.ltb_spec year_initial year_since); [reflexivity | lia].
    + destruct (Z.ltb_spec year_initial year_since); [reflexivity|].
      destruct (Z.ltb_spec year_final year_initial); [reflexivity | lia].
  - destruct (Z.ltb_spec year_initial year_since) as [|Hs]; [left; reflexivity|].
    destruct (Z.ltb_spec year_final year_initial) as [|Hf]; [left; reflexivity|].
    destruct (make_date year_initial month_initial day_initial) as [di|e1] eqn:E1.
    2:{ cbn [rbind]. apply make_date_raises in E1.
        destruct E1 as [[-> E1] | [-> _]]; [right | left; reflexivity].
        split; [reflexivity|]. rewrite E1. reflexivity. }
    destruct (make_date year_final month_final day_final) as [df|e2] eqn:E2.
    2:{ cbn [rbind]. apply make_date_raises in E2.
        destruct E2 as [[-> E2] | [-> _]]; [right | left; reflexivity].
        split; [reflexivity|].
        destruct (c_int year_final), (c_int month_final), (c_int day_final);
          try discriminate E2; cbn [andb]; rewrite ?andb_false_r; reflexivity. }
    destruct (make_date year_since 1 1) as [ds|e3] eqn:E3.
    2:{ cbn [rbind]. apply make_date_raises in E3.
        destruct E3 as [[-> E3] | [-> _]]; [right | left; reflexivity].
        split; [reflexivity|].
        change (c_int 1) with true in E3. rewrite !andb_true_r in E3.
        rewrite E3. apply andb_false_r. }
    cbn [rbind].
    assert (H0 : 0 <= days_between di ds).
    { pose proof (make_date_valid _ _ _ _ E1) as [Hm Hd].
      apply make_date_year in E1. destruct E1 as [-> _].
      apply make_date_year in E3. destruct E3 as [-> _].
      unfold days_between, toordinal. cbn [year month day] in *.
      change (days_before_month year_since 1) with 0.
      pose proof (days_before_year_mono year_since year_initial Hs).
      pose proof (days_before_month_nonneg year_initial month_initial). lia. }
    split; [|split].
    + apply Stdlib.Lists.List.Forall_forall. intros x Hx.
      unfold py_range in Hx. apply in_map_iff in Hx. destruct Hx as (k & <- & _). lia.
    + intros k x y Hx Hy.
      assert (Hk : (S k < Z.to_nat (days_between di ds + (days_between df di + 1)
                                    - days_between di ds))%nat).
      { apply nth_error_lt in Hy. rewrite py_range_length in Hy. exact Hy. }
      rewrite py_range_nth in Hx, Hy by lia.
      injection Hx as <-. injection Hy as <-. lia.
    + exists di, df. split; [reflexivity|]. split; [reflexivity|].
      rewrite py_range_length. f_equal. lia.
Qed.

Lemma days_are_consecutive_and_not_negative_witness :
  _compute_days_full_years 1899 1999 1900 1 1 12 31 = Raise ValueError /\
  _compute_days_full_years 1998 1997 1900 1 1 12 31 = Raise ValueError /\
  _compute_days_full_years (2 ^ 31) (2 ^ 31) 1900 1 1 12 31 = Raise OverflowError.
Proof.
  split; [|split].
  - apply (days_are_consecutive_and_not_negative 1899 1999 1900 1 1 12 31). left. lia.
  - apply (days_are_consecutive_and_not_negative 1998 1997 1900 1 1 12 31). right. lia.
  - vm_compute. reflexivity.
Defined.
